(** * Payment order lifecycle: a shallow embedding of the payment controller

    Source files embedded here:
    - [controllers/paymentController.js]: the HTTP handlers
      ([createPayment], [updatePaymentStatus], [processRefund],
      [createRazorpayOrderHandler], [verifyRazorpayPayment],
      [razorpayWebhook] and its three helpers);
    - [utils/razorpay.js]: the gateway adapter ([createRazorpayOrder],
      [verifyPaymentSignature], [getPaymentDetails], [processRazorpayRefund]);
    - [models/Payment.js]: the schema of the payment document.

    JavaScript numbers are IEEE 754 doubles (the kernel's [float]); objects used
    as key-value bags are finite maps; a handler is a computation over the
    database, the gateway and the process state that either returns or throws. *)

From Stdlib Require Import Floats ZArith String List Bool DecimalString.
From stdpp Require Import gmap strings.
Import ListNotations.
Open Scope string_scope.

(** ** JavaScript values *)

#[warnings="-register-all"]
Inductive JsValue :=
| JUndefined
| JNull
| JBool (b : bool)
| JNumber (x : float)
| JString (s : string)
| JArray (xs : list JsValue)
| JObject (o : gmap string JsValue).

(** A plain object: [{...a, k: v}] is [<[k:=v]> a], [{...a, ...b}] is [b ∪ a]. *)
Abbreviation JsObject := (gmap string JsValue).

Module Js.

(** [!x] on a number: [0], [-0] and [NaN] are falsy. *)
Definition falsy_num (x : float) : bool :=
  PrimFloat.eqb x 0 || PrimFloat.is_nan x.

(** Truthiness of a value that is a string or [undefined]/[null]. *)
Definition truthy_str (s : option string) : bool :=
  match s with
  | Some s => negb (String.eqb s "")
  | None => false
  end.

(** [a || b] where [a] is a string or [undefined] and [b] is a string. *)
Definition or_str (a : option string) (b : string) : string :=
  match a with
  | Some s => if String.eqb s "" then b else s
  | None => b
  end.

(** [a || null] where [a] is a string or [undefined]. *)
Definition or_null (a : option string) : option string :=
  match a with
  | Some s => if String.eqb s "" then None else Some s
  | None => None
  end.

(** A property of a gateway object that holds a string when it is there:
    the key may be missing ([undefined]) or carry a JSON [null]. *)
Inductive property :=
| Undefined
| Null
| Str (s : string).

(** The operand [a] of [a || b]: [undefined] and [null] are falsy, as is the
    empty string (see [or_str]). *)
Definition text (a : property) : option string :=
  match a with
  | Str s => Some s
  | Undefined | Null => None
  end.

(** The key [k: a] of an object literal, as the object is written out by
    [JSON.stringify] and by the database driver: a key whose value is
    [undefined] is not written, [null] is. *)
Definition write (k : string) (a : property) (o : JsObject) : JsObject :=
  match a with
  | Undefined => o
  | Null => <[k := JNull]> o
  | Str s => <[k := JString s]> o
  end.

(** [{...o}] where [o] is an object, [undefined] or [null]. *)
Definition spread (o : option JsObject) : JsObject :=
  match o with
  | Some m => m
  | None => ∅
  end.

(** [if (a) x = f(a, x)] where [a] is a string or [undefined]. *)
Definition when_truthy {A} (a : option string) (f : string -> A -> A) (x : A) : A :=
  match a with
  | Some s => if String.eqb s "" then x else f s x
  | None => x
  end.

(** Template-literal rendering of a non-negative integer. *)
Definition show_N (n : N) : string := NilZero.string_of_uint (N.to_uint n).

End Js.

(** ** The payment document ([models/Payment.js])

    The fields of [paymentSchema]. [refundAmount] has the schema default [0];
    an optional path that was never assigned is [None]. The [createdAt] and
    [updatedAt] stamps that the [timestamps] option maintains are left out. *)

Definition ObjectId := string.
Definition Date := N.

Inductive PaymentStatus :=
| pending | processing | completed | failed | refunded | cancelled.

Definition PaymentStatus_eqb (a b : PaymentStatus) : bool :=
  match a, b with
  | pending, pending | processing, processing | completed, completed
  | failed, failed | refunded, refunded | cancelled, cancelled => true
  | _, _ => false
  end.

Record Item := {
  itemType : string;
  itemId : ObjectId;
  itemName : string;
  quantity : float;
  price : float
}.

Record Payment := {
  _id : ObjectId;
  user : ObjectId;
  userName : string;
  userEmail : string;
  orderId : string;
  transactionId : option string;
  amount : float;
  currency : string;
  paymentMethod : string;
  paymentStatus : PaymentStatus;
  paymentGateway : string;
  items : list Item;
  billingAddress : option JsObject;
  receiptUrl : option string;
  invoiceUrl : option string;
  refundAmount : float;
  refundReason : option string;
  refundedAt : option Date;
  notes : option string;
  metadata : option JsObject
}.

(** Assignments to the paths of a loaded document. *)
Definition set_paymentStatus (s : PaymentStatus) (p : Payment) : Payment :=
  {| _id := _id p; user := user p; userName := userName p; userEmail := userEmail p;
     orderId := orderId p; transactionId := transactionId p; amount := amount p;
     currency := currency p; paymentMethod := paymentMethod p; paymentStatus := s;
     paymentGateway := paymentGateway p; items := items p;
     billingAddress := billingAddress p; receiptUrl := receiptUrl p;
     invoiceUrl := invoiceUrl p; refundAmount := refundAmount p;
     refundReason := refundReason p; refundedAt := refundedAt p; notes := notes p;
     metadata := metadata p |}.

Definition set_transactionId (t : string) (p : Payment) : Payment :=
  {| _id := _id p; user := user p; userName := userName p; userEmail := userEmail p;
     orderId := orderId p; transactionId := Some t; amount := amount p;
     currency := currency p; paymentMethod := paymentMethod p;
     paymentStatus := paymentStatus p;
     paymentGateway := paymentGateway p; items := items p;
     billingAddress := billingAddress p; receiptUrl := receiptUrl p;
     invoiceUrl := invoiceUrl p; refundAmount := refundAmount p;
     refundReason := refundReason p; refundedAt := refundedAt p; notes := notes p;
     metadata := metadata p |}.

Definition set_paymentMethod (m : string) (p : Payment) : Payment :=
  {| _id := _id p; user := user p; userName := userName p; userEmail := userEmail p;
     orderId := orderId p; transactionId := transactionId p; amount := amount p;
     currency := currency p; paymentMethod := m; paymentStatus := paymentStatus p;
     paymentGateway := paymentGateway p; items := items p;
     billingAddress := billingAddress p; receiptUrl := receiptUrl p;
     invoiceUrl := invoiceUrl p; refundAmount := refundAmount p;
     refundReason := refundReason p; refundedAt := refundedAt p; notes := notes p;
     metadata := metadata p |}.

Definition set_receiptUrl (r : option string) (p : Payment) : Payment :=
  {| _id := _id p; user := user p; userName := userName p; userEmail := userEmail p;
     orderId := orderId p; transactionId := transactionId p; amount := amount p;
     currency := currency p; paymentMethod := paymentMethod p;
     paymentStatus := paymentStatus p;
     paymentGateway := paymentGateway p; items := items p;
     billingAddress := billingAddress p; receiptUrl := r;
     invoiceUrl := invoiceUrl p; refundAmount := refundAmount p;
     refundReason := refundReason p; refundedAt := refundedAt p; notes := notes p;
     metadata := metadata p |}.

Definition set_invoiceUrl (r : string) (p : Payment) : Payment :=
  {| _id := _id p; user := user p; userName := userName p; userEmail := userEmail p;
     orderId := orderId p; transactionId := transactionId p; amount := amount p;
     currency := currency p; paymentMethod := paymentMethod p;
     paymentStatus := paymentStatus p;
     paymentGateway := paymentGateway p; items := items p;
     billingAddress := billingAddress p; receiptUrl := receiptUrl p;
     invoiceUrl := Some r; refundAmount := refundAmount p;
     refundReason := refundReason p; refundedAt := refundedAt p; notes := notes p;
     metadata := metadata p |}.

Definition set_notes (n : string) (p : Payment) : Payment :=
  {| _id := _id p; user := user p; userName := userName p; userEmail := userEmail p;
     orderId := orderId p; transactionId := transactionId p; amount := amount p;
     currency := currency p; paymentMethod := paymentMethod p;
     paymentStatus := paymentStatus p;
     paymentGateway := paymentGateway p; items := items p;
     billingAddress := billingAddress p; receiptUrl := receiptUrl p;
     invoiceUrl := invoiceUrl p; refundAmount := refundAmount p;
     refundReason := refundReason p; refundedAt := refundedAt p; notes := Some n;
     metadata := metadata p |}.

Definition set_metadata (m : JsObject) (p : Payment) : Payment :=
  {| _id := _id p; user := user p; userName := userName p; userEmail := userEmail p;
     orderId := orderId p; transactionId := transactionId p; amount := amount p;
     currency := currency p; paymentMethod := paymentMethod p;
     paymentStatus := paymentStatus p;
     paymentGateway := paymentGateway p; items := items p;
     billingAddress := billingAddress p; receiptUrl := receiptUrl p;
     invoiceUrl := invoiceUrl p; refundAmount := refundAmount p;
     refundReason := refundReason p; refundedAt := refundedAt p; notes := notes p;
     metadata := Some m |}.

Definition set_refundAmount (a : float) (p : Payment) : Payment :=
  {| _id := _id p; user := user p; userName := userName p; userEmail := userEmail p;
     orderId := orderId p; transactionId := transactionId p; amount := amount p;
     currency := currency p; paymentMethod := paymentMethod p;
     paymentStatus := paymentStatus p;
     paymentGateway := paymentGateway p; items := items p;
     billingAddress := billingAddress p; receiptUrl := receiptUrl p;
     invoiceUrl := invoiceUrl p; refundAmount := a;
     refundReason := refundReason p; refundedAt := refundedAt p; notes := notes p;
     metadata := metadata p |}.

Definition set_refundReason (r : string) (p : Payment) : Payment :=
  {| _id := _id p; user := user p; userName := userName p; userEmail := userEmail p;
     orderId := orderId p; transactionId := transactionId p; amount := amount p;
     currency := currency p; paymentMethod := paymentMethod p;
     paymentStatus := paymentStatus p;
     paymentGateway := paymentGateway p; items := items p;
     billingAddress := billingAddress p; receiptUrl := receiptUrl p;
     invoiceUrl := invoiceUrl p; refundAmount := refundAmount p;
     refundReason := Some r; refundedAt := refundedAt p; notes := notes p;
     metadata := metadata p |}.

Definition set_refundedAt (d : Date) (p : Payment) : Payment :=
  {| _id := _id p; user := user p; userName := userName p; userEmail := userEmail p;
     orderId := orderId p; transactionId := transactionId p; amount := amount p;
     currency := currency p; paymentMethod := paymentMethod p;
     paymentStatus := paymentStatus p;
     paymentGateway := paymentGateway p; items := items p;
     billingAddress := billingAddress p; receiptUrl := receiptUrl p;
     invoiceUrl := invoiceUrl p; refundAmount := refundAmount p;
     refundReason := refundReason p; refundedAt := Some d; notes := notes p;
     metadata := metadata p |}.

(** ** The gateway's objects (Razorpay SDK) *)

Module PaymentEntity.
(** A gateway payment, as [payments.fetch] returns it and as a
    [payment.*] webhook carries it in [payload.payment.entity]. *)
Record t := {
  id : string;
  order_id : string;
  status : string;
  method : Js.property;
  receipt : option string;
  bank : Js.property;
  wallet : Js.property;
  vpa : Js.property;
  email : Js.property;
  contact : Js.property;
  error_description : option string
}.
End PaymentEntity.

Module RazorpayOrder.
(** A gateway order, as [orders.create] returns it and as an [order.paid]
    webhook carries it in [payload.order.entity]. *)
Record t := {
  id : string;
  amount : float;
  currency : string;
  receipt : option string;
  status : string
}.
End RazorpayOrder.

Module OrderOptions.
Record t := {
  amount : float;
  currency : string;
  receipt : string;
  notes : JsObject
}.
End OrderOptions.

Module RefundOptions.
(** [None] is a key that was never assigned. *)
Record t := {
  amount : option float;
  notes : option JsObject
}.
End RefundOptions.

Inductive GatewayCall :=
| OrdersCreate (options : OrderOptions.t)
| PaymentsFetch (paymentId : string)
| PaymentsRefund (paymentId : string) (options : RefundOptions.t).

Module WebhookEvent.
(** A parsed webhook body. [payment_entity] is [event.payload.payment.entity]:
    [None] when the path [event.payload.payment] does not exist (reading
    [.entity] throws a TypeError), [Some None] when the entity itself is
    [undefined]; likewise [order_entity]. *)
Record t := {
  event : option string;
  payment_entity : option (option PaymentEntity.t);
  order_entity : option (option RazorpayOrder.t)
}.
End WebhookEvent.

(** ** The environment of the process

    [process.env], the [crypto] and [JSON] built-ins, the gateway behind the
    Razorpay SDK, and MongoDB's verdict on a write (schema validators and
    unique indexes). A gateway or parser result [inl msg] is a thrown error. *)
Record Env := {
  RAZORPAY_KEY_ID : option string;
  RAZORPAY_KEY_SECRET : option string;
  RAZORPAY_WEBHOOK_SECRET : option string;
  hmac_sha256_hex : string -> string -> string;
  JSON_parse : string -> option WebhookEvent.t;
  JSON_stringify : WebhookEvent.t -> string;
  orders_create : OrderOptions.t -> string + RazorpayOrder.t;
  payments_fetch : string -> string + PaymentEntity.t;
  payments_refund : string -> RefundOptions.t -> string + JsObject;
  db_accepts : list Payment -> Payment -> bool;
  new_ObjectId : list Payment -> ObjectId
}.

(** ** The mutable world: the payments collection, the calls that reached the
    gateway, the lazily created SDK instance and the clock. *)
Record World := {
  db : list Payment;
  gateway_calls : list GatewayCall;
  razorpayInstance : option (string * string);
  clock : N
}.

Definition with_db (d : list Payment) (w : World) : World :=
  {| db := d; gateway_calls := gateway_calls w;
     razorpayInstance := razorpayInstance w; clock := clock w |}.

Definition with_call (c : GatewayCall) (w : World) : World :=
  {| db := db w; gateway_calls := gateway_calls w ++ [c];
     razorpayInstance := razorpayInstance w; clock := clock w |}.

Definition with_instance (i : string * string) (w : World) : World :=
  {| db := db w; gateway_calls := gateway_calls w;
     razorpayInstance := Some i; clock := clock w |}.

(** ** Computations that return or throw *)

Inductive Outcome (A : Type) :=
| Returned (a : A)
| Thrown (message : string).
Arguments Returned {A} a.
Arguments Thrown {A} message.

Definition Eff (A : Type) : Type := World -> Outcome A * World.

Definition ret {A} (a : A) : Eff A := fun w => (Returned a, w).

Definition throw {A} (message : string) : Eff A := fun w => (Thrown message, w).

Definition bind {A B} (c : Eff A) (k : A -> Eff B) : Eff B :=
  fun w =>
    match c w with
    | (Returned a, w') => k a w'
    | (Thrown m, w') => (Thrown m, w')
    end.

(** [try { body } catch (error) { handler(error.message) }]: what the body did
    to the world before it threw stays done. *)
Definition try_catch {A} (body : Eff A) (handler : string -> Eff A) : Eff A :=
  fun w =>
    match body w with
    | (Returned a, w') => (Returned a, w')
    | (Thrown m, w') => handler m w'
    end.

Declare Scope eff_scope.
Delimit Scope eff_scope with eff.
Notation "'do' x <- c ; k" := (bind c (fun x => k))
  (at level 10, x name, c at level 100, k at level 200) : eff_scope.
Notation "'await' c ; k" := (bind c (fun _ => k))
  (at level 10, c at level 100, k at level 200) : eff_scope.
Open Scope eff_scope.

(** ** HTTP requests and responses *)

Record User := {
  user_id : ObjectId;
  name : string;
  email : string;
  role : string
}.

Inductive ResponseData :=
| DataPayment (payment : Payment)
| DataOrder (order : RazorpayOrder.t) (keyId : option string) (payment : Payment)
| DataVerified (payment : Payment).

Module Response.
(** [res.status(status).json({ success, message, error, data })]. *)
Record t := {
  status : nat;
  success : bool;
  message : string;
  error : option string;
  data : option ResponseData
}.
End Response.

Definition reply (status : nat) (success : bool) (message : string) : Response.t :=
  {| Response.status := status; Response.success := success;
     Response.message := message; Response.error := None; Response.data := None |}.

Definition reply_data (status : nat) (message : string) (d : ResponseData) : Response.t :=
  {| Response.status := status; Response.success := true;
     Response.message := message; Response.error := None; Response.data := Some d |}.

Definition reply_error (message : string) (error : string) : Response.t :=
  {| Response.status := 500; Response.success := false;
     Response.message := message; Response.error := Some error; Response.data := None |}.

Module CreateBody.
(** Body of [POST /api/payments]. *)
Record t := {
  orderId : option string;
  transactionId : option string;
  amount : option float;
  currency : option string;
  paymentMethod : option string;
  paymentGateway : option string;
  items : option (list Item);
  billingAddress : option JsObject;
  metadata : option JsObject
}.
End CreateBody.

Module StatusBody.
(** Body of [PUT /api/payments/:id/status]. *)
Record t := {
  paymentStatus : option PaymentStatus;
  transactionId : option string;
  receiptUrl : option string;
  invoiceUrl : option string;
  notes : option string
}.
End StatusBody.

Module RefundBody.
(** Body of [PUT /api/payments/:id/refund]. *)
Record t := {
  refundAmount : option float;
  refundReason : option string;
  notes : option string
}.
End RefundBody.

Module OrderBody.
(** Body of [POST /api/payments/razorpay/create-order]. *)
Record t := {
  amount : option float;
  currency : option string;
  items : option (list Item);
  billingAddress : option JsObject;
  metadata : option JsObject
}.
End OrderBody.

Module VerifyBody.
(** Body of [POST /api/payments/razorpay/verify]. *)
Record t := {
  orderId : option string;
  paymentId : option string;
  signature : option string
}.
End VerifyBody.

Module WebhookRequest.
(** [POST /api/payments/razorpay/webhook]: the [x-razorpay-signature] header
    and the body, a raw [Buffer] or an object a body parser already built. *)
Inductive body :=
| Buffer (raw : string)
| Parsed (event : WebhookEvent.t).

Record t := {
  signature : option string;
  payload : body
}.
End WebhookRequest.

(** ** The store, the adapter and the handlers *)

Section Handlers.

Variable E : Env.

(** *** Mongoose model [Payment] *)

Definition Payment_findById (id : ObjectId) : Eff (option Payment) :=
  fun w => (Returned (List.find (fun p => String.eqb (_id p) id) (db w)), w).

(** [Payment.findOne({ orderId })]. *)
Definition Payment_findOne (oid : string) : Eff (option Payment) :=
  fun w => (Returned (List.find (fun p => String.eqb (orderId p) oid) (db w)), w).

(** The stored document with the identifier of [p] becomes [p]. *)
Fixpoint replace_doc (p : Payment) (d : list Payment) : list Payment :=
  match d with
  | [] => []
  | q :: r => if String.eqb (_id q) (_id p) then p :: r else q :: replace_doc p r
  end.

(** [payment.save()]: throws when the database refuses the write. *)
Definition Payment_save (p : Payment) : Eff unit :=
  fun w =>
    if db_accepts E (db w) p
    then (Returned tt, with_db (replace_doc p (db w)) w)
    else (Thrown "Payment validation failed", w).

(** [Payment.create(data)]: the document gets a new identifier. *)
Definition Payment_create (data : ObjectId -> Payment) : Eff Payment :=
  fun w =>
    let p := data (new_ObjectId E (db w)) in
    if db_accepts E (db w) p
    then (Returned p, with_db (db w ++ [p]) w)
    else (Thrown "Payment validation failed", w).

Definition Date_now : Eff N := fun w => (Returned (clock w), w).

(** *** Gateway adapter ([utils/razorpay.js]) *)

Definition getRazorpayInstance : Eff (string * string) :=
  fun w =>
    match razorpayInstance w with
    | Some i => (Returned i, w)
    | None =>
        match RAZORPAY_KEY_ID E, RAZORPAY_KEY_SECRET E with
        | Some keyId, Some keySecret =>
            if String.eqb keyId "" || String.eqb keySecret ""
            then (Thrown "Razorpay credentials not configured. Please set RAZORPAY_KEY_ID and RAZORPAY_KEY_SECRET in your .env file", w)
            else (Returned (keyId, keySecret), with_instance (keyId, keySecret) w)
        | _, _ =>
            (Thrown "Razorpay credentials not configured. Please set RAZORPAY_KEY_ID and RAZORPAY_KEY_SECRET in your .env file", w)
        end
    end.

(** The SDK's calls: each one reaches the gateway, then returns or throws. *)
Definition razorpay_orders_create (options : OrderOptions.t) : Eff RazorpayOrder.t :=
  fun w =>
    match orders_create E options with
    | inr order => (Returned order, with_call (OrdersCreate options) w)
    | inl m => (Thrown m, with_call (OrdersCreate options) w)
    end.

Definition razorpay_payments_fetch (paymentId : string) : Eff PaymentEntity.t :=
  fun w =>
    match payments_fetch E paymentId with
    | inr payment => (Returned payment, with_call (PaymentsFetch paymentId) w)
    | inl m => (Thrown m, with_call (PaymentsFetch paymentId) w)
    end.

Definition razorpay_payments_refund (paymentId : string) (options : RefundOptions.t)
  : Eff JsObject :=
  fun w =>
    match payments_refund E paymentId options with
    | inr refund => (Returned refund, with_call (PaymentsRefund paymentId options) w)
    | inl m => (Thrown m, with_call (PaymentsRefund paymentId options) w)
    end.

Definition createRazorpayOrder (amount : float) (currency : string)
    (receipt : option string) (notes : JsObject) : Eff RazorpayOrder.t :=
  try_catch
    (do now <- Date_now;
     let options :=
       {| OrderOptions.amount := PrimFloat.mul amount 100;
          OrderOptions.currency := currency;
          OrderOptions.receipt := Js.or_str receipt ("receipt_" +:+ Js.show_N now);
          OrderOptions.notes := notes |} in
     do razorpay <- getRazorpayInstance;
     do order <- razorpay_orders_create options;
     ret order)
    (fun m => throw ("Error creating Razorpay order: " +:+ m)).

(** [crypto.createHmac] throws on an [undefined] key. *)
Definition verifyPaymentSignature (orderId paymentId signature : string) : Eff bool :=
  try_catch
    (match RAZORPAY_KEY_SECRET E with
     | Some secret =>
         let generatedSignature :=
           hmac_sha256_hex E secret (orderId +:+ "|" +:+ paymentId) in
         ret (String.eqb generatedSignature signature)
     | None => throw "The key argument must be of type string"
     end)
    (fun m => throw ("Error verifying payment signature: " +:+ m)).

Definition getPaymentDetails (paymentId : string) : Eff PaymentEntity.t :=
  try_catch
    (do razorpay <- getRazorpayInstance;
     do payment <- razorpay_payments_fetch paymentId;
     ret payment)
    (fun m => throw ("Error fetching payment details: " +:+ m)).

(** [amount = null] and [notes = {}] are the defaults of the parameters. *)
Definition processRazorpayRefund (paymentId : string) (amount : option float)
    (notes : JsObject) : Eff JsObject :=
  try_catch
    (do razorpay <- getRazorpayInstance;
     let options_amount :=
       match amount with
       | Some a => if Js.falsy_num a then None else Some (PrimFloat.mul a 100)
       | None => None
       end in
     let options_notes :=
       if Nat.ltb 0 (size notes) then Some notes else None in
     let options :=
       {| RefundOptions.amount := options_amount;
          RefundOptions.notes := options_notes |} in
     do refund <- razorpay_payments_refund paymentId options;
     ret refund)
    (fun m => throw ("Error processing refund: " +:+ m)).

(** *** Controllers ([controllers/paymentController.js]) *)

Definition createPayment (user : User) (body : CreateBody.t) : Eff Response.t :=
  try_catch
    (match CreateBody.orderId body, CreateBody.amount body,
           CreateBody.paymentMethod body, CreateBody.items body with
     | Some orderId, Some amount, Some paymentMethod, Some items =>
         if String.eqb orderId "" || Js.falsy_num amount
            || String.eqb paymentMethod "" || Nat.eqb (length items) 0
         then ret (reply 400 false "Please provide orderId, amount, paymentMethod, and items")
         else
           do payment <- Payment_create (fun oid =>
             {| _id := oid;
                user := user_id user;
                userName := name user;
                userEmail := email user;
                orderId := orderId;
                transactionId := CreateBody.transactionId body;
                amount := amount;
                currency := Js.or_str (CreateBody.currency body) "INR";
                paymentMethod := paymentMethod;
                paymentStatus := pending;
                paymentGateway := Js.or_str (CreateBody.paymentGateway body) "razorpay";
                items := items;
                billingAddress := CreateBody.billingAddress body;
                receiptUrl := None;
                invoiceUrl := None;
                refundAmount := 0;
                refundReason := None;
                refundedAt := None;
                notes := None;
                metadata := CreateBody.metadata body |});
           ret (reply_data 201 "Payment created successfully" (DataPayment payment))
     | _, _, _, _ =>
         ret (reply 400 false "Please provide orderId, amount, paymentMethod, and items")
     end)
    (fun m => ret (reply_error "Error creating payment" m)).

Definition updatePaymentStatus (id : ObjectId) (body : StatusBody.t) : Eff Response.t :=
  try_catch
    (do found <- Payment_findById id;
     match found with
     | None => ret (reply 404 false "Payment not found")
     | Some payment =>
         let payment :=
           match StatusBody.paymentStatus body with
           | Some s => set_paymentStatus s payment
           | None => payment
           end in
         let payment :=
           Js.when_truthy (StatusBody.transactionId body) set_transactionId payment in
         let payment :=
           Js.when_truthy (StatusBody.receiptUrl body)
             (fun r => set_receiptUrl (Some r)) payment in
         let payment :=
           Js.when_truthy (StatusBody.invoiceUrl body) set_invoiceUrl payment in
         let payment :=
           Js.when_truthy (StatusBody.notes body) set_notes payment in
         await Payment_save payment;
         ret (reply_data 200 "Payment status updated successfully" (DataPayment payment))
     end)
    (fun m => ret (reply_error "Error updating payment status" m)).

Definition processRefund (id : ObjectId) (body : RefundBody.t) : Eff Response.t :=
  try_catch
    (match RefundBody.refundAmount body with
     | None => ret (reply 400 false "Please provide a valid refund amount")
     | Some refundAmount_ =>
         if Js.falsy_num refundAmount_ || PrimFloat.leb refundAmount_ 0
         then ret (reply 400 false "Please provide a valid refund amount")
         else
           do found <- Payment_findById id;
           match found with
           | None => ret (reply 404 false "Payment not found")
           | Some payment =>
               if negb (PaymentStatus_eqb (paymentStatus payment) completed)
               then ret (reply 400 false "Can only refund completed payments")
               else if PrimFloat.ltb 0 (refundAmount payment)
               then ret (reply 400 false "Payment has already been refunded")
               else if PrimFloat.ltb (amount payment) refundAmount_
               then ret (reply 400 false "Refund amount cannot exceed payment amount")
               else
                 let payment := set_refundAmount refundAmount_ payment in
                 let payment :=
                   set_refundReason
                     (Js.or_str (RefundBody.refundReason body) "Requested refund")
                     payment in
                 do now <- Date_now;
                 let payment := set_refundedAt now payment in
                 let payment := set_paymentStatus refunded payment in
                 let payment :=
                   Js.when_truthy (RefundBody.notes body) set_notes payment in
                 await Payment_save payment;
                 ret (reply_data 200 "Refund processed successfully" (DataPayment payment))
           end
     end)
    (fun m => ret (reply_error "Error processing refund" m)).

Definition createRazorpayOrderHandler (user : User) (body : OrderBody.t)
  : Eff Response.t :=
  try_catch
    (let currency :=
       match OrderBody.currency body with Some c => c | None => "INR" end in
     match OrderBody.amount body with
     | None => ret (reply 400 false "Please provide a valid amount")
     | Some amount_ =>
         if Js.falsy_num amount_ || PrimFloat.leb amount_ 0
         then ret (reply 400 false "Please provide a valid amount")
         else
           match OrderBody.items body with
           | None => ret (reply 400 false "Please provide at least one item")
           | Some items_ =>
               if Nat.eqb (length items_) 0
               then ret (reply 400 false "Please provide at least one item")
               else
                 do now <- Date_now;
                 let receiptId :=
                   "receipt_" +:+ Js.show_N now +:+ "_" +:+ user_id user in
                 let notes_ : JsObject :=
                   Js.spread (OrderBody.metadata body) ∪
                     <["userEmail" := JString (email user)]>
                       (<["userName" := JString (name user)]>
                          (<["userId" := JString (user_id user)]> ∅)) in
                 do razorpayOrder <-
                   createRazorpayOrder amount_ currency (Some receiptId) notes_;
                 do payment <- Payment_create (fun oid =>
                   {| _id := oid;
                      user := user_id user;
                      userName := name user;
                      userEmail := email user;
                      orderId := RazorpayOrder.id razorpayOrder;
                      transactionId := None;
                      amount := amount_;
                      currency := currency;
                      paymentMethod := "upi";
                      paymentStatus := pending;
                      paymentGateway := "razorpay";
                      items := items_;
                      billingAddress := OrderBody.billingAddress body;
                      receiptUrl := None;
                      invoiceUrl := None;
                      refundAmount := 0;
                      refundReason := None;
                      refundedAt := None;
                      notes := None;
                      metadata := OrderBody.metadata body |});
                 ret (reply_data 201 "Order created successfully"
                        (DataOrder razorpayOrder (RAZORPAY_KEY_ID E) payment))
           end
     end)
    (fun m => ret (reply_error "Error creating order" m)).

(** The [razorpayPayment] entry written into [payment.metadata]. *)
Definition razorpayPayment_info (e : PaymentEntity.t) : JsValue :=
  JObject
    (Js.write "method" (PaymentEntity.method e)
       (Js.write "bank" (PaymentEntity.bank e)
          (Js.write "wallet" (PaymentEntity.wallet e)
             (Js.write "vpa" (PaymentEntity.vpa e)
                (Js.write "email" (PaymentEntity.email e)
                   (Js.write "contact" (PaymentEntity.contact e) ∅)))))).

Definition merge_razorpayPayment (e : PaymentEntity.t) (payment : Payment) : Payment :=
  set_metadata
    (<["razorpayPayment" := razorpayPayment_info e]> (Js.spread (metadata payment)))
    payment.

Definition verifyRazorpayPayment (user_ : User) (body : VerifyBody.t) : Eff Response.t :=
  try_catch
    (match VerifyBody.orderId body, VerifyBody.paymentId body,
           VerifyBody.signature body with
     | Some orderId_, Some paymentId, Some signature =>
         if String.eqb orderId_ "" || String.eqb paymentId "" || String.eqb signature ""
         then ret (reply 400 false "Please provide orderId, paymentId, and signature")
         else
           do found <- Payment_findOne orderId_;
           match found with
           | None => ret (reply 404 false "Payment record not found")
           | Some payment =>
               if negb (String.eqb (user payment) (user_id user_))
               then ret (reply 403 false "Not authorized to verify this payment")
               else
                 do isSignatureValid <-
                   verifyPaymentSignature orderId_ paymentId signature;
                 if negb isSignatureValid
                 then
                   let payment := set_paymentStatus failed payment in
                   let payment :=
                     set_notes "Payment verification failed: Invalid signature" payment in
                   await Payment_save payment;
                   ret (reply 400 false "Payment verification failed: Invalid signature")
                 else
                   do razorpayPayment <- getPaymentDetails paymentId;
                   let captured :=
                     String.eqb (PaymentEntity.status razorpayPayment) "captured" in
                   let payment := set_transactionId paymentId payment in
                   let payment :=
                     set_paymentStatus (if captured then completed else processing)
                       payment in
                   let payment :=
                     set_paymentMethod
                       (Js.or_str (Js.text (PaymentEntity.method razorpayPayment))
                          (paymentMethod payment))
                       payment in
                   let payment :=
                     if captured
                     then
                       merge_razorpayPayment razorpayPayment
                         (set_receiptUrl
                            (Js.or_null (PaymentEntity.receipt razorpayPayment))
                            payment)
                     else payment in
                   await Payment_save payment;
                   ret (reply_data 200 "Payment verified successfully"
                          (DataVerified payment))
           end
     | _, _, _ => ret (reply 400 false "Please provide orderId, paymentId, and signature")
     end)
    (fun m => ret (reply_error "Error verifying payment" m)).

(** Reading a property of an [undefined] entity throws inside the helper's
    own [try], whose [catch] only logs. *)
Definition handlePaymentCaptured (paymentEntity : option PaymentEntity.t) : Eff unit :=
  try_catch
    (match paymentEntity with
     | None => throw "Cannot read properties of undefined (reading 'order_id')"
     | Some entity =>
         do found <- Payment_findOne (PaymentEntity.order_id entity);
         match found with
         | Some payment =>
             let payment := set_transactionId (PaymentEntity.id entity) payment in
             let payment := set_paymentStatus completed payment in
             let payment :=
               set_paymentMethod
                 (Js.or_str (Js.text (PaymentEntity.method entity)) (paymentMethod payment))
                 payment in
             let payment :=
               set_receiptUrl (Js.or_null (PaymentEntity.receipt entity)) payment in
             let payment := merge_razorpayPayment entity payment in
             Payment_save payment
         | None => ret tt
         end
     end)
    (fun _ => ret tt).

Definition handlePaymentFailed (paymentEntity : option PaymentEntity.t) : Eff unit :=
  try_catch
    (match paymentEntity with
     | None => throw "Cannot read properties of undefined (reading 'order_id')"
     | Some entity =>
         do found <- Payment_findOne (PaymentEntity.order_id entity);
         match found with
         | Some payment =>
             let payment := set_transactionId (PaymentEntity.id entity) payment in
             let payment := set_paymentStatus failed payment in
             let payment :=
               set_notes
                 (Js.or_str (PaymentEntity.error_description entity) "Payment failed")
                 payment in
             Payment_save payment
         | None => ret tt
         end
     end)
    (fun _ => ret tt).

Definition handleOrderPaid (orderEntity : option RazorpayOrder.t) : Eff unit :=
  try_catch
    (match orderEntity with
     | None => throw "Cannot read properties of undefined (reading 'id')"
     | Some entity =>
         do found <- Payment_findOne (RazorpayOrder.id entity);
         match found with
         | Some payment =>
             if negb (PaymentStatus_eqb (paymentStatus payment) completed)
             then Payment_save (set_paymentStatus completed payment)
             else ret tt
         | None => ret tt
         end
     end)
    (fun _ => ret tt).

(** [event.payload.payment.entity] and [event.payload.order.entity]: a missing
    path throws in the dispatcher itself. *)
Definition payload_entity {A} (path : option (option A)) : Eff (option A) :=
  match path with
  | Some entity => ret entity
  | None => throw "Cannot read properties of undefined (reading 'entity')"
  end.

Definition razorpayWebhook (req : WebhookRequest.t) : Eff Response.t :=
  try_catch
    (match RAZORPAY_WEBHOOK_SECRET E with
     | None => ret (reply 500 false "Webhook secret not configured")
     | Some webhookSecret =>
         if String.eqb webhookSecret ""
         then ret (reply 500 false "Webhook secret not configured")
         else
           let webhookBody :=
             match WebhookRequest.payload req with
             | WebhookRequest.Buffer raw => raw
             | WebhookRequest.Parsed body => JSON_stringify E body
             end in
           let expectedSignature := hmac_sha256_hex E webhookSecret webhookBody in
           let mismatch :=
             match WebhookRequest.signature req with
             | Some signature => negb (String.eqb signature expectedSignature)
             | None => true
             end in
           if mismatch
           then ret (reply 400 false "Invalid webhook signature")
           else
             do event <-
               match WebhookRequest.payload req with
               | WebhookRequest.Buffer _ =>
                   match JSON_parse E webhookBody with
                   | Some event => ret event
                   | None => throw "Unexpected token in JSON"
                   end
               | WebhookRequest.Parsed body => ret body
               end;
             await
               match WebhookEvent.event event with
               | Some kind =>
                   if String.eqb kind "payment.captured"
                   then
                     do entity <- payload_entity (WebhookEvent.payment_entity event);
                     handlePaymentCaptured entity
                   else if String.eqb kind "payment.failed"
                   then
                     do entity <- payload_entity (WebhookEvent.payment_entity event);
                     handlePaymentFailed entity
                   else if String.eqb kind "order.paid"
                   then
                     do entity <- payload_entity (WebhookEvent.order_entity event);
                     handleOrderPaid entity
                   else ret tt
               | None => ret tt
               end;
             ret (reply 200 true "Webhook processed")
     end)
    (fun m => ret (reply_error "Error processing webhook" m)).

End Handlers.

(** ** A concrete environment and concrete requests

    The schema of [models/Payment.js] decides which writes the database takes;
    the digest, the parser and the gateway are small stand-ins, enough to run
    the handlers on explicit inputs. *)

Module Sample.

Definition paymentMethod_enum : list string :=
  ["credit_card"; "debit_card"; "upi"; "netbanking"; "wallet"; "cash"; "other"].

Definition paymentGateway_enum : list string :=
  ["razorpay"; "stripe"; "paypal"; "cashfree"; "manual"; "other"].

Definition itemType_enum : list string :=
  ["course"; "certification"; "placement_training"; "workshop"; "membership"; "other"].

Definition one_of (l : list string) (s : string) : bool :=
  existsb (String.eqb s) l.

(** Another document already holds this unique key. *)
Definition taken (key : Payment -> option string) (d : list Payment) (p : Payment) : bool :=
  match key p with
  | Some k =>
      existsb (fun q => negb (String.eqb (_id q) (_id p)) &&
                        match key q with Some k' => String.eqb k k' | None => false end) d
  | None => false
  end.

(** Enum and [min] validators, and the unique indexes on [orderId] and
    (sparse) [transactionId]. *)
Definition schema_accepts (d : list Payment) (p : Payment) : bool :=
  one_of paymentMethod_enum (paymentMethod p)
  && one_of paymentGateway_enum (paymentGateway p)
  && forallb (fun i => one_of itemType_enum (itemType i)) (items p)
  && PrimFloat.leb 0 (amount p)
  && negb (taken (fun q => Some (orderId q)) d p)
  && negb (taken transactionId d p).

Definition gateway_payment : PaymentEntity.t :=
  {| PaymentEntity.id := "pay_1";
     PaymentEntity.order_id := "order_1";
     PaymentEntity.status := "captured";
     PaymentEntity.method := Js.Str "upi";
     PaymentEntity.receipt := None;
     PaymentEntity.bank := Js.Null;
     PaymentEntity.wallet := Js.Null;
     PaymentEntity.vpa := Js.Str "buyer@upi";
     PaymentEntity.email := Js.Str "buyer@example.com";
     PaymentEntity.contact := Js.Str "+919876543210";
     PaymentEntity.error_description := None |}.

Definition gateway_order (options : OrderOptions.t) : RazorpayOrder.t :=
  {| RazorpayOrder.id := "order_1";
     RazorpayOrder.amount := OrderOptions.amount options;
     RazorpayOrder.currency := OrderOptions.currency options;
     RazorpayOrder.receipt := Some (OrderOptions.receipt options);
     RazorpayOrder.status := "created" |}.

Definition captured_event : WebhookEvent.t :=
  {| WebhookEvent.event := Some "payment.captured";
     WebhookEvent.payment_entity := Some (Some gateway_payment);
     WebhookEvent.order_entity := None |}.

Definition failed_event : WebhookEvent.t :=
  {| WebhookEvent.event := Some "payment.failed";
     WebhookEvent.payment_entity := Some (Some gateway_payment);
     WebhookEvent.order_entity := None |}.

Definition order_paid_event : WebhookEvent.t :=
  {| WebhookEvent.event := Some "order.paid";
     WebhookEvent.payment_entity := None;
     WebhookEvent.order_entity :=
       Some (Some {| RazorpayOrder.id := "order_1";
                     RazorpayOrder.amount := 99900;
                     RazorpayOrder.currency := "INR";
                     RazorpayOrder.receipt := None;
                     RazorpayOrder.status := "paid" |}) |}.

Definition unknown_event : WebhookEvent.t :=
  {| WebhookEvent.event := Some "refund.created";
     WebhookEvent.payment_entity := None;
     WebhookEvent.order_entity := None |}.

Definition stray_event : WebhookEvent.t :=
  {| WebhookEvent.event := Some "payment.captured";
     WebhookEvent.payment_entity :=
       Some (Some {| PaymentEntity.id := "pay_9";
                     PaymentEntity.order_id := "order_9";
                     PaymentEntity.status := "captured";
                     PaymentEntity.method := Js.Str "upi";
                     PaymentEntity.receipt := None;
                     PaymentEntity.bank := Js.Null;
                     PaymentEntity.wallet := Js.Null;
                     PaymentEntity.vpa := Js.Null;
                     PaymentEntity.email := Js.Null;
                     PaymentEntity.contact := Js.Null;
                     PaymentEntity.error_description := None |});
     WebhookEvent.order_entity := None |}.

Definition bodies : list (string * WebhookEvent.t) :=
  [("captured order_1 pay_1", captured_event);
   ("failed order_1 pay_1", failed_event);
   ("paid order_1", order_paid_event);
   ("refund created", unknown_event);
   ("captured order_9 pay_9", stray_event)].

Definition parse (raw : string) : option WebhookEvent.t :=
  snd <$> List.find (fun b => String.eqb (fst b) raw) bodies.

(** The gateway refuses every refund. *)
Definition env : Env :=
  {| RAZORPAY_KEY_ID := Some "rzp_test_key";
     RAZORPAY_KEY_SECRET := Some "key_secret";
     RAZORPAY_WEBHOOK_SECRET := Some "webhook_secret";
     hmac_sha256_hex := fun key message => "mac(" +:+ key +:+ "," +:+ message +:+ ")";
     JSON_parse := parse;
     JSON_stringify := fun _ => "{}";
     orders_create := fun options => inr (gateway_order options);
     payments_fetch := fun paymentId =>
       if String.eqb paymentId "pay_1" then inr gateway_payment
       else inl "The id provided does not exist";
     payments_refund := fun _ _ => inl "gateway unavailable";
     db_accepts := schema_accepts;
     new_ObjectId := fun d => "payment_" +:+ Js.show_N (N.of_nat (length d)) |}.

Definition buyer : User :=
  {| user_id := "user_1"; name := "John Doe"; email := "john@example.com";
     role := "student" |}.

Definition membership : Item :=
  {| itemType := "membership"; itemId := "basic"; itemName := "Basic Membership";
     quantity := 1; price := 999 |}.

Definition empty_world : World :=
  {| db := []; gateway_calls := []; razorpayInstance := None; clock := 1700000000000 |}.

Definition order_body : OrderBody.t :=
  {| OrderBody.amount := Some 999%float;
     OrderBody.currency := Some "INR";
     OrderBody.items := Some [membership];
     OrderBody.billingAddress := None;
     OrderBody.metadata := None |}.

Definition verify_body : VerifyBody.t :=
  {| VerifyBody.orderId := Some "order_1";
     VerifyBody.paymentId := Some "pay_1";
     VerifyBody.signature := Some "mac(key_secret,order_1|pay_1)" |}.

Definition forged_verify_body : VerifyBody.t :=
  {| VerifyBody.orderId := Some "order_1";
     VerifyBody.paymentId := Some "pay_1";
     VerifyBody.signature := Some "forged" |}.

Definition refund_body (a : float) : RefundBody.t :=
  {| RefundBody.refundAmount := Some a;
     RefundBody.refundReason := Some "Customer request";
     RefundBody.notes := None |}.

Definition webhook (raw : string) : WebhookRequest.t :=
  {| WebhookRequest.signature := Some ("mac(webhook_secret," +:+ raw +:+ ")");
     WebhookRequest.payload := WebhookRequest.Buffer raw |}.

(** The record that creating the order below leaves in the collection. *)
Definition pending_payment : Payment :=
  {| _id := "payment_0";
     user := "user_1";
     userName := "John Doe";
     userEmail := "john@example.com";
     orderId := "order_1";
     transactionId := None;
     amount := 999;
     currency := "INR";
     paymentMethod := "upi";
     paymentStatus := pending;
     paymentGateway := "razorpay";
     items := [membership];
     billingAddress := None;
     receiptUrl := None;
     invoiceUrl := None;
     refundAmount := 0;
     refundReason := None;
     refundedAt := None;
     notes := None;
     metadata := None |}.

(** The scenario of the setup guide: an order for 999 INR is created, ... *)
Definition after_order : World :=
  snd (createRazorpayOrderHandler env buyer order_body empty_world).

(** ... verified by the client with a valid signature, ... *)
Definition after_verify : World :=
  snd (verifyRazorpayPayment env buyer verify_body after_order).

(** ... and refunded in full by an admin. *)
Definition after_refund : World :=
  snd (processRefund env "payment_0" (refund_body 999) after_verify).

End Sample.

(** ** Documents that the handlers write, named for the statements below *)

(** The document [processRefund] saves for a request of amount [a]. *)
Definition refunded_document (a : float) (body : RefundBody.t) (now : Date)
    (p : Payment) : Payment :=
  Js.when_truthy (RefundBody.notes body) set_notes
    (set_paymentStatus refunded
       (set_refundedAt now
          (set_refundReason (Js.or_str (RefundBody.refundReason body) "Requested refund")
             (set_refundAmount a p)))).

(** The conditions under which [processRefund] answers 200, in the order the
    code tests them, and the database taking the write. *)
Definition refund_granted (E : Env) (id : ObjectId) (body : RefundBody.t) (w : World)
  : Prop :=
  exists a p,
    RefundBody.refundAmount body = Some a /\
    Js.falsy_num a = false /\
    PrimFloat.leb a 0 = false /\
    List.find (fun q => String.eqb (_id q) id) (db w) = Some p /\
    paymentStatus p = completed /\
    PrimFloat.ltb 0 (refundAmount p) = false /\
    PrimFloat.ltb (amount p) a = false /\
    db_accepts E (db w) (refunded_document a body (clock w) p) = true.

Definition is_refund_call (c : GatewayCall) : bool :=
  match c with
  | PaymentsRefund _ _ => true
  | _ => false
  end.

(** The document a [payment.captured] webhook saves. *)
Definition captured_document (e : PaymentEntity.t) (p : Payment) : Payment :=
  merge_razorpayPayment e
    (set_receiptUrl (Js.or_null (PaymentEntity.receipt e))
       (set_paymentMethod (Js.or_str (Js.text (PaymentEntity.method e)) (paymentMethod p))
          (set_paymentStatus completed (set_transactionId (PaymentEntity.id e) p)))).

(** The document a [payment.failed] webhook saves. *)
Definition failed_document (e : PaymentEntity.t) (p : Payment) : Payment :=
  set_notes (Js.or_str (PaymentEntity.error_description e) "Payment failed")
    (set_paymentStatus failed (set_transactionId (PaymentEntity.id e) p)).

(** The document a client verification saves once the signature matched and
    the gateway returned the payment [e]. *)
Definition verified_document (paymentId : string) (e : PaymentEntity.t) (p : Payment)
  : Payment :=
  let captured := String.eqb (PaymentEntity.status e) "captured" in
  let p1 :=
    set_paymentMethod (Js.or_str (Js.text (PaymentEntity.method e)) (paymentMethod p))
      (set_paymentStatus (if captured then completed else processing)
         (set_transactionId paymentId p)) in
  if captured
  then merge_razorpayPayment e (set_receiptUrl (Js.or_null (PaymentEntity.receipt e)) p1)
  else p1.

(** The document a client verification saves when the signature does not match. *)
Definition rejected_document (p : Payment) : Payment :=
  set_notes "Payment verification failed: Invalid signature" (set_paymentStatus failed p).

(** The text the webhook digest is computed over, and the event dispatched. *)
Definition webhook_text (E : Env) (req : WebhookRequest.t) : string :=
  match WebhookRequest.payload req with
  | WebhookRequest.Buffer raw => raw
  | WebhookRequest.Parsed body => JSON_stringify E body
  end.

Definition webhook_event (E : Env) (req : WebhookRequest.t) : option WebhookEvent.t :=
  match WebhookRequest.payload req with
  | WebhookRequest.Buffer raw => JSON_parse E raw
  | WebhookRequest.Parsed body => Some body
  end.

(** The webhook signature check passes: the secret is configured, the header is
    present and equals the digest of the body. *)
Definition webhook_signature_ok (E : Env) (req : WebhookRequest.t) : bool :=
  match RAZORPAY_WEBHOOK_SECRET E, WebhookRequest.signature req with
  | Some secret, Some signature =>
      negb (String.eqb secret "")
      && String.eqb signature (hmac_sha256_hex E secret (webhook_text E req))
  | _, _ => false
  end.

(** What the dispatcher of [razorpayWebhook] runs for a parsed event. *)
Definition dispatch (E : Env) (event : WebhookEvent.t) : Eff unit :=
  match WebhookEvent.event event with
  | Some kind =>
      if String.eqb kind "payment.captured"
      then do entity <- payload_entity (WebhookEvent.payment_entity event);
           handlePaymentCaptured E entity
      else if String.eqb kind "payment.failed"
      then do entity <- payload_entity (WebhookEvent.payment_entity event);
           handlePaymentFailed E entity
      else if String.eqb kind "order.paid"
      then do entity <- payload_entity (WebhookEvent.order_entity event);
           handleOrderPaid E entity
      else ret tt
  | None => ret tt
  end.

(** A webhook event that refers to no stored record, or is of no handled type. *)
Inductive Unmatched (d : list Payment) (event : WebhookEvent.t) : Prop :=
| unmatched_captured (e : PaymentEntity.t) :
    WebhookEvent.event event = Some "payment.captured" ->
    WebhookEvent.payment_entity event = Some (Some e) ->
    List.find (fun q => String.eqb (orderId q) (PaymentEntity.order_id e)) d = None ->
    Unmatched d event
| unmatched_failed (e : PaymentEntity.t) :
    WebhookEvent.event event = Some "payment.failed" ->
    WebhookEvent.payment_entity event = Some (Some e) ->
    List.find (fun q => String.eqb (orderId q) (PaymentEntity.order_id e)) d = None ->
    Unmatched d event
| unmatched_paid (o : RazorpayOrder.t) :
    WebhookEvent.event event = Some "order.paid" ->
    WebhookEvent.order_entity event = Some (Some o) ->
    List.find (fun q => String.eqb (orderId q) (RazorpayOrder.id o)) d = None ->
    Unmatched d event
| unmatched_type (kind : string) :
    WebhookEvent.event event = Some kind ->
    kind <> "payment.captured" -> kind <> "payment.failed" -> kind <> "order.paid" ->
    Unmatched d event
| unmatched_untyped :
    WebhookEvent.event event = None ->
    Unmatched d event.

(** The three refund fields are all set. *)
Definition refund_fields_set (p : Payment) : bool :=
  PrimFloat.ltb 0 (refundAmount p)
  && bool_decide (is_Some (refundReason p))
  && bool_decide (is_Some (refundedAt p)).

(** Refund fields are set if and only if the status is [refunded]. *)
Definition refund_invariant (p : Payment) : Prop :=
  refund_fields_set p = true <-> paymentStatus p = refunded.

(** The same as a test. *)
Definition refund_invariant_b (p : Payment) : bool :=
  Bool.eqb (refund_fields_set p) (PaymentStatus_eqb (paymentStatus p) refunded).

(** Every document of [d'] carries the refund fields of the document of [d]
    with the same identifier. *)
Definition refund_fields_kept (d d' : list Payment) : Prop :=
  forall q', In q' d' ->
    exists q, In q d /\ _id q' = _id q /\
              refundAmount q' = refundAmount q /\
              refundReason q' = refundReason q /\
              refundedAt q' = refundedAt q.

(** The sample record after verification, and after the refund. *)
Module Scenario.

Definition completed_payment : Payment :=
  verified_document "pay_1" Sample.gateway_payment Sample.pending_payment.

Definition refunded_payment : Payment :=
  refunded_document 999 (Sample.refund_body 999) 1700000000000%N completed_payment.

End Scenario.

(** ** What a handler may do to a stored document *)

(** The fields that only the creation of a record assigns. *)
Definition same_identity (q q' : Payment) : Prop :=
  _id q' = _id q /\ user q' = user q /\ userName q' = userName q /\
  userEmail q' = userEmail q /\ orderId q' = orderId q /\ amount q' = amount q /\
  currency q' = currency q /\ paymentGateway q' = paymentGateway q /\
  items q' = items q /\ billingAddress q' = billingAddress q.

(** A [transactionId] that is set stays set. *)
Definition keeps_transaction (q q' : Payment) : Prop :=
  is_Some (transactionId q) -> is_Some (transactionId q').

(** Every metadata key other than [razorpayPayment] keeps its value, and
    [razorpayPayment] stays present once it is. *)
Definition keeps_metadata (q q' : Payment) : Prop :=
  (forall key, key <> "razorpayPayment" ->
     Js.spread (metadata q') !! key = Js.spread (metadata q) !! key) /\
  (is_Some (Js.spread (metadata q) !! "razorpayPayment") ->
   is_Some (Js.spread (metadata q') !! "razorpayPayment")).

Definition Updated (q q' : Payment) : Prop :=
  same_identity q q' /\ keeps_transaction q q' /\ keeps_metadata q q'.

(** The collection [d'] is [d], or [d] after one save of an updated version of
    a document of [d] that satisfies [P]. *)
Definition writes_one (P : Payment -> Prop) (d d' : list Payment) : Prop :=
  d' = d \/
  exists p p', In p d /\ P p /\ d' = replace_doc p' d /\ Updated p p'.

(** The order a webhook event refers to: [order_id] of the payment entity for
    [payment.captured] and [payment.failed], [id] of the order entity for
    [order.paid]. *)
Definition webhook_order_ref (event : WebhookEvent.t) : option string :=
  match WebhookEvent.event event with
  | Some kind =>
      if String.eqb kind "payment.captured" || String.eqb kind "payment.failed"
      then
        match WebhookEvent.payment_entity event with
        | Some (Some e) => Some (PaymentEntity.order_id e)
        | _ => None
        end
      else if String.eqb kind "order.paid"
      then
        match WebhookEvent.order_entity event with
        | Some (Some o) => Some (RazorpayOrder.id o)
        | _ => None
        end
      else None
  | None => None
  end.

(** The document an admin status update saves. *)
Definition status_updated_document (body : StatusBody.t) (p : Payment) : Payment :=
  Js.when_truthy (StatusBody.notes body) set_notes
    (Js.when_truthy (StatusBody.invoiceUrl body) set_invoiceUrl
       (Js.when_truthy (StatusBody.receiptUrl body) (fun r => set_receiptUrl (Some r))
          (Js.when_truthy (StatusBody.transactionId body) set_transactionId
             (match StatusBody.paymentStatus body with
              | Some s => set_paymentStatus s p
              | None => p
              end)))).

(** The test [success] agrees with: the status code is below 400. *)
Definition answers_consistently (r : Response.t) : Prop :=
  Response.success r = Nat.ltb (Response.status r) 400.

(** The sample environment before the key id is configured. *)
Definition env_without_key_id : Env :=
  {| RAZORPAY_KEY_ID := None;
     RAZORPAY_KEY_SECRET := RAZORPAY_KEY_SECRET Sample.env;
     RAZORPAY_WEBHOOK_SECRET := RAZORPAY_WEBHOOK_SECRET Sample.env;
     hmac_sha256_hex := hmac_sha256_hex Sample.env;
     JSON_parse := JSON_parse Sample.env;
     JSON_stringify := JSON_stringify Sample.env;
     orders_create := orders_create Sample.env;
     payments_fetch := payments_fetch Sample.env;
     payments_refund := payments_refund Sample.env;
     db_accepts := db_accepts Sample.env;
     new_ObjectId := new_ObjectId Sample.env |}.

(** A captured card payment for the sample order, as the gateway reports it,
    and the webhook that carries it in a body already parsed. *)
Definition card_payment : PaymentEntity.t :=
  {| PaymentEntity.id := "pay_3";
     PaymentEntity.order_id := "order_1";
     PaymentEntity.status := "captured";
     PaymentEntity.method := Js.Str "card";
     PaymentEntity.receipt := None;
     PaymentEntity.bank := Js.Null;
     PaymentEntity.wallet := Js.Null;
     PaymentEntity.vpa := Js.Null;
     PaymentEntity.email := Js.Str "buyer@example.com";
     PaymentEntity.contact := Js.Null;
     PaymentEntity.error_description := None |}.

Definition card_webhook : WebhookRequest.t :=
  {| WebhookRequest.signature := Some "mac(webhook_secret,{})";
     WebhookRequest.payload :=
       WebhookRequest.Parsed
         {| WebhookEvent.event := Some "payment.captured";
            WebhookEvent.payment_entity := Some (Some card_payment);
            WebhookEvent.order_entity := None |} |}.





(** A payment the bank declined, with the gateway's description of the
    failure, and the webhook that carries it. *)
Definition declined_payment : PaymentEntity.t :=
  {| PaymentEntity.id := "pay_4";
     PaymentEntity.order_id := "order_1";
     PaymentEntity.status := "failed";
     PaymentEntity.method := Js.Str "netbanking";
     PaymentEntity.receipt := None;
     PaymentEntity.bank := Js.Str "HDFC";
     PaymentEntity.wallet := Js.Null;
     PaymentEntity.vpa := Js.Null;
     PaymentEntity.email := Js.Str "buyer@example.com";
     PaymentEntity.contact := Js.Undefined;
     PaymentEntity.error_description := Some "Payment was declined by the bank" |}.

Definition declined_event : WebhookEvent.t :=
  {| WebhookEvent.event := Some "payment.failed";
     WebhookEvent.payment_entity := Some (Some declined_payment);
     WebhookEvent.order_entity := None |}.

Definition declined_webhook : WebhookRequest.t :=
  {| WebhookRequest.signature := Some "mac(webhook_secret,{})";
     WebhookRequest.payload := WebhookRequest.Parsed declined_event |}.

(** An order for 19.99 INR, that is 1999 paise. *)
#[warnings="-inexact-float"]
Definition fractional_order_body : OrderBody.t :=
  {| OrderBody.amount := Some 19.99%float;
     OrderBody.currency := Some "INR";
     OrderBody.items := Some [Sample.membership];
     OrderBody.billingAddress := None;
     OrderBody.metadata := None |}.

(** * Properties *)

(** ** Generic facts: statuses, the store, the effect operations *)

Lemma PaymentStatus_eqb_eq (a b : PaymentStatus) :
  PaymentStatus_eqb a b = true <-> a = b.
Proof. destruct a, b; cbn; split; intros H; try reflexivity; discriminate H. Qed.

(** Loading by identifier after a save of the loaded document finds the saved one. *)
Lemma find_id_replace_doc (d : list Payment) (id : ObjectId) (p p' : Payment) :
  List.find (fun q => String.eqb (_id q) id) d = Some p ->
  _id p' = _id p ->
  List.find (fun q => String.eqb (_id q) id) (replace_doc p' d) = Some p'.
Proof.
  intros Hfind Hid. induction d as [|q r IH]; cbn in *; [discriminate|].
  destruct (String.eqb (_id q) id) eqn:Hq.
  - injection Hfind as ->. rewrite Hid, String.eqb_refl. cbn.
    now rewrite Hid, Hq.
  - destruct (String.eqb (_id q) (_id p')) eqn:Hq'.
    + apply String.eqb_eq in Hq'.
      apply List.find_some in Hfind as [_ Hp]. apply String.eqb_eq in Hp.
      rewrite Hq', Hid, Hp, String.eqb_refl in Hq. discriminate Hq.
    + cbn. rewrite Hq. now apply IH.
Qed.

(** The same for a lookup by order identifier, which a save never changes. *)
Lemma find_order_replace_doc (d : list Payment) (oid : string) (p p' : Payment) :
  List.find (fun q => String.eqb (orderId q) oid) d = Some p ->
  _id p' = _id p ->
  orderId p' = orderId p ->
  List.find (fun q => String.eqb (orderId q) oid) (replace_doc p' d) = Some p'.
Proof.
  intros Hfind Hid Hoid.
  assert (Hp : String.eqb (orderId p') oid = true).
  { rewrite Hoid. now apply List.find_some in Hfind as [_ Hp]. }
  induction d as [|q r IH]; cbn in *; [discriminate|].
  destruct (String.eqb (orderId q) oid) eqn:Hq.
  - injection Hfind as ->. rewrite Hid, String.eqb_refl. cbn. now rewrite Hp.
  - destruct (String.eqb (_id q) (_id p')) eqn:Hq'; cbn.
    + now rewrite Hp.
    + rewrite Hq. now apply IH.
Qed.

Lemma replace_doc_idem (p : Payment) (d : list Payment) :
  replace_doc p (replace_doc p d) = replace_doc p d.
Proof.
  induction d as [|q r IH]; cbn; [reflexivity|].
  destruct (String.eqb (_id q) (_id p)) eqn:Hq; cbn.
  - now rewrite String.eqb_refl.
  - now rewrite Hq, IH.
Qed.

Lemma In_replace_doc (p q : Payment) (d : list Payment) :
  In q (replace_doc p d) -> q = p \/ In q d.
Proof.
  induction d as [|x r IH]; cbn; [tauto|].
  destruct (String.eqb (_id x) (_id p)); cbn; intuition.
Qed.

(** A number that is neither falsy nor [<= 0] is [> 0]. *)
Lemma positive_when_not_leb (x : float) :
  Js.falsy_num x = false -> PrimFloat.leb x 0 = false -> PrimFloat.ltb 0 x = true.
Proof.
  unfold Js.falsy_num, PrimFloat.is_nan. intros Hf Hle.
  apply orb_false_elim in Hf as [_ Hnan]. apply negb_false_iff in Hnan.
  revert Hnan Hle.
  rewrite FloatAxioms.leb_spec, FloatAxioms.ltb_spec, FloatAxioms.eqb_spec.
  change (Prim2SF 0) with (S754_zero false).
  destruct (Prim2SF x) as [s|s| |s m e]; cbn; try discriminate; try reflexivity;
    destruct s; cbn; congruence.
Qed.

Ltac eff_unfold :=
  unfold try_catch, bind, ret, throw, Payment_findById, Payment_findOne,
    Payment_save, Payment_create, Date_now in *.

(** ** The refund operation *)

(** [processRefund] as a decision table. *)
Lemma processRefund_run (E : Env) (id : ObjectId) (body : RefundBody.t) (w : World) :
  processRefund E id body w =
  match RefundBody.refundAmount body with
  | None => (Returned (reply 400 false "Please provide a valid refund amount"), w)
  | Some a =>
      if Js.falsy_num a || PrimFloat.leb a 0
      then (Returned (reply 400 false "Please provide a valid refund amount"), w)
      else
        match List.find (fun q => String.eqb (_id q) id) (db w) with
        | None => (Returned (reply 404 false "Payment not found"), w)
        | Some p =>
            if negb (PaymentStatus_eqb (paymentStatus p) completed)
            then (Returned (reply 400 false "Can only refund completed payments"), w)
            else if PrimFloat.ltb 0 (refundAmount p)
            then (Returned (reply 400 false "Payment has already been refunded"), w)
            else if PrimFloat.ltb (amount p) a
            then (Returned (reply 400 false "Refund amount cannot exceed payment amount"), w)
            else
              let p' := refunded_document a body (clock w) p in
              if db_accepts E (db w) p'
              then (Returned (reply_data 200 "Refund processed successfully" (DataPayment p')),
                    with_db (replace_doc p' (db w)) w)
              else (Returned (reply_error "Error processing refund" "Payment validation failed"),
                    w)
        end
  end.
Proof.
  unfold processRefund, refunded_document. eff_unfold.
  repeat case_match; simplify_eq; reflexivity.
Qed.

(** The refund handler never reaches the gateway. *)
Lemma processRefund_gateway_calls (E : Env) (id : ObjectId) (body : RefundBody.t)
    (w : World) :
  gateway_calls (snd (processRefund E id body w)) = gateway_calls w.
Proof. rewrite processRefund_run. cbv zeta. repeat case_match; reflexivity. Qed.

(** A refund that was granted leaves the record where a later refund request
    finds it with status [refunded]. *)
Lemma processRefund_granted_lookup (E : Env) (id : ObjectId) (body : RefundBody.t)
    (w w' : World) (r : Response.t) :
  processRefund E id body w = (Returned r, w') ->
  Response.status r = 200 ->
  exists p', List.find (fun q => String.eqb (_id q) id) (db w') = Some p' /\
             paymentStatus p' = refunded.
Proof.
  rewrite processRefund_run. cbv zeta. intros Hrun Hok.
  repeat case_match; simplify_eq; try discriminate Hok.
  eexists. split.
  - cbn. eapply find_id_replace_doc; [eassumption|].
    unfold refunded_document, Js.when_truthy. repeat case_match; reflexivity.
  - unfold refunded_document, Js.when_truthy. repeat case_match; reflexivity.
Qed.

(** Whatever the request, a record whose status is not [completed] is not
    refunded and the world stays as it is. *)
Lemma processRefund_not_completed (E : Env) (id : ObjectId) (body : RefundBody.t)
    (w : World) (p : Payment) :
  List.find (fun q => String.eqb (_id q) id) (db w) = Some p ->
  paymentStatus p <> completed ->
  exists r, processRefund E id body w = (Returned r, w) /\ Response.status r = 400.
Proof.
  intros Hfind Hst. rewrite processRefund_run, Hfind.
  assert (Hneq : negb (PaymentStatus_eqb (paymentStatus p) completed) = true).
  { apply negb_true_iff. destruct (PaymentStatus_eqb _ _) eqn:Heq; [|reflexivity].
    apply PaymentStatus_eqb_eq in Heq. contradiction. }
  rewrite Hneq. repeat case_match; eexists; split; reflexivity.
Qed.

(** C6 (as amended). [processRefund] answers 200 exactly when the requested
    amount is present, truthy and not [<= 0] (tested first, before the record
    is loaded), the record exists, its status is [completed], its stored
    [refundAmount] is not [> 0], the requested amount is not greater than the
    original amount, and the database takes the write. The tests run in that
    order and the first failure decides the answer. Any other answer leaves
    the world unchanged; after a granted refund every further refund request
    for the record is rejected without a change; a requested amount greater
    than the original amount is rejected. *)
Theorem processRefund_succeeds_iff (E : Env) (id : ObjectId) (body : RefundBody.t)
    (w : World) :
  exists r w',
    processRefund E id body w = (Returned r, w') /\
    (Response.status r = 200 <-> refund_granted E id body w) /\
    (Response.status r <> 200 -> w' = w) /\
    (* first failure wins *)
    ((forall a, RefundBody.refundAmount body = Some a ->
                Js.falsy_num a || PrimFloat.leb a 0 = true) ->
     r = reply 400 false "Please provide a valid refund amount") /\
    (forall a, RefundBody.refundAmount body = Some a ->
       Js.falsy_num a || PrimFloat.leb a 0 = false ->
       match List.find (fun q => String.eqb (_id q) id) (db w) with
       | None => r = reply 404 false "Payment not found"
       | Some p =>
           (paymentStatus p <> completed ->
            r = reply 400 false "Can only refund completed payments") /\
           (paymentStatus p = completed ->
            PrimFloat.ltb 0 (refundAmount p) = true ->
            r = reply 400 false "Payment has already been refunded") /\
           (paymentStatus p = completed ->
            PrimFloat.ltb 0 (refundAmount p) = false ->
            PrimFloat.ltb (amount p) a = true ->
            r = reply 400 false "Refund amount cannot exceed payment amount")
       end) /\
    (* no double refund *)
    (Response.status r = 200 ->
     forall body2 w2, db w2 = db w' ->
       exists r2, processRefund E id body2 w2 = (Returned r2, w2) /\
                  Response.status r2 <> 200) /\
    (* refund bound *)
    (forall a p, RefundBody.refundAmount body = Some a ->
       List.find (fun q => String.eqb (_id q) id) (db w) = Some p ->
       PrimFloat.ltb (amount p) a = true ->
       Response.status r <> 200).
Proof.
  destruct (processRefund E id body w) as [out w'] eqn:Hrun.
  assert (Hret : exists r, out = Returned r).
  { rewrite processRefund_run in Hrun. cbv zeta in Hrun.
    repeat case_match; simplify_eq; eauto. }
  destruct Hret as [r ->]. exists r, w'. split; [reflexivity|].
  assert (Hdouble : Response.status r = 200 ->
     forall body2 w2, db w2 = db w' ->
       exists r2, processRefund E id body2 w2 = (Returned r2, w2) /\
                  Response.status r2 <> 200).
  { intros Hok body2 w2 Hdb.
    destruct (processRefund_granted_lookup _ _ _ _ _ _ Hrun Hok) as (p' & Hfind & Hst).
    rewrite <- Hdb in Hfind.
    destruct (processRefund_not_completed E id body2 w2 p' Hfind) as (r2 & Hr2 & Hc).
    { rewrite Hst. discriminate. }
    exists r2. split; [exact Hr2|]. rewrite Hc. discriminate. }
  rewrite processRefund_run in Hrun. cbv zeta in Hrun. unfold refund_granted.
  split_and!; [split| | | |exact Hdouble|].
  - (* 200 implies the preconditions *)
    intros Hok. repeat case_match; simplify_eq; try discriminate Hok.
    match goal with H : _ || _ = false |- _ => apply orb_false_elim in H as [? ?] end.
    match goal with H : negb _ = false |- _ =>
      apply negb_false_iff, PaymentStatus_eqb_eq in H end.
    eexists _, _. repeat split; eauto.
  - (* the preconditions imply 200 *)
    intros (a & p & Ha & Hf & Hle & Hfind & Hst & Hno & Hbound & Hacc).
    rewrite Ha, Hf, Hle, Hfind, Hst, Hno, Hbound, Hacc in Hrun. cbn in Hrun.
    now simplify_eq.
  - intros Hne. repeat case_match; simplify_eq; reflexivity.
  - intros Hbad. destruct (RefundBody.refundAmount body) as [a|]; [|now simplify_eq].
    rewrite (Hbad a eq_refl) in Hrun. now simplify_eq.
  - intros a Ha Hvalid. rewrite Ha, Hvalid in Hrun.
    destruct (List.find _ (db w)) as [p|]; [|now simplify_eq].
    repeat split.
    + intros Hst. destruct (PaymentStatus_eqb (paymentStatus p) completed) eqn:Heq.
      * apply PaymentStatus_eqb_eq in Heq. contradiction.
      * cbn in Hrun. now simplify_eq.
    + intros Hst Hset. rewrite Hst, Hset in Hrun. cbn in Hrun. now simplify_eq.
    + intros Hst Hno Hgt. rewrite Hst, Hno, Hgt in Hrun. cbn in Hrun. now simplify_eq.
  - intros a p Ha Hfind Hgt Hok. rewrite Ha, Hfind, Hgt in Hrun.
    repeat case_match; simplify_eq; discriminate Hok.
Qed.

(** ** The webhook endpoint *)

(** A request that fails the signature check is answered with an error and
    changes nothing. *)
Lemma razorpayWebhook_rejects (E : Env) (req : WebhookRequest.t) (w : World) :
  webhook_signature_ok E req = false ->
  razorpayWebhook E req w =
    (Returned
       (if Js.truthy_str (RAZORPAY_WEBHOOK_SECRET E)
        then reply 400 false "Invalid webhook signature"
        else reply 500 false "Webhook secret not configured"), w).
Proof.
  unfold webhook_signature_ok, razorpayWebhook, webhook_text, Js.truthy_str. eff_unfold.
  intros Hbad.
  destruct (RAZORPAY_WEBHOOK_SECRET E) as [secret|]; [|reflexivity].
  destruct (String.eqb secret ""); cbn in *; [reflexivity|].
  destruct (WebhookRequest.signature req) as [sig|]; [|reflexivity].
  now rewrite Hbad.
Qed.

(** A request that passes the check is parsed and dispatched; the answer is 200
    unless parsing or reading the payload path throws. *)
Lemma razorpayWebhook_accepts (E : Env) (req : WebhookRequest.t) (w : World) :
  webhook_signature_ok E req = true ->
  razorpayWebhook E req w =
    match webhook_event E req with
    | Some event =>
        match dispatch E event w with
        | (Returned _, w') => (Returned (reply 200 true "Webhook processed"), w')
        | (Thrown m, w') => (Returned (reply_error "Error processing webhook" m), w')
        end
    | None => (Returned (reply_error "Error processing webhook" "Unexpected token in JSON"), w)
    end.
Proof.
  unfold webhook_signature_ok, razorpayWebhook, webhook_text, webhook_event, dispatch.
  intros Hok.
  destruct (RAZORPAY_WEBHOOK_SECRET E) as [secret|]; [|discriminate].
  destruct (WebhookRequest.signature req) as [sig|]; [|discriminate].
  apply andb_prop in Hok as [Hsecret Hsig]. apply negb_true_iff in Hsecret.
  rewrite Hsecret. unfold try_catch at 1. unfold bind at 1 2.
  destruct (WebhookRequest.payload req) as [raw|body]; cbn.
  - rewrite Hsig. cbn. destruct (JSON_parse E raw) as [event|]; cbn; [|reflexivity].
    match goal with
    | |- context [match ?run w with pair _ _ => _ end] =>
        now destruct (run w) as [[?|?] ?]
    end.
  - rewrite Hsig. cbn.
    match goal with
    | |- context [match ?run w with pair _ _ => _ end] =>
        now destruct (run w) as [[?|?] ?]
    end.
Qed.

(** The three helpers as decision tables: they never throw, and write at most
    the document they name. *)
Lemma handlePaymentCaptured_run (E : Env) (e : PaymentEntity.t) (w : World) :
  handlePaymentCaptured E (Some e) w =
  match List.find (fun q => String.eqb (orderId q) (PaymentEntity.order_id e)) (db w) with
  | Some p =>
      if db_accepts E (db w) (captured_document e p)
      then (Returned tt, with_db (replace_doc (captured_document e p) (db w)) w)
      else (Returned tt, w)
  | None => (Returned tt, w)
  end.
Proof.
  unfold handlePaymentCaptured, captured_document. eff_unfold.
  destruct (List.find _ (db w)) as [p|]; [|reflexivity].
  change (paymentMethod (set_paymentStatus completed
            (set_transactionId (PaymentEntity.id e) p))) with (paymentMethod p).
  now destruct (db_accepts E (db w) _).
Qed.

Lemma handlePaymentFailed_run (E : Env) (e : PaymentEntity.t) (w : World) :
  handlePaymentFailed E (Some e) w =
  match List.find (fun q => String.eqb (orderId q) (PaymentEntity.order_id e)) (db w) with
  | Some p =>
      if db_accepts E (db w) (failed_document e p)
      then (Returned tt, with_db (replace_doc (failed_document e p) (db w)) w)
      else (Returned tt, w)
  | None => (Returned tt, w)
  end.
Proof.
  unfold handlePaymentFailed, failed_document. eff_unfold.
  repeat case_match; simplify_eq; reflexivity.
Qed.

Lemma handleOrderPaid_run (E : Env) (o : RazorpayOrder.t) (w : World) :
  handleOrderPaid E (Some o) w =
  match List.find (fun q => String.eqb (orderId q) (RazorpayOrder.id o)) (db w) with
  | Some p =>
      if PaymentStatus_eqb (paymentStatus p) completed
      then (Returned tt, w)
      else if db_accepts E (db w) (set_paymentStatus completed p)
      then (Returned tt, with_db (replace_doc (set_paymentStatus completed p) (db w)) w)
      else (Returned tt, w)
  | None => (Returned tt, w)
  end.
Proof.
  unfold handleOrderPaid. eff_unfold.
  repeat case_match; simplify_eq; reflexivity.
Qed.

(** ** Client verification *)

(** Fetching a payment does not read or write the collection. *)
Lemma getPaymentDetails_with_db (E : Env) (paymentId : string) (d : list Payment)
    (w : World) :
  getPaymentDetails E paymentId (with_db d w) =
    (fst (getPaymentDetails E paymentId w),
     with_db d (snd (getPaymentDetails E paymentId w))).
Proof.
  unfold getPaymentDetails, getRazorpayInstance, razorpay_payments_fetch. eff_unfold.
  destruct w as [d0 calls inst now]; cbn.
  repeat case_match; simplify_eq; reflexivity.
Qed.

Lemma getPaymentDetails_db (E : Env) (paymentId : string) (w : World) :
  db (snd (getPaymentDetails E paymentId w)) = db w.
Proof.
  unfold getPaymentDetails, getRazorpayInstance, razorpay_payments_fetch. eff_unfold.
  repeat case_match; simplify_eq; reflexivity.
Qed.

(** [verifyRazorpayPayment] as a decision table, for a request that carries the
    three fields, names a stored record and comes from the record's owner. *)
Lemma verifyRazorpayPayment_run (E : Env) (u : User) (body : VerifyBody.t)
    (oid pid sig : string) (w : World) (p : Payment) :
  VerifyBody.orderId body = Some oid -> oid <> "" ->
  VerifyBody.paymentId body = Some pid -> pid <> "" ->
  VerifyBody.signature body = Some sig -> sig <> "" ->
  List.find (fun q => String.eqb (orderId q) oid) (db w) = Some p ->
  user p = user_id u ->
  verifyRazorpayPayment E u body w =
  match RAZORPAY_KEY_SECRET E with
  | None =>
      (Returned
         (reply_error "Error verifying payment"
            "Error verifying payment signature: The key argument must be of type string"),
       w)
  | Some secret =>
      if String.eqb (hmac_sha256_hex E secret (oid +:+ "|" +:+ pid)) sig
      then
        match getPaymentDetails E pid w with
        | (Returned e, w1) =>
            let p' := verified_document pid e p in
            if db_accepts E (db w1) p'
            then (Returned (reply_data 200 "Payment verified successfully" (DataVerified p')),
                  with_db (replace_doc p' (db w1)) w1)
            else (Returned (reply_error "Error verifying payment" "Payment validation failed"),
                  w1)
        | (Thrown m, w1) => (Returned (reply_error "Error verifying payment" m), w1)
        end
      else
        if db_accepts E (db w) (rejected_document p)
        then (Returned (reply 400 false "Payment verification failed: Invalid signature"),
              with_db (replace_doc (rejected_document p) (db w)) w)
        else (Returned (reply_error "Error verifying payment" "Payment validation failed"), w)
  end.
Proof.
  intros Ho Hoid Hp Hpid Hs Hsig Hfind Huser.
  unfold verifyRazorpayPayment. rewrite Ho, Hp, Hs.
  apply String.eqb_neq in Hoid, Hpid, Hsig. rewrite Hoid, Hpid, Hsig. cbn [orb].
  unfold try_catch at 1. unfold bind at 1. unfold Payment_findOne at 1.
  rewrite Hfind, Huser, String.eqb_refl. cbn [negb].
  unfold bind at 1. unfold verifyPaymentSignature.
  destruct (RAZORPAY_KEY_SECRET E) as [secret|]; [|reflexivity].
  unfold try_catch at 1. unfold ret at 1.
  destruct (String.eqb (hmac_sha256_hex E secret (oid +:+ "|" +:+ pid)) sig); cbn [negb].
  - unfold bind at 1.
    destruct (getPaymentDetails E pid w) as [[e|m] w1]; [|reflexivity].
    unfold verified_document. cbv zeta.
    change (paymentMethod
              (set_paymentStatus
                 (if String.eqb (PaymentEntity.status e) "captured"
                  then completed else processing)
                 (set_transactionId pid p))) with (paymentMethod p).
    unfold bind, Payment_save, ret.
    now destruct (db_accepts E (db w1) _).
  - unfold rejected_document, bind, Payment_save, ret.
    now destruct (db_accepts E (db w) _).
Qed.

(** ** The documents written by verification and by the captured webhook *)

Ltac doc_simpl p :=
  destruct p;
  cbv beta iota zeta delta
      [captured_document verified_document failed_document rejected_document
       refunded_document merge_razorpayPayment set_metadata set_receiptUrl
       set_paymentMethod set_paymentStatus set_transactionId set_notes
       set_refundAmount set_refundReason set_refundedAt set_invoiceUrl
       _id user userName userEmail orderId transactionId amount currency
       paymentMethod paymentStatus paymentGateway items billingAddress receiptUrl
       invoiceUrl refundAmount refundReason refundedAt notes metadata Js.spread] in *.

Lemma or_str_idem (a : option string) (b : string) :
  Js.or_str a (Js.or_str a b) = Js.or_str a b.
Proof. unfold Js.or_str. destruct a as [s|]; [|reflexivity]. now destruct (String.eqb s ""). Qed.

(** Applying the captured update to its own result changes nothing. *)
Lemma captured_document_idem (e : PaymentEntity.t) (p : Payment) :
  captured_document e (captured_document e p) = captured_document e p.
Proof.
  doc_simpl p. rewrite or_str_idem. do 2 f_equal. apply insert_insert_eq.
Qed.

(** A verification whose gateway payment is captured writes what the captured
    webhook for that payment writes. *)
Lemma verified_document_captured (pid : string) (e : PaymentEntity.t) (p : Payment) :
  PaymentEntity.status e = "captured" ->
  PaymentEntity.id e = pid ->
  verified_document pid e p = captured_document e p.
Proof.
  intros Hst <-. unfold verified_document, captured_document. now rewrite Hst.
Qed.








(** ** The captured webhook: idempotence and commutation with verification *)

(** A valid [payment.captured] delivery is answered 200 and does to the world
    what the helper does. *)
Lemma razorpayWebhook_captured (E : Env) (req : WebhookRequest.t) (ev : WebhookEvent.t)
    (entity : option PaymentEntity.t) (w : World) :
  webhook_signature_ok E req = true ->
  webhook_event E req = Some ev ->
  WebhookEvent.event ev = Some "payment.captured" ->
  WebhookEvent.payment_entity ev = Some entity ->
  razorpayWebhook E req w =
    (Returned (reply 200 true "Webhook processed"),
     snd (handlePaymentCaptured E entity w)).
Proof.
  intros Hok Hev Hkind Hpath.
  rewrite razorpayWebhook_accepts, Hev by assumption.
  unfold dispatch. rewrite Hkind, Hpath. cbn [String.eqb Ascii.eqb Bool.eqb].
  unfold payload_entity, bind at 1, ret at 1.
  destruct entity as [e|]; [|reflexivity].
  rewrite handlePaymentCaptured_run. repeat case_match; simplify_eq; reflexivity.
Qed.

(** After the helper has run once, running it again changes nothing. *)
Lemma handlePaymentCaptured_idem (E : Env) (entity : option PaymentEntity.t) (w : World) :
  snd (handlePaymentCaptured E entity (snd (handlePaymentCaptured E entity w)))
  = snd (handlePaymentCaptured E entity w).
Proof.
  destruct entity as [e|]; [|reflexivity].
  rewrite (handlePaymentCaptured_run E e w).
  destruct (List.find _ (db w)) as [p|] eqn:Hfind.
  - destruct (db_accepts E (db w) (captured_document e p)) eqn:Hacc; cbn [snd].
    + rewrite handlePaymentCaptured_run. cbn [db with_db].
      rewrite (find_order_replace_doc _ _ p (captured_document e p) Hfind)
        by reflexivity.
      rewrite captured_document_idem, replace_doc_idem.
      destruct (db_accepts E (replace_doc _ _) _); reflexivity.
    + rewrite handlePaymentCaptured_run, Hfind, Hacc. reflexivity.
  - cbn [snd]. rewrite handlePaymentCaptured_run, Hfind. reflexivity.
Qed.

(** C5. A [payment.captured] webhook that passes the signature check is
    answered 200 and leaves some world [w1]; delivering the same request again
    is answered 200 again and leaves [w1] as it is. In particular the second
    delivery, which finds the record already [completed], is a successful
    no-op. *)
Theorem captured_webhook_idempotent (E : Env) (req : WebhookRequest.t)
    (ev : WebhookEvent.t) (entity : option PaymentEntity.t) (w : World) :
  webhook_signature_ok E req = true ->
  webhook_event E req = Some ev ->
  WebhookEvent.event ev = Some "payment.captured" ->
  WebhookEvent.payment_entity ev = Some entity ->
  exists w1,
    razorpayWebhook E req w = (Returned (reply 200 true "Webhook processed"), w1) /\
    razorpayWebhook E req w1 = (Returned (reply 200 true "Webhook processed"), w1).
Proof.
  intros Hok Hev Hkind Hpath.
  exists (snd (handlePaymentCaptured E entity w)). split.
  - now apply razorpayWebhook_captured with (ev := ev).
  - rewrite (razorpayWebhook_captured E req ev entity) by assumption.
    now rewrite handlePaymentCaptured_idem.
Qed.

(** The captured webhook of the sample payment, delivered to the pending order. *)
Lemma captured_webhook_idempotent_witness :
  exists w1,
    razorpayWebhook Sample.env (Sample.webhook "captured order_1 pay_1") Sample.after_order
      = (Returned (reply 200 true "Webhook processed"), w1) /\
    razorpayWebhook Sample.env (Sample.webhook "captured order_1 pay_1") w1
      = (Returned (reply 200 true "Webhook processed"), w1).
Proof.
  apply (captured_webhook_idempotent Sample.env (Sample.webhook "captured order_1 pay_1")
           Sample.captured_event (Some Sample.gateway_payment) Sample.after_order);
    vm_compute; reflexivity.
Defined.

(** C4. For one gateway payment [e] that is captured, a successful client
    verification (valid signature, [e] fetched, write accepted) and the
    [payment.captured] webhook carrying [e] leave the same world in either
    order, and in it the record is [completed] with the payment's identifier as
    [transactionId]. *)
Theorem verification_and_capture_commute (E : Env) (u : User) (body : VerifyBody.t)
    (oid pid sig secret : string) (req : WebhookRequest.t) (ev : WebhookEvent.t)
    (w w1 : World) (p : Payment) (e : PaymentEntity.t) :
  VerifyBody.orderId body = Some oid -> oid <> "" ->
  VerifyBody.paymentId body = Some pid -> pid <> "" ->
  VerifyBody.signature body = Some sig -> sig <> "" ->
  List.find (fun q => String.eqb (orderId q) oid) (db w) = Some p ->
  user p = user_id u ->
  RAZORPAY_KEY_SECRET E = Some secret ->
  sig = hmac_sha256_hex E secret (oid +:+ "|" +:+ pid) ->
  getPaymentDetails E pid w = (Returned e, w1) ->
  PaymentEntity.status e = "captured" ->
  PaymentEntity.id e = pid ->
  PaymentEntity.order_id e = oid ->
  webhook_signature_ok E req = true ->
  webhook_event E req = Some ev ->
  WebhookEvent.event ev = Some "payment.captured" ->
  WebhookEvent.payment_entity ev = Some (Some e) ->
  db_accepts E (db w) (captured_document e p) = true ->
  snd (razorpayWebhook E req (snd (verifyRazorpayPayment E u body w)))
  = snd (verifyRazorpayPayment E u body (snd (razorpayWebhook E req w))) /\
  exists p',
    List.find (fun q => String.eqb (orderId q) oid)
      (db (snd (razorpayWebhook E req (snd (verifyRazorpayPayment E u body w)))))
      = Some p' /\
    paymentStatus p' = completed /\
    transactionId p' = Some pid.
Proof.
  intros Ho Hoid Hp Hpid Hs Hsig Hfind Huser Hsecret Hmac Hfetch Hcap Hid Horder
    Hok Hev Hkind Hpath Hacc.
  assert (Hdb : db w1 = db w).
  { rewrite <- (getPaymentDetails_db E pid w). now rewrite Hfetch. }
  set (p' := captured_document e p).
  set (d' := replace_doc p' (db w)).
  assert (Hfind' : List.find (fun q => String.eqb (orderId q) oid) d' = Some p').
  { now apply (find_order_replace_doc _ _ p). }
  (* verification first *)
  assert (Hv : snd (verifyRazorpayPayment E u body w) = with_db d' w1).
  { rewrite (verifyRazorpayPayment_run E u body oid pid sig w p) by assumption.
    rewrite Hsecret, <- Hmac, String.eqb_refl, Hfetch. cbv zeta.
    rewrite (verified_document_captured pid e p Hcap Hid), Hdb, Hacc.
    reflexivity. }
  assert (Hvw : snd (razorpayWebhook E req (with_db d' w1)) = with_db d' w1).
  { rewrite (razorpayWebhook_captured E req ev (Some e)) by assumption. cbn [snd].
    rewrite handlePaymentCaptured_run. cbn [db with_db]. rewrite Horder, Hfind'.
    unfold p' at 1 2. rewrite captured_document_idem. fold p'.
    unfold d'. rewrite replace_doc_idem.
    destruct (db_accepts E (replace_doc _ _) p'); reflexivity. }
  (* webhook first *)
  assert (Hw : snd (razorpayWebhook E req w) = with_db d' w).
  { rewrite (razorpayWebhook_captured E req ev (Some e)) by assumption. cbn [snd].
    rewrite handlePaymentCaptured_run, Horder, Hfind, Hacc. reflexivity. }
  assert (Hwv : snd (verifyRazorpayPayment E u body (with_db d' w)) = with_db d' w1).
  { rewrite (verifyRazorpayPayment_run E u body oid pid sig (with_db d' w) p')
      by assumption.
    rewrite Hsecret, <- Hmac, String.eqb_refl, getPaymentDetails_with_db, Hfetch.
    cbn [fst snd]. cbv zeta.
    rewrite (verified_document_captured pid e p' Hcap Hid).
    unfold p' at 1 2 3. rewrite captured_document_idem. fold p'.
    cbn [db with_db]. unfold d'. rewrite replace_doc_idem.
    destruct (db_accepts E (replace_doc _ _) p'); reflexivity. }
  rewrite Hv, Hvw, Hw, Hwv. split; [reflexivity|].
  exists p'. cbn [db with_db]. split; [exact Hfind'|].
  split; [reflexivity|]. cbn. now rewrite Hid.
Qed.

(** The sample order, verified by the client and confirmed by the webhook. *)
Lemma verification_and_capture_commute_witness :
  snd (razorpayWebhook Sample.env (Sample.webhook "captured order_1 pay_1")
         (snd (verifyRazorpayPayment Sample.env Sample.buyer Sample.verify_body
                 Sample.after_order)))
  = snd (verifyRazorpayPayment Sample.env Sample.buyer Sample.verify_body
           (snd (razorpayWebhook Sample.env (Sample.webhook "captured order_1 pay_1")
                   Sample.after_order))) /\
  exists p',
    List.find (fun q => String.eqb (orderId q) "order_1")
      (db (snd (razorpayWebhook Sample.env (Sample.webhook "captured order_1 pay_1")
                  (snd (verifyRazorpayPayment Sample.env Sample.buyer Sample.verify_body
                          Sample.after_order)))))
      = Some p' /\
    paymentStatus p' = completed /\
    transactionId p' = Some "pay_1".
Proof.
  apply (verification_and_capture_commute Sample.env Sample.buyer Sample.verify_body
           "order_1" "pay_1" "mac(key_secret,order_1|pay_1)" "key_secret"
           (Sample.webhook "captured order_1 pay_1") Sample.captured_event
           Sample.after_order
           (snd (getPaymentDetails Sample.env "pay_1" Sample.after_order))
           Sample.pending_payment Sample.gateway_payment);
    try discriminate; vm_compute; reflexivity.
Defined.

(** When the webhook's entity [e2] and the fetched payment [e1] name the same
    payment and order but differ in other data, the two orders still agree on
    the status and on [transactionId], whether or not the second write is
    taken. *)
Lemma verification_and_capture_agree (E : Env) (u : User) (body : VerifyBody.t)
    (oid pid sig secret : string) (req : WebhookRequest.t) (ev : WebhookEvent.t)
    (w w1 : World) (p : Payment) (e1 e2 : PaymentEntity.t) :
  VerifyBody.orderId body = Some oid -> oid <> "" ->
  VerifyBody.paymentId body = Some pid -> pid <> "" ->
  VerifyBody.signature body = Some sig -> sig <> "" ->
  List.find (fun q => String.eqb (orderId q) oid) (db w) = Some p ->
  user p = user_id u ->
  RAZORPAY_KEY_SECRET E = Some secret ->
  sig = hmac_sha256_hex E secret (oid +:+ "|" +:+ pid) ->
  getPaymentDetails E pid w = (Returned e1, w1) ->
  PaymentEntity.status e1 = "captured" ->
  PaymentEntity.id e2 = pid ->
  PaymentEntity.order_id e2 = oid ->
  webhook_signature_ok E req = true ->
  webhook_event E req = Some ev ->
  WebhookEvent.event ev = Some "payment.captured" ->
  WebhookEvent.payment_entity ev = Some (Some e2) ->
  db_accepts E (db w) (verified_document pid e1 p) = true ->
  db_accepts E (db w) (captured_document e2 p) = true ->
  (exists p',
     List.find (fun q => String.eqb (orderId q) oid)
       (db (snd (razorpayWebhook E req (snd (verifyRazorpayPayment E u body w)))))
       = Some p' /\
     paymentStatus p' = completed /\ transactionId p' = Some pid) /\
  (exists p',
     List.find (fun q => String.eqb (orderId q) oid)
       (db (snd (verifyRazorpayPayment E u body (snd (razorpayWebhook E req w)))))
       = Some p' /\
     paymentStatus p' = completed /\ transactionId p' = Some pid).
Proof.
  intros Ho Hoid Hp Hpid Hs Hsig Hfind Huser Hsecret Hmac Hfetch Hcap Hid Horder
    Hok Hev Hkind Hpath Hacc1 Hacc2.
  assert (Hdb : db w1 = db w).
  { rewrite <- (getPaymentDetails_db E pid w). now rewrite Hfetch. }
  assert (Hvd : forall q, verified_document pid e1 q = captured_document
                            {| PaymentEntity.id := pid;
                               PaymentEntity.order_id := PaymentEntity.order_id e1;
                               PaymentEntity.status := PaymentEntity.status e1;
                               PaymentEntity.method := PaymentEntity.method e1;
                               PaymentEntity.receipt := PaymentEntity.receipt e1;
                               PaymentEntity.bank := PaymentEntity.bank e1;
                               PaymentEntity.wallet := PaymentEntity.wallet e1;
                               PaymentEntity.vpa := PaymentEntity.vpa e1;
                               PaymentEntity.email := PaymentEntity.email e1;
                               PaymentEntity.contact := PaymentEntity.contact e1;
                               PaymentEntity.error_description :=
                                 PaymentEntity.error_description e1 |} q).
  { intros q. unfold verified_document. now rewrite Hcap. }
  split.
  - (* verification first *)
    rewrite (verifyRazorpayPayment_run E u body oid pid sig w p) by assumption.
    rewrite Hsecret, <- Hmac, String.eqb_refl, Hfetch. cbv zeta. rewrite Hdb, Hacc1.
    cbn [snd].
    rewrite (razorpayWebhook_captured E req ev (Some e2)) by assumption. cbn [snd].
    rewrite handlePaymentCaptured_run. cbn [db with_db]. rewrite Horder.
    rewrite (find_order_replace_doc _ _ p (verified_document pid e1 p) Hfind)
      by (rewrite Hvd; reflexivity).
    destruct (db_accepts E (replace_doc _ _) _); cbn [db with_db].
    + eexists. split; [|split].
      * apply (find_order_replace_doc _ _ (verified_document pid e1 p)).
        -- apply (find_order_replace_doc _ _ p); [assumption| |];
             rewrite Hvd; reflexivity.
        -- reflexivity.
        -- reflexivity.
      * reflexivity.
      * cbn. now rewrite Hid.
    + eexists. split; [|split].
      * apply (find_order_replace_doc _ _ p); [assumption| |]; rewrite Hvd; reflexivity.
      * rewrite Hvd. reflexivity.
      * rewrite Hvd. reflexivity.
  - (* webhook first *)
    rewrite (razorpayWebhook_captured E req ev (Some e2)) by assumption. cbn [snd].
    rewrite handlePaymentCaptured_run, Horder, Hfind, Hacc2. cbn [snd].
    assert (Hfind2 : List.find (fun q => String.eqb (orderId q) oid)
                       (replace_doc (captured_document e2 p) (db w))
                     = Some (captured_document e2 p)).
    { now apply (find_order_replace_doc _ _ p). }
    rewrite (verifyRazorpayPayment_run E u body oid pid sig _ (captured_document e2 p))
      by assumption.
    rewrite Hsecret, <- Hmac, String.eqb_refl, getPaymentDetails_with_db, Hfetch.
    cbn [fst snd]. cbv zeta. cbn [db with_db].
    destruct (db_accepts E (replace_doc _ _) _); cbn [snd db with_db].
    + eexists. split; [|split].
      * apply (find_order_replace_doc _ _ (captured_document e2 p));
          [assumption| |]; rewrite Hvd; reflexivity.
      * rewrite Hvd. reflexivity.
      * rewrite Hvd. reflexivity.
    + eexists. split; [exact Hfind2|]. split; [reflexivity|]. cbn. now rewrite Hid.
Qed.

(** ** Webhooks that match nothing *)

(** C9. A webhook that passes the signature check and whose event refers to no
    stored record (by the order reference of its entity), or whose event type
    is none of [payment.captured], [payment.failed], [order.paid], is answered
    200 and leaves the world, and so every payment record, as it was: nothing
    is created and nothing is changed. *)
Theorem unmatched_webhook_discarded (E : Env) (req : WebhookRequest.t)
    (ev : WebhookEvent.t) (w : World) :
  webhook_signature_ok E req = true ->
  webhook_event E req = Some ev ->
  Unmatched (db w) ev ->
  razorpayWebhook E req w = (Returned (reply 200 true "Webhook processed"), w).
Proof.
  intros Hok Hev Hun.
  rewrite razorpayWebhook_accepts, Hev by assumption. unfold dispatch.
  destruct Hun as [e Hkind Hpath Hfind|e Hkind Hpath Hfind|o Hkind Hpath Hfind
                  |kind Hkind H1 H2 H3|Hkind];
    rewrite Hkind; [| | | |reflexivity].
  - rewrite Hpath. cbn [String.eqb Ascii.eqb Bool.eqb].
    unfold payload_entity, bind at 1, ret at 1.
    now rewrite handlePaymentCaptured_run, Hfind.
  - rewrite Hpath. cbn [String.eqb Ascii.eqb Bool.eqb].
    unfold payload_entity, bind at 1, ret at 1.
    now rewrite handlePaymentFailed_run, Hfind.
  - rewrite Hpath. cbn [String.eqb Ascii.eqb Bool.eqb].
    unfold payload_entity, bind at 1, ret at 1.
    now rewrite handleOrderPaid_run, Hfind.
  - apply String.eqb_neq in H1, H2, H3. now rewrite H1, H2, H3.
Qed.

(** A captured event for an order nobody created, and an event of another type. *)
Lemma unmatched_webhook_discarded_witness :
  razorpayWebhook Sample.env (Sample.webhook "captured order_9 pay_9") Sample.after_order
    = (Returned (reply 200 true "Webhook processed"), Sample.after_order) /\
  razorpayWebhook Sample.env (Sample.webhook "refund created") Sample.after_order
    = (Returned (reply 200 true "Webhook processed"), Sample.after_order).
Proof.
  split.
  - apply (unmatched_webhook_discarded Sample.env (Sample.webhook "captured order_9 pay_9")
             Sample.stray_event Sample.after_order);
      [vm_compute; reflexivity | vm_compute; reflexivity |].
    eapply unmatched_captured; vm_compute; reflexivity.
  - apply (unmatched_webhook_discarded Sample.env (Sample.webhook "refund created")
             Sample.unknown_event Sample.after_order);
      [vm_compute; reflexivity | vm_compute; reflexivity |].
    eapply unmatched_type; [vm_compute; reflexivity | discriminate ..].
Defined.

Lemma razorpayWebhook_failed (E : Env) (req : WebhookRequest.t) (ev : WebhookEvent.t)
    (e : PaymentEntity.t) (w : World) :
  webhook_signature_ok E req = true ->
  webhook_event E req = Some ev ->
  WebhookEvent.event ev = Some "payment.failed" ->
  WebhookEvent.payment_entity ev = Some (Some e) ->
  razorpayWebhook E req w =
    (Returned (reply 200 true "Webhook processed"),
     snd (handlePaymentFailed E (Some e) w)).
Proof.
  intros Hok Hev Hkind Hpath.
  rewrite razorpayWebhook_accepts, Hev by assumption.
  unfold dispatch. rewrite Hkind, Hpath. cbn [String.eqb Ascii.eqb Bool.eqb].
  unfold payload_entity, bind at 1, ret at 1.
  rewrite handlePaymentFailed_run. repeat case_match; simplify_eq; reflexivity.
Qed.

Lemma razorpayWebhook_paid (E : Env) (req : WebhookRequest.t) (ev : WebhookEvent.t)
    (o : RazorpayOrder.t) (w : World) :
  webhook_signature_ok E req = true ->
  webhook_event E req = Some ev ->
  WebhookEvent.event ev = Some "order.paid" ->
  WebhookEvent.order_entity ev = Some (Some o) ->
  razorpayWebhook E req w =
    (Returned (reply 200 true "Webhook processed"),
     snd (handleOrderPaid E (Some o) w)).
Proof.
  intros Hok Hev Hkind Hpath.
  rewrite razorpayWebhook_accepts, Hev by assumption.
  unfold dispatch. rewrite Hkind, Hpath. cbn [String.eqb Ascii.eqb Bool.eqb].
  unfold payload_entity, bind at 1, ret at 1.
  rewrite handleOrderPaid_run. repeat case_match; simplify_eq; reflexivity.
Qed.

(** ** Requests that fail the signature check *)

(** C3 (as amended). A webhook that fails the signature check (secret not
    configured, header missing, or digest mismatch) is answered with an error,
    500 when the secret is missing and 400 otherwise, and changes nothing. A
    client verification without a signature is answered 400 and changes
    nothing, and one made while the key secret is missing is answered 500 and
    changes nothing. A client verification whose signature does not match the
    digest is answered 400 with the invalid-signature message, and the record
    is written with status [failed] and the failure note, its other fields as
    they were; if the database refuses that write the answer is 500 and nothing
    changes. *)
Theorem signature_failure_effects (E : Env) (w : World) :
  (forall req,
     webhook_signature_ok E req = false ->
     exists r, razorpayWebhook E req w = (Returned r, w) /\
               Response.success r = false /\
               Response.status r =
                 (if Js.truthy_str (RAZORPAY_WEBHOOK_SECRET E) then 400 else 500)) /\
  (forall u body,
     VerifyBody.signature body = None ->
     verifyRazorpayPayment E u body w =
       (Returned (reply 400 false "Please provide orderId, paymentId, and signature"), w)) /\
  (forall u body oid pid sig p,
     VerifyBody.orderId body = Some oid -> oid <> "" ->
     VerifyBody.paymentId body = Some pid -> pid <> "" ->
     VerifyBody.signature body = Some sig -> sig <> "" ->
     List.find (fun q => String.eqb (orderId q) oid) (db w) = Some p ->
     user p = user_id u ->
     match RAZORPAY_KEY_SECRET E with
     | None =>
         exists r, verifyRazorpayPayment E u body w = (Returned r, w) /\
                   Response.status r = 500
     | Some secret =>
         sig <> hmac_sha256_hex E secret (oid +:+ "|" +:+ pid) ->
         if db_accepts E (db w) (rejected_document p)
         then
           exists w' p',
             verifyRazorpayPayment E u body w =
               (Returned (reply 400 false "Payment verification failed: Invalid signature"),
                w') /\
             List.find (fun q => String.eqb (orderId q) oid) (db w') = Some p' /\
             p' = set_notes "Payment verification failed: Invalid signature"
                    (set_paymentStatus failed p) /\
             paymentStatus p' = failed /\
             transactionId p' = transactionId p /\
             gateway_calls w' = gateway_calls w
         else
           exists r, verifyRazorpayPayment E u body w = (Returned r, w) /\
                     Response.status r = 500
     end).
Proof.
  split_and!.
  - intros req Hbad. rewrite razorpayWebhook_rejects by assumption.
    eexists. split; [reflexivity|]. now destruct (Js.truthy_str _).
  - intros u body Hnone. unfold verifyRazorpayPayment. rewrite Hnone.
    now destruct (VerifyBody.orderId body), (VerifyBody.paymentId body).
  - intros u body oid pid sig p Ho Hoid Hp Hpid Hs Hsig Hfind Huser.
    rewrite (verifyRazorpayPayment_run E u body oid pid sig w p) by assumption.
    destruct (RAZORPAY_KEY_SECRET E) as [secret|]; [|now eexists].
    intros Hmac. apply not_eq_sym, String.eqb_neq in Hmac. rewrite Hmac.
    destruct (db_accepts E (db w) (rejected_document p)); [|now eexists].
    eexists _, (rejected_document p). split; [reflexivity|]. split_and!; try reflexivity.
    cbn [db with_db]. now apply (find_order_replace_doc _ _ p).
Qed.

(** A webhook with a wrong digest, and a client verification with a forged one. *)
Lemma signature_failure_effects_witness :
  (exists r,
     razorpayWebhook Sample.env
       {| WebhookRequest.signature := Some "forged";
          WebhookRequest.payload := WebhookRequest.Buffer "captured order_1 pay_1" |}
       Sample.after_order = (Returned r, Sample.after_order) /\
     Response.success r = false /\ Response.status r = 400) /\
  (exists w' p',
     verifyRazorpayPayment Sample.env Sample.buyer Sample.forged_verify_body
       Sample.after_order =
       (Returned (reply 400 false "Payment verification failed: Invalid signature"), w') /\
     List.find (fun q => String.eqb (orderId q) "order_1") (db w') = Some p' /\
     p' = set_notes "Payment verification failed: Invalid signature"
            (set_paymentStatus failed Sample.pending_payment) /\
     paymentStatus p' = failed /\
     transactionId p' = transactionId Sample.pending_payment /\
     gateway_calls w' = gateway_calls Sample.after_order).
Proof.
  destruct (signature_failure_effects Sample.env Sample.after_order) as (Hweb & _ & Hver).
  split.
  - apply Hweb. vm_compute. reflexivity.
  - apply (Hver Sample.buyer Sample.forged_verify_body "order_1" "pay_1" "forged"
             Sample.pending_payment);
      try discriminate; vm_compute; reflexivity.
Defined.

(** C3 (the claim as stated fails). A client verification with a forged
    signature is answered 400, yet it changes the record: its status goes from
    [pending] to [failed]. *)
Lemma forged_verification_mutates_record :
  VerifyBody.signature Sample.forged_verify_body
    <> Some (hmac_sha256_hex Sample.env "key_secret" ("order_1" +:+ "|" +:+ "pay_1")) /\
  Response.status <$>
    (match fst (verifyRazorpayPayment Sample.env Sample.buyer Sample.forged_verify_body
                  Sample.after_order) with
     | Returned r => Some r
     | Thrown _ => None
     end) = Some 400 /\
  map paymentStatus (db Sample.after_order) = [pending] /\
  map paymentStatus
    (db (snd (verifyRazorpayPayment Sample.env Sample.buyer Sample.forged_verify_body
                Sample.after_order))) = [failed] /\
  db (snd (verifyRazorpayPayment Sample.env Sample.buyer Sample.forged_verify_body
             Sample.after_order)) <> db Sample.after_order.
Proof.
  split_and!; try (vm_compute; reflexivity).
  - vm_compute. discriminate.
  - intros H. apply (f_equal (map paymentStatus)) in H. vm_compute in H. discriminate H.
Qed.

(** ** Gateway-driven operations and the current status *)

(** What each gateway-driven operation leaves as the status of a record it
    finds, whatever the status was. *)
Lemma handlePaymentCaptured_status (E : Env) (e : PaymentEntity.t) (w : World)
    (p : Payment) :
  List.find (fun q => String.eqb (orderId q) (PaymentEntity.order_id e)) (db w) = Some p ->
  db_accepts E (db w) (captured_document e p) = true ->
  List.find (fun q => String.eqb (orderId q) (PaymentEntity.order_id e))
    (db (snd (handlePaymentCaptured E (Some e) w))) = Some (captured_document e p).
Proof.
  intros Hfind Hacc. rewrite handlePaymentCaptured_run, Hfind, Hacc. cbn [snd db with_db].
  now apply (find_order_replace_doc _ _ p).
Qed.

Lemma handlePaymentFailed_status (E : Env) (e : PaymentEntity.t) (w : World)
    (p : Payment) :
  List.find (fun q => String.eqb (orderId q) (PaymentEntity.order_id e)) (db w) = Some p ->
  db_accepts E (db w) (failed_document e p) = true ->
  List.find (fun q => String.eqb (orderId q) (PaymentEntity.order_id e))
    (db (snd (handlePaymentFailed E (Some e) w))) = Some (failed_document e p).
Proof.
  intros Hfind Hacc. rewrite handlePaymentFailed_run, Hfind, Hacc. cbn [snd db with_db].
  now apply (find_order_replace_doc _ _ p).
Qed.

Lemma handleOrderPaid_status (E : Env) (o : RazorpayOrder.t) (w : World) (p : Payment) :
  List.find (fun q => String.eqb (orderId q) (RazorpayOrder.id o)) (db w) = Some p ->
  db_accepts E (db w) (set_paymentStatus completed p) = true ->
  exists p',
    List.find (fun q => String.eqb (orderId q) (RazorpayOrder.id o))
      (db (snd (handleOrderPaid E (Some o) w))) = Some p' /\
    paymentStatus p' = completed /\
    (paymentStatus p = completed -> p' = p).
Proof.
  intros Hfind Hacc. rewrite handleOrderPaid_run, Hfind.
  destruct (PaymentStatus_eqb (paymentStatus p) completed) eqn:Hst.
  - apply PaymentStatus_eqb_eq in Hst. exists p. now split_and!.
  - rewrite Hacc. exists (set_paymentStatus completed p). cbn [snd db with_db]. split_and!.
    + now apply (find_order_replace_doc _ _ p).
    + reflexivity.
    + intros Hc. rewrite Hc in Hst. discriminate Hst.
Qed.

(** C2 (as amended). The gateway-driven operations write the status without
    consulting the current one (only [order.paid] skips a record that is
    already [completed]). On a record they find, whatever its status, terminal
    or not, and when the database takes the write: [payment.captured] and
    [order.paid] leave it [completed], [payment.failed] leaves it [failed], and
    a client verification leaves it [failed] when the signature does not
    match, [completed] when the gateway reports the payment captured and
    [processing] otherwise. So of the terminal statuses only [completed] is
    kept, and only by [payment.captured], [order.paid] and a captured
    verification. *)
Theorem gateway_operations_overwrite_status (E : Env) (w : World) (p : Payment)
    (oid : string) :
  List.find (fun q => String.eqb (orderId q) oid) (db w) = Some p ->
  (forall req ev e,
     webhook_signature_ok E req = true ->
     webhook_event E req = Some ev ->
     WebhookEvent.event ev = Some "payment.captured" ->
     WebhookEvent.payment_entity ev = Some (Some e) ->
     PaymentEntity.order_id e = oid ->
     db_accepts E (db w) (captured_document e p) = true ->
     exists p',
       List.find (fun q => String.eqb (orderId q) oid) (db (snd (razorpayWebhook E req w)))
         = Some p' /\
       paymentStatus p' = completed) /\
  (forall req ev e,
     webhook_signature_ok E req = true ->
     webhook_event E req = Some ev ->
     WebhookEvent.event ev = Some "payment.failed" ->
     WebhookEvent.payment_entity ev = Some (Some e) ->
     PaymentEntity.order_id e = oid ->
     db_accepts E (db w) (failed_document e p) = true ->
     exists p',
       List.find (fun q => String.eqb (orderId q) oid) (db (snd (razorpayWebhook E req w)))
         = Some p' /\
       paymentStatus p' = failed) /\
  (forall req ev o,
     webhook_signature_ok E req = true ->
     webhook_event E req = Some ev ->
     WebhookEvent.event ev = Some "order.paid" ->
     WebhookEvent.order_entity ev = Some (Some o) ->
     RazorpayOrder.id o = oid ->
     db_accepts E (db w) (set_paymentStatus completed p) = true ->
     exists p',
       List.find (fun q => String.eqb (orderId q) oid) (db (snd (razorpayWebhook E req w)))
         = Some p' /\
       paymentStatus p' = completed /\
       (paymentStatus p = completed -> p' = p)) /\
  (forall u body pid sig secret,
     VerifyBody.orderId body = Some oid -> oid <> "" ->
     VerifyBody.paymentId body = Some pid -> pid <> "" ->
     VerifyBody.signature body = Some sig -> sig <> "" ->
     user p = user_id u ->
     RAZORPAY_KEY_SECRET E = Some secret ->
     sig <> hmac_sha256_hex E secret (oid +:+ "|" +:+ pid) ->
     db_accepts E (db w) (rejected_document p) = true ->
     exists p',
       List.find (fun q => String.eqb (orderId q) oid)
         (db (snd (verifyRazorpayPayment E u body w))) = Some p' /\
       paymentStatus p' = failed) /\
  (forall u body pid sig secret e w1,
     VerifyBody.orderId body = Some oid -> oid <> "" ->
     VerifyBody.paymentId body = Some pid -> pid <> "" ->
     VerifyBody.signature body = Some sig -> sig <> "" ->
     user p = user_id u ->
     RAZORPAY_KEY_SECRET E = Some secret ->
     sig = hmac_sha256_hex E secret (oid +:+ "|" +:+ pid) ->
     getPaymentDetails E pid w = (Returned e, w1) ->
     db_accepts E (db w) (verified_document pid e p) = true ->
     exists p',
       List.find (fun q => String.eqb (orderId q) oid)
         (db (snd (verifyRazorpayPayment E u body w))) = Some p' /\
       paymentStatus p' =
         (if String.eqb (PaymentEntity.status e) "captured"
          then completed else processing)).
Proof.
  intros Hfind. split_and!.
  - intros req ev e Hok Hev Hkind Hpath <- Hacc.
    rewrite (razorpayWebhook_captured E req ev (Some e)) by assumption. cbn [snd].
    rewrite (handlePaymentCaptured_status E e w p) by assumption. now eexists.
  - intros req ev e Hok Hev Hkind Hpath <- Hacc.
    rewrite (razorpayWebhook_failed E req ev e) by assumption. cbn [snd].
    rewrite (handlePaymentFailed_status E e w p) by assumption. now eexists.
  - intros req ev o Hok Hev Hkind Hpath <- Hacc.
    rewrite (razorpayWebhook_paid E req ev o) by assumption. cbn [snd].
    now apply handleOrderPaid_status.
  - intros u body pid sig secret Ho Hoid Hp Hpid Hs Hsig Huser Hsecret Hmac Hacc.
    rewrite (verifyRazorpayPayment_run E u body oid pid sig w p) by assumption.
    apply not_eq_sym, String.eqb_neq in Hmac. rewrite Hsecret, Hmac, Hacc.
    exists (rejected_document p). cbn [snd db with_db]. split; [|reflexivity].
    now apply (find_order_replace_doc _ _ p).
  - intros u body pid sig secret e w1 Ho Hoid Hp Hpid Hs Hsig Huser Hsecret Hmac
      Hfetch Hacc.
    assert (Hdb : db w1 = db w).
    { rewrite <- (getPaymentDetails_db E pid w). now rewrite Hfetch. }
    rewrite (verifyRazorpayPayment_run E u body oid pid sig w p) by assumption.
    rewrite Hsecret, <- Hmac, String.eqb_refl, Hfetch. cbv zeta. rewrite Hdb, Hacc.
    exists (verified_document pid e p). cbn [snd db with_db]. split.
    + apply (find_order_replace_doc _ _ p); [assumption| |];
        unfold verified_document; now destruct (String.eqb _ _).
    + unfold verified_document. now destruct (String.eqb _ _).
Qed.

(** The completed sample record, reached by a [payment.failed] webhook and by
    a forged verification. *)
Lemma gateway_operations_overwrite_status_witness :
  (exists p',
     List.find (fun q => String.eqb (orderId q) "order_1")
       (db (snd (razorpayWebhook Sample.env (Sample.webhook "failed order_1 pay_1")
                   Sample.after_verify))) = Some p' /\
     paymentStatus p' = failed) /\
  (exists p',
     List.find (fun q => String.eqb (orderId q) "order_1")
       (db (snd (verifyRazorpayPayment Sample.env Sample.buyer Sample.forged_verify_body
                   Sample.after_verify))) = Some p' /\
     paymentStatus p' = failed).
Proof.
  destruct (gateway_operations_overwrite_status Sample.env Sample.after_verify
              Scenario.completed_payment "order_1")
    as (_ & Hfailed & _ & Hforged & _).
  { vm_compute. reflexivity. }
  split.
  - apply (Hfailed (Sample.webhook "failed order_1 pay_1") Sample.failed_event
             Sample.gateway_payment);
      vm_compute; reflexivity.
  - apply (Hforged Sample.buyer Sample.forged_verify_body "pay_1" "forged" "key_secret");
      try discriminate; vm_compute; reflexivity.
Defined.

(** C2 (the claim as stated fails). A record that is [completed] is moved to
    [failed] by a [payment.failed] webhook, and a [refunded] record is moved
    back to [completed] by an [order.paid] webhook. *)
Lemma terminal_status_overwritten :
  map paymentStatus (db Sample.after_verify) = [completed] /\
  map paymentStatus
    (db (snd (razorpayWebhook Sample.env (Sample.webhook "failed order_1 pay_1")
                Sample.after_verify))) = [failed] /\
  map paymentStatus (db Sample.after_refund) = [refunded] /\
  map paymentStatus
    (db (snd (razorpayWebhook Sample.env (Sample.webhook "paid order_1")
                Sample.after_refund))) = [completed].
Proof. split_and!; vm_compute; reflexivity. Qed.

(** ** Refund fields and the [refunded] status *)

Lemma refund_invariant_b_spec (p : Payment) :
  refund_invariant_b p = true <-> refund_invariant p.
Proof.
  unfold refund_invariant_b, refund_invariant.
  rewrite Bool.eqb_true_iff, <- PaymentStatus_eqb_eq.
  destruct (refund_fields_set p), (PaymentStatus_eqb _ _); intuition congruence.
Qed.

Lemma Forall_refund_invariant_b (d : list Payment) :
  forallb refund_invariant_b d = true <-> Forall refund_invariant d.
Proof.
  rewrite forallb_forall, List.Forall_forall.
  split; intros H q Hq; apply refund_invariant_b_spec, H, Hq.
Qed.

Lemma refund_fields_kept_refl (d : list Payment) : refund_fields_kept d d.
Proof. intros q Hq. exists q. now split_and!. Qed.

(** A save of a loaded document whose refund fields were not assigned. *)
Lemma refund_fields_kept_save (d : list Payment) (p p' : Payment) :
  In p d ->
  _id p' = _id p ->
  refundAmount p' = refundAmount p ->
  refundReason p' = refundReason p ->
  refundedAt p' = refundedAt p ->
  refund_fields_kept d (replace_doc p' d).
Proof.
  intros Hin Hid Ha Hr Ht q' Hq'. apply In_replace_doc in Hq' as [->|Hq'].
  - exists p. now split_and!.
  - exists q'. now split_and!.
Qed.

Lemma find_In (f : Payment -> bool) (d : list Payment) (p : Payment) :
  List.find f d = Some p -> In p d.
Proof. intros H. now apply List.find_some in H. Qed.

Lemma createRazorpayOrder_db (E : Env) (a : float) (c : string) (r : option string)
    (n : JsObject) (w : World) :
  db (snd (createRazorpayOrder E a c r n w)) = db w.
Proof.
  unfold createRazorpayOrder, getRazorpayInstance, razorpay_orders_create. eff_unfold.
  repeat case_match; simplify_eq; reflexivity.
Qed.

(** A freshly created document has no refund field and is [pending]. *)
Lemma refund_invariant_new (p : Payment) :
  refundAmount p = 0%float -> paymentStatus p = pending -> refund_invariant p.
Proof.
  intros Ha Hs. apply refund_invariant_b_spec. unfold refund_invariant_b, refund_fields_set.
  rewrite Ha, Hs. reflexivity.
Qed.

Lemma createRazorpayOrderHandler_invariant (E : Env) (u : User) (body : OrderBody.t)
    (w : World) :
  Forall refund_invariant (db w) ->
  Forall refund_invariant (db (snd (createRazorpayOrderHandler E u body w))).
Proof.
  intros Hinv. unfold createRazorpayOrderHandler.
  unfold try_catch at 1.
  destruct (OrderBody.amount body) as [a|]; [|exact Hinv].
  destruct (Js.falsy_num a || PrimFloat.leb a 0); [exact Hinv|].
  destruct (OrderBody.items body) as [its|]; [|exact Hinv].
  destruct (Nat.eqb (length its) 0); [exact Hinv|].
  unfold bind at 1, Date_now at 1. unfold bind at 1.
  match goal with
  | |- context [createRazorpayOrder E ?a ?c ?r ?n w] =>
      pose proof (createRazorpayOrder_db E a c r n w) as Hdb;
      destruct (createRazorpayOrder E a c r n w) as [[order|m] w1]
  end; cbn [snd] in Hdb.
  - unfold bind, Payment_create, ret. rewrite Hdb.
    destruct (db_accepts E (db w) _); cbn [snd db with_db]; [|now rewrite Hdb].
    apply List.Forall_app. split; [exact Hinv|].
    constructor; [|constructor]. now apply refund_invariant_new.
  - unfold ret. cbn [snd]. now rewrite Hdb.
Qed.

Lemma createPayment_invariant (E : Env) (u : User) (body : CreateBody.t) (w : World) :
  Forall refund_invariant (db w) ->
  Forall refund_invariant (db (snd (createPayment E u body w))).
Proof.
  intros Hinv. unfold createPayment. eff_unfold.
  repeat case_match; simplify_eq; cbn [snd db with_db]; try exact Hinv.
  apply List.Forall_app. split; [exact Hinv|].
  constructor; [|constructor]. now apply refund_invariant_new.
Qed.

Lemma refunded_document_fields (a : float) (body : RefundBody.t) (now : Date)
    (p : Payment) :
  _id (refunded_document a body now p) = _id p /\
  paymentStatus (refunded_document a body now p) = refunded /\
  refundAmount (refunded_document a body now p) = a /\
  refundReason (refunded_document a body now p)
    = Some (Js.or_str (RefundBody.refundReason body) "Requested refund") /\
  refundedAt (refunded_document a body now p) = Some now.
Proof.
  unfold refunded_document, Js.when_truthy.
  destruct (RefundBody.notes body) as [n|]; [destruct (String.eqb n "")|];
    now split_and!.
Qed.

Lemma processRefund_invariant (E : Env) (id : ObjectId) (body : RefundBody.t) (w : World) :
  Forall refund_invariant (db w) ->
  Forall refund_invariant (db (snd (processRefund E id body w))).
Proof.
  intros Hinv. rewrite processRefund_run. cbv zeta.
  repeat case_match; simplify_eq; cbn [snd db with_db]; try exact Hinv.
  apply List.Forall_forall. intros q Hq. apply In_replace_doc in Hq as [->|Hq].
  - match goal with H : _ || _ = false |- _ => apply orb_false_elim in H as [Hf Hle] end.
    pose proof (positive_when_not_leb _ Hf Hle) as Hpos.
    apply refund_invariant_b_spec.
    unfold refund_invariant_b, refund_fields_set.
    match goal with
    | |- context [refunded_document ?a ?b ?n ?p] =>
        destruct (refunded_document_fields a b n p) as (_ & -> & -> & -> & ->)
    end.
    now rewrite Hpos.
  - revert q Hq. now apply List.Forall_forall.
Qed.

Lemma updatePaymentStatus_keeps_refund_fields (E : Env) (id : ObjectId)
    (body : StatusBody.t) (w : World) :
  refund_fields_kept (db w) (db (snd (updatePaymentStatus E id body w))).
Proof.
  unfold updatePaymentStatus. eff_unfold.
  destruct (List.find _ (db w)) as [p|] eqn:Hfind; [|apply refund_fields_kept_refl].
  apply find_In in Hfind.
  destruct (db_accepts E (db w) _); cbn [snd db with_db];
    [|apply refund_fields_kept_refl].
  apply (refund_fields_kept_save _ p); [assumption| | | |];
    unfold Js.when_truthy; repeat case_match; reflexivity.
Qed.

Lemma verifyRazorpayPayment_keeps_refund_fields (E : Env) (u : User)
    (body : VerifyBody.t) (w : World) :
  refund_fields_kept (db w) (db (snd (verifyRazorpayPayment E u body w))).
Proof.
  unfold verifyRazorpayPayment. unfold try_catch at 1.
  destruct (VerifyBody.orderId body) as [oid|]; [|apply refund_fields_kept_refl].
  destruct (VerifyBody.paymentId body) as [pid|]; [|apply refund_fields_kept_refl].
  destruct (VerifyBody.signature body) as [sig|]; [|apply refund_fields_kept_refl].
  destruct (_ || _); [apply refund_fields_kept_refl|].
  unfold bind at 1, Payment_findOne at 1.
  destruct (List.find _ (db w)) as [p|] eqn:Hfind; [|apply refund_fields_kept_refl].
  apply find_In in Hfind.
  destruct (negb (String.eqb (user p) (user_id u))); [apply refund_fields_kept_refl|].
  unfold bind at 1, verifyPaymentSignature.
  destruct (RAZORPAY_KEY_SECRET E) as [secret|]; [|apply refund_fields_kept_refl].
  unfold try_catch at 1, ret at 1.
  destruct (negb (String.eqb _ sig)).
  - unfold bind, Payment_save, ret.
    destruct (db_accepts E (db w) _); cbn [snd db with_db];
      [|apply refund_fields_kept_refl].
    now apply (refund_fields_kept_save _ p).
  - unfold bind at 1.
    pose proof (getPaymentDetails_db E pid w) as Hdb.
    destruct (getPaymentDetails E pid w) as [[e|m] w1]; cbn [snd] in Hdb;
      [|unfold ret; cbn [snd]; rewrite Hdb; apply refund_fields_kept_refl].
    unfold bind, Payment_save, ret. rewrite Hdb.
    destruct (db_accepts E (db w) _); cbn [snd db with_db];
      [|rewrite Hdb; apply refund_fields_kept_refl].
    apply (refund_fields_kept_save _ p); [assumption| | | |];
      now destruct (String.eqb (PaymentEntity.status e) "captured").
Qed.

Lemma razorpayWebhook_keeps_refund_fields (E : Env) (req : WebhookRequest.t) (w : World) :
  refund_fields_kept (db w) (db (snd (razorpayWebhook E req w))).
Proof.
  destruct (webhook_signature_ok E req) eqn:Hok;
    [|rewrite razorpayWebhook_rejects by assumption; apply refund_fields_kept_refl].
  rewrite razorpayWebhook_accepts by assumption.
  destruct (webhook_event E req) as [ev|]; [|apply refund_fields_kept_refl].
  assert (Hdispatch : refund_fields_kept (db w) (db (snd (dispatch E ev w)))).
  { unfold dispatch.
    destruct (WebhookEvent.event ev) as [kind|]; [|apply refund_fields_kept_refl].
    destruct (String.eqb kind "payment.captured").
    { destruct (WebhookEvent.payment_entity ev) as [[e|]|];
        try apply refund_fields_kept_refl.
      unfold payload_entity, bind, ret. rewrite handlePaymentCaptured_run.
      destruct (List.find _ (db w)) as [p|] eqn:Hfind; [|apply refund_fields_kept_refl].
      apply find_In in Hfind.
      destruct (db_accepts E (db w) _); [|apply refund_fields_kept_refl].
      now apply (refund_fields_kept_save _ p). }
    destruct (String.eqb kind "payment.failed").
    { destruct (WebhookEvent.payment_entity ev) as [[e|]|];
        try apply refund_fields_kept_refl.
      unfold payload_entity, bind, ret. rewrite handlePaymentFailed_run.
      destruct (List.find _ (db w)) as [p|] eqn:Hfind; [|apply refund_fields_kept_refl].
      apply find_In in Hfind.
      destruct (db_accepts E (db w) _); [|apply refund_fields_kept_refl].
      now apply (refund_fields_kept_save _ p). }
    destruct (String.eqb kind "order.paid"); [|apply refund_fields_kept_refl].
    destruct (WebhookEvent.order_entity ev) as [[o|]|];
      try apply refund_fields_kept_refl.
    unfold payload_entity, bind, ret. rewrite handleOrderPaid_run.
    destruct (List.find _ (db w)) as [p|] eqn:Hfind; [|apply refund_fields_kept_refl].
    apply find_In in Hfind.
    destruct (PaymentStatus_eqb _ _); [apply refund_fields_kept_refl|].
    destruct (db_accepts E (db w) _); [|apply refund_fields_kept_refl].
    now apply (refund_fields_kept_save _ p). }
  now destruct (dispatch E ev w) as [[?|?] ?].
Qed.

(** C8 (as amended). Creating a record (through the order handler or directly)
    and refunding one keep the equivalence between set refund fields and the
    [refunded] status on every record of the collection; the refund operation
    is the only one that writes the refund fields. The admin status update,
    the client verification and the webhooks ([order.paid] included) leave the
    refund fields of every record as they were, whatever they do to its
    status. *)
Theorem refund_fields_written_only_by_refund (E : Env) (w : World) :
  (Forall refund_invariant (db w) ->
   (forall u body,
      Forall refund_invariant (db (snd (createRazorpayOrderHandler E u body w)))) /\
   (forall u body, Forall refund_invariant (db (snd (createPayment E u body w)))) /\
   (forall id body, Forall refund_invariant (db (snd (processRefund E id body w))))) /\
  (forall id body, refund_fields_kept (db w) (db (snd (updatePaymentStatus E id body w)))) /\
  (forall u body, refund_fields_kept (db w) (db (snd (verifyRazorpayPayment E u body w)))) /\
  (forall req, refund_fields_kept (db w) (db (snd (razorpayWebhook E req w)))).
Proof.
  split_and!.
  - intros Hinv. split_and!; intros.
    + now apply createRazorpayOrderHandler_invariant.
    + now apply createPayment_invariant.
    + now apply processRefund_invariant.
  - intros. apply updatePaymentStatus_keeps_refund_fields.
  - intros. apply verifyRazorpayPayment_keeps_refund_fields.
  - intros. apply razorpayWebhook_keeps_refund_fields.
Qed.

(** The refund of the completed sample record keeps the equivalence. *)
Lemma refund_fields_written_only_by_refund_witness :
  Forall refund_invariant (db Sample.after_verify) /\
  Forall refund_invariant
    (db (snd (processRefund Sample.env "payment_0" (Sample.refund_body 999)
                Sample.after_verify))).
Proof.
  assert (H : Forall refund_invariant (db Sample.after_verify)).
  { apply Forall_refund_invariant_b. vm_compute. reflexivity. }
  split; [exact H|].
  apply (refund_fields_written_only_by_refund Sample.env Sample.after_verify), H.
Defined.

(** C8 (the claim as stated fails). Starting from worlds in which the
    equivalence holds, an [order.paid] webhook moves the refunded record to
    [completed] with its refund fields still set, and an admin status update
    marks a pending record [refunded] with no refund field set. *)
Lemma refund_invariant_broken :
  Forall refund_invariant (db Sample.after_refund) /\
  ~ Forall refund_invariant
      (db (snd (razorpayWebhook Sample.env (Sample.webhook "paid order_1")
                  Sample.after_refund))) /\
  Forall refund_invariant (db Sample.after_order) /\
  ~ Forall refund_invariant
      (db (snd (updatePaymentStatus Sample.env "payment_0"
                  {| StatusBody.paymentStatus := Some refunded;
                     StatusBody.transactionId := None;
                     StatusBody.receiptUrl := None;
                     StatusBody.invoiceUrl := None;
                     StatusBody.notes := None |}
                  Sample.after_order))).
Proof.
  split_and!.
  - apply Forall_refund_invariant_b. vm_compute. reflexivity.
  - intros H. apply Forall_refund_invariant_b in H. vm_compute in H. discriminate H.
  - apply Forall_refund_invariant_b. vm_compute. reflexivity.
  - intros H. apply Forall_refund_invariant_b in H. vm_compute in H. discriminate H.
Qed.

(** ** Amounts sent to the gateway *)

(** [createRazorpayOrder] reaches the gateway at most once, with one hundred
    times its amount argument; it returns an order only if it did. *)
Lemma createRazorpayOrder_calls (E : Env) (a : float) (c : string) (r : option string)
    (n : JsObject) (w : World) :
  exists options,
    OrderOptions.amount options = PrimFloat.mul a 100 /\
    (gateway_calls (snd (createRazorpayOrder E a c r n w))
       = (gateway_calls w ++ [OrdersCreate options])%list \/
     gateway_calls (snd (createRazorpayOrder E a c r n w)) = gateway_calls w /\
     exists m, fst (createRazorpayOrder E a c r n w) = Thrown m).
Proof.
  unfold createRazorpayOrder, getRazorpayInstance, razorpay_orders_create. eff_unfold.
  eexists {| OrderOptions.amount := PrimFloat.mul a 100 |}. split; [reflexivity|].
  repeat case_match; simplify_eq; cbn [fst snd gateway_calls with_call with_instance];
    eauto.
Qed.

(** What [processRazorpayRefund] sends once the gateway client is there: one
    refund call for the payment, with the options the code builds. *)
Lemma processRazorpayRefund_run (E : Env) (paymentId : string) (amount_ : option float)
    (notes_ : JsObject) (w w0 : World) (i : string * string) :
  getRazorpayInstance E w = (Returned i, w0) ->
  let options :=
    {| RefundOptions.amount :=
         match amount_ with
         | Some a => if Js.falsy_num a then None else Some (PrimFloat.mul a 100)
         | None => None
         end;
       RefundOptions.notes := if Nat.ltb 0 (size notes_) then Some notes_ else None |} in
  processRazorpayRefund E paymentId amount_ notes_ w =
  (match payments_refund E paymentId options with
   | inr refund => Returned refund
   | inl m => Thrown ("Error processing refund: " +:+ m)
   end,
   with_call (PaymentsRefund paymentId options) w0).
Proof.
  intros Hinst options. unfold processRazorpayRefund.
  unfold try_catch at 1. unfold bind at 1. rewrite Hinst.
  unfold bind, razorpay_payments_refund, ret, throw. fold options.
  now destruct (payments_refund E paymentId options).
Qed.

Lemma getRazorpayInstance_calls (E : Env) (w w0 : World) (i : string * string) :
  getRazorpayInstance E w = (Returned i, w0) -> gateway_calls w0 = gateway_calls w.
Proof.
  unfold getRazorpayInstance, ret, throw. intros H.
  repeat case_match; simplify_eq; reflexivity.
Qed.

(** X19. How amounts reach the gateway. Whenever the order handler answers 201
    for a request of amount [A], it has sent the gateway exactly one order, of
    amount [A * 100], and appended one record, of amount [A]. Any call the
    handler adds to the gateway log, successful or not, is an order of amount
    [A * 100]. The refund adapter, whenever the gateway client is available,
    sends exactly one refund call for the payment it was given, whether or not
    the gateway then accepts it: the call carries amount [a * 100] when the
    amount argument [a] is truthy and no amount otherwise, and the notes only
    when they are not empty; without a client it sends nothing. The products
    are those of JavaScript numbers (IEEE 754 doubles). *)
Theorem gateway_amounts_are_products (E : Env) (w : World) :
  (forall u body r w',
     createRazorpayOrderHandler E u body w = (Returned r, w') ->
     Response.status r = 201 ->
     exists a options p,
       OrderBody.amount body = Some a /\
       gateway_calls w' = (gateway_calls w ++ [OrdersCreate options])%list /\
       OrderOptions.amount options = PrimFloat.mul a 100 /\
       db w' = (db w ++ [p])%list /\
       amount p = a /\
       OrderOptions.amount options = PrimFloat.mul (amount p) 100) /\
  (forall u body c,
     In c (gateway_calls (snd (createRazorpayOrderHandler E u body w))) ->
     In c (gateway_calls w) \/
     exists a options,
       OrderBody.amount body = Some a /\
       c = OrdersCreate options /\
       OrderOptions.amount options = PrimFloat.mul a 100) /\
  (forall paymentId amount_ notes_ i w0,
     getRazorpayInstance E w = (Returned i, w0) ->
     exists options,
       gateway_calls (snd (processRazorpayRefund E paymentId amount_ notes_ w))
         = (gateway_calls w ++ [PaymentsRefund paymentId options])%list /\
       (forall a, amount_ = Some a -> Js.falsy_num a = false ->
                  RefundOptions.amount options = Some (PrimFloat.mul a 100)) /\
       (forall a, amount_ = Some a -> Js.falsy_num a = true ->
                  RefundOptions.amount options = None) /\
       (amount_ = None -> RefundOptions.amount options = None) /\
       (size notes_ = 0 -> RefundOptions.notes options = None) /\
       (size notes_ <> 0 -> RefundOptions.notes options = Some notes_) /\
       (forall refund, payments_refund E paymentId options = inr refund ->
                       fst (processRazorpayRefund E paymentId amount_ notes_ w)
                       = Returned refund) /\
       (forall m, payments_refund E paymentId options = inl m ->
                  fst (processRazorpayRefund E paymentId amount_ notes_ w)
                  = Thrown ("Error processing refund: " +:+ m))) /\
  (forall paymentId amount_ notes_ m w0,
     getRazorpayInstance E w = (Thrown m, w0) ->
     processRazorpayRefund E paymentId amount_ notes_ w
     = (Thrown ("Error processing refund: " +:+ m), w0) /\
     gateway_calls w0 = gateway_calls w).
Proof.
  split_and!.
  - intros u body r w' Hrun Hok. unfold createRazorpayOrderHandler in Hrun.
    unfold try_catch at 1 in Hrun.
    destruct (OrderBody.amount body) as [a|]; [|unfold ret in Hrun; simplify_eq; discriminate Hok].
    destruct (Js.falsy_num a || PrimFloat.leb a 0); [unfold ret in Hrun; simplify_eq; discriminate Hok|].
    destruct (OrderBody.items body) as [its|]; [|unfold ret in Hrun; simplify_eq; discriminate Hok].
    destruct (Nat.eqb (length its) 0); [unfold ret in Hrun; simplify_eq; discriminate Hok|].
    unfold bind at 1, Date_now at 1 in Hrun. unfold bind at 1 in Hrun.
    match type of Hrun with
    | context [createRazorpayOrder E ?a ?c ?rc ?n w] =>
        pose proof (createRazorpayOrder_db E a c rc n w) as Hdb;
        destruct (createRazorpayOrder_calls E a c rc n w) as (options & Hamount & Hcalls);
        destruct (createRazorpayOrder E a c rc n w) as [[order|m] w1]
    end; cbn [fst snd] in *; [|unfold ret in Hrun; simplify_eq; discriminate Hok].
    destruct Hcalls as [Hcalls|[_ [m Hm]]]; [|discriminate Hm].
    unfold bind, Payment_create, ret in Hrun. rewrite Hdb in Hrun.
    destruct (db_accepts E (db w) _); [|unfold ret in Hrun; simplify_eq; discriminate Hok].
    injection Hrun as <- <-. eexists a, options, _.
    split_and!;
      [reflexivity | exact Hcalls | exact Hamount | reflexivity | reflexivity
      | exact Hamount].
  - intros u body c. unfold createRazorpayOrderHandler. unfold try_catch at 1.
    destruct (OrderBody.amount body) as [a|]; [|now left].
    destruct (Js.falsy_num a || PrimFloat.leb a 0); [now left|].
    destruct (OrderBody.items body) as [its|]; [|now left].
    destruct (Nat.eqb (length its) 0); [now left|].
    unfold bind at 1, Date_now at 1. unfold bind at 1.
    match goal with
    | |- context [createRazorpayOrder E ?a ?c ?rc ?n w] =>
        destruct (createRazorpayOrder_calls E a c rc n w) as (options & Hamount & Hcalls);
        destruct (createRazorpayOrder E a c rc n w) as [[order|m] w1]
    end; cbn [fst snd] in *.
    + unfold bind, Payment_create, ret.
      destruct (db_accepts E (db w1) _); intros Hin;
        change (In c (gateway_calls w1)) in Hin;
        (destruct Hcalls as [Hcalls|[Hcalls _]]; rewrite Hcalls in Hin; [|now left]);
        (apply in_app_or in Hin as [Hin|[<-|[]]]; [now left|right; now eexists a, options]).
    + intros Hin. change (In c (gateway_calls w1)) in Hin.
      destruct Hcalls as [Hcalls|[Hcalls _]]; rewrite Hcalls in Hin; [|now left].
      apply in_app_or in Hin as [Hin|[<-|[]]]; [now left|right; now eexists a, options].
  - intros paymentId amount_ notes_ i w0 Hinst.
    rewrite (processRazorpayRefund_run E paymentId amount_ notes_ w w0 i Hinst).
    cbv zeta. eexists. cbn [fst snd gateway_calls with_call].
    rewrite (getRazorpayInstance_calls E w w0 i Hinst).
    split; [reflexivity|]. cbn [RefundOptions.amount RefundOptions.notes].
    split_and!.
    + now intros a -> ->.
    + now intros a -> ->.
    + now intros ->.
    + now intros ->.
    + intros Hn. destruct (size notes_); [contradiction|reflexivity].
    + now intros refund ->.
    + now intros m ->.
  - intros paymentId amount_ notes_ m w0 Hinst.
    unfold processRazorpayRefund. unfold try_catch at 1. unfold bind at 1.
    rewrite Hinst. split; [reflexivity|].
    revert Hinst. unfold getRazorpayInstance, ret, throw. intros H.
    repeat case_match; simplify_eq; reflexivity.
Qed.

(** The sample order of 999 INR reaches the gateway as 99900 paise. *)
Lemma gateway_amounts_are_products_witness :
  exists a options p,
    OrderBody.amount Sample.order_body = Some a /\
    gateway_calls Sample.after_order
      = (gateway_calls Sample.empty_world ++ [OrdersCreate options])%list /\
    OrderOptions.amount options = PrimFloat.mul a 100 /\
    db Sample.after_order = (db Sample.empty_world ++ [p])%list /\
    amount p = a /\
    OrderOptions.amount options = PrimFloat.mul (amount p) 100.
Proof.
  destruct (gateway_amounts_are_products Sample.env Sample.empty_world) as (Horder & _).
  apply (Horder Sample.buyer Sample.order_body
           (reply_data 201 "Order created successfully"
              (DataOrder
                 (Sample.gateway_order
                    {| OrderOptions.amount := 99900;
                       OrderOptions.currency := "INR";
                       OrderOptions.receipt := "receipt_1700000000000_user_1";
                       OrderOptions.notes := ∅ |})
                 (Some "rzp_test_key") Sample.pending_payment)));
    vm_compute; reflexivity.
Defined.

(** C10 (the code departs from the claim). An order for 19.99 INR is answered
    201 and stored with amount 19.99, and the one order the gateway receives
    has amount [19.99 * 100] as JavaScript computes it, 1998.9999999999998:
    not 1999, and not a whole number of paise, for it lies strictly between
    1998 and 1999. The refund adapter sends the same unrounded product for a
    refund of 19.99. *)
#[warnings="-inexact-float"]
Theorem fractional_amount_sent_unrounded :
  exists r w' options p refund_options,
    createRazorpayOrderHandler Sample.env Sample.buyer fractional_order_body
      Sample.empty_world = (Returned r, w') /\
    Response.status r = 201 /\
    gateway_calls w' = [OrdersCreate options] /\
    db w' = [p] /\
    amount p = 19.99%float /\
    OrderOptions.amount options = 1998.9999999999998%float /\
    PrimFloat.eqb (OrderOptions.amount options) 1999 = false /\
    PrimFloat.ltb 1998 (OrderOptions.amount options) = true /\
    PrimFloat.ltb (OrderOptions.amount options) 1999 = true /\
    gateway_calls
      (snd (processRazorpayRefund Sample.env "pay_1" (Some 19.99%float) ∅ w'))
      = [OrdersCreate options; PaymentsRefund "pay_1" refund_options] /\
    RefundOptions.amount refund_options = Some 1998.9999999999998%float.
Proof.
  eexists _, _, _, _, _. split; [vm_compute; reflexivity|].
  split_and!; vm_compute; reflexivity.
Qed.

Example sample_order_in_paise :
  map (fun c => match c with
                | OrdersCreate options => Some (OrderOptions.amount options)
                | _ => None
                end) (gateway_calls Sample.after_order) = [Some 99900%float] /\
  map amount (db Sample.after_order) = [999%float].
Proof. split; vm_compute; reflexivity. Qed.

(** ** The refund operation and the gateway *)

(** C1 (the code departs from the claim). The completed sample record is
    refunded in an environment whose gateway refuses every refund: the handler
    answers 200 and stores status [refunded] with the refund fields set, and no
    refund call has reached the gateway. *)
Theorem processRefund_skips_gateway :
  (forall paymentId options,
     payments_refund Sample.env paymentId options = inl "gateway unavailable") /\
  map paymentStatus (db Sample.after_verify) = [completed] /\
  Response.status <$>
    (match fst (processRefund Sample.env "payment_0" (Sample.refund_body 999)
                  Sample.after_verify) with
     | Returned r => Some r
     | Thrown _ => None
     end) = Some 200 /\
  db (snd (processRefund Sample.env "payment_0" (Sample.refund_body 999)
             Sample.after_verify)) = [Scenario.refunded_payment] /\
  paymentStatus Scenario.refunded_payment = refunded /\
  refundAmount Scenario.refunded_payment = 999%float /\
  refundReason Scenario.refunded_payment = Some "Customer request" /\
  refundedAt Scenario.refunded_payment = Some 1700000000000%N /\
  existsb is_refund_call
    (gateway_calls (snd (processRefund Sample.env "payment_0" (Sample.refund_body 999)
                           Sample.after_verify))) = false.
Proof.
  split; [intros; reflexivity|].
  split_and!; vm_compute; reflexivity.
Qed.

(** C6 (the claim as stated fails). The sample record exists, is [completed],
    has no refund yet, and the requested amount [0] is not greater than its
    amount; the request is rejected all the same, by the amount test that runs
    before all others, and so is a request for a record that does not exist,
    which gets that answer instead of 404. *)
Lemma refund_of_zero_rejected :
  List.find (fun q => String.eqb (_id q) "payment_0") (db Sample.after_verify)
    = Some Scenario.completed_payment /\
  paymentStatus Scenario.completed_payment = completed /\
  refundAmount Scenario.completed_payment = 0%float /\
  PrimFloat.leb 0 (amount Scenario.completed_payment) = true /\
  processRefund Sample.env "payment_0" (Sample.refund_body 0) Sample.after_verify
    = (Returned (reply 400 false "Please provide a valid refund amount"),
       Sample.after_verify) /\
  List.find (fun q => String.eqb (_id q) "payment_7") (db Sample.after_verify) = None /\
  processRefund Sample.env "payment_7" (Sample.refund_body 0) Sample.after_verify
    = (Returned (reply 400 false "Please provide a valid refund amount"),
       Sample.after_verify).
Proof. split_and!; vm_compute; reflexivity. Qed.

(** The scenario of the setup guide carried to its end: the full refund is
    granted, and a second request, for any amount, is rejected without a
    change. *)
Example refund_scenario :
  db Sample.after_refund = [Scenario.refunded_payment] /\
  processRefund Sample.env "payment_0" (Sample.refund_body 1) Sample.after_refund
    = (Returned (reply 400 false "Can only refund completed payments"),
       Sample.after_refund) /\
  processRefund Sample.env "payment_0" (Sample.refund_body 1000) Sample.after_verify
    = (Returned (reply 400 false "Refund amount cannot exceed payment amount"),
       Sample.after_verify).
Proof. split_and!; vm_compute; reflexivity. Qed.


(** * Further properties of the handlers and of the adapter *)

(** ** One save at a time *)

Lemma same_identity_refl (q : Payment) : same_identity q q.
Proof. unfold same_identity. now split_and!. Qed.

Ltac same_identity_tac := unfold same_identity; split_and!; reflexivity.

Lemma Updated_refl (q : Payment) : Updated q q.
Proof.
  split; [apply same_identity_refl|]. split; [intros H; exact H|].
  split; [reflexivity|intros H; exact H].
Qed.

(** An update that leaves the metadata and the identity alone and sets or
    keeps [transactionId]. *)
Lemma Updated_intro (q q' : Payment) :
  same_identity q q' ->
  (transactionId q' = transactionId q \/ is_Some (transactionId q')) ->
  metadata q' = metadata q ->
  Updated q q'.
Proof.
  intros Hid Ht Hm. split; [exact Hid|]. split.
  - intros Hsome. destruct Ht as [->|Ht]; assumption.
  - unfold keeps_metadata. rewrite Hm. split; [reflexivity|intros H; exact H].
Qed.

Lemma Updated_status (s : PaymentStatus) (p : Payment) :
  Updated p (set_paymentStatus s p).
Proof. apply Updated_intro; [same_identity_tac|now left|reflexivity]. Qed.

Lemma Updated_rejected (p : Payment) : Updated p (rejected_document p).
Proof. apply Updated_intro; [same_identity_tac|now left|reflexivity]. Qed.

Lemma Updated_failed (e : PaymentEntity.t) (p : Payment) :
  Updated p (failed_document e p).
Proof.
  apply Updated_intro; [same_identity_tac|right; now eexists|reflexivity].
Qed.

Lemma Updated_refunded (a : float) (body : RefundBody.t) (now : Date) (p : Payment) :
  Updated p (refunded_document a body now p).
Proof.
  unfold refunded_document, Js.when_truthy.
  destruct (RefundBody.notes body) as [n|]; [destruct (String.eqb n "")|];
    (apply Updated_intro; [same_identity_tac|now left|reflexivity]).
Qed.

Lemma Updated_status_updated (body : StatusBody.t) (p : Payment) :
  Updated p (status_updated_document body p).
Proof.
  unfold status_updated_document, Js.when_truthy.
  destruct (StatusBody.paymentStatus body) as [s|];
    destruct (StatusBody.transactionId body) as [t|];
    try destruct (String.eqb t "");
    destruct (StatusBody.receiptUrl body) as [r|];
    try destruct (String.eqb r "");
    destruct (StatusBody.invoiceUrl body) as [i|];
    try destruct (String.eqb i "");
    destruct (StatusBody.notes body) as [n|];
    try destruct (String.eqb n "");
    (apply Updated_intro;
     [same_identity_tac|first [now left|right; now eexists]|reflexivity]).
Qed.

Lemma Updated_captured (e : PaymentEntity.t) (p : Payment) :
  Updated p (captured_document e p).
Proof.
  split; [same_identity_tac|]. split; [intros _; now eexists|].
  assert (Hm : metadata (captured_document e p)
               = Some (<["razorpayPayment" := razorpayPayment_info e]>
                         (Js.spread (metadata p)))) by reflexivity.
  unfold keeps_metadata. rewrite Hm. cbn [Js.spread]. split.
  - intros key Hkey. apply lookup_insert_ne. congruence.
  - intros _. rewrite lookup_insert_eq. now eexists.
Qed.

Lemma Updated_verified (pid : string) (e : PaymentEntity.t) (p : Payment) :
  Updated p (verified_document pid e p).
Proof.
  unfold verified_document.
  destruct (String.eqb (PaymentEntity.status e) "captured").
  - exact (Updated_captured
             {| PaymentEntity.id := pid;
                PaymentEntity.order_id := PaymentEntity.order_id e;
                PaymentEntity.status := PaymentEntity.status e;
                PaymentEntity.method := PaymentEntity.method e;
                PaymentEntity.receipt := PaymentEntity.receipt e;
                PaymentEntity.bank := PaymentEntity.bank e;
                PaymentEntity.wallet := PaymentEntity.wallet e;
                PaymentEntity.vpa := PaymentEntity.vpa e;
                PaymentEntity.email := PaymentEntity.email e;
                PaymentEntity.contact := PaymentEntity.contact e;
                PaymentEntity.error_description := PaymentEntity.error_description e |}
             p).
  - apply Updated_intro; [same_identity_tac|right; now eexists|reflexivity].
Qed.

Lemma writes_one_refl (P : Payment -> Prop) (d : list Payment) : writes_one P d d.
Proof. now left. Qed.

Lemma writes_one_save (P : Payment -> Prop) (d : list Payment) (p p' : Payment) :
  In p d -> P p -> Updated p p' -> writes_one P d (replace_doc p' d).
Proof. intros Hin HP Hup. right. now exists p, p'. Qed.

Lemma find_order_eq (d : list Payment) (oid : string) (p : Payment) :
  List.find (fun q => String.eqb (orderId q) oid) d = Some p -> orderId p = oid.
Proof. intros H. apply List.find_some in H as [_ H]. now apply String.eqb_eq. Qed.

Lemma find_id_eq (d : list Payment) (id : ObjectId) (p : Payment) :
  List.find (fun q => String.eqb (_id q) id) d = Some p -> _id p = id.
Proof. intros H. apply List.find_some in H as [_ H]. now apply String.eqb_eq. Qed.

(** ** The handlers, case by case *)

Lemma with_db_db (w : World) : with_db (db w) w = w.
Proof. now destruct w. Qed.

Lemma updatePaymentStatus_run (E : Env) (id : ObjectId) (body : StatusBody.t)
    (w : World) :
  updatePaymentStatus E id body w =
  match List.find (fun q => String.eqb (_id q) id) (db w) with
  | None => (Returned (reply 404 false "Payment not found"), w)
  | Some p =>
      let p' := status_updated_document body p in
      if db_accepts E (db w) p'
      then (Returned (reply_data 200 "Payment status updated successfully" (DataPayment p')),
            with_db (replace_doc p' (db w)) w)
      else (Returned (reply_error "Error updating payment status"
                        "Payment validation failed"), w)
  end.
Proof.
  unfold updatePaymentStatus, status_updated_document. eff_unfold.
  destruct (List.find _ (db w)) as [p|]; [|reflexivity]. cbv zeta.
  now destruct (db_accepts E (db w) _).
Qed.

(** [verifyRazorpayPayment] for any request. *)
Lemma verifyRazorpayPayment_cases (E : Env) (u : User) (body : VerifyBody.t) (w : World) :
  (verifyRazorpayPayment E u body w
     = (Returned (reply 400 false "Please provide orderId, paymentId, and signature"), w)) \/
  (exists oid pid sig,
     VerifyBody.orderId body = Some oid /\ oid <> "" /\
     VerifyBody.paymentId body = Some pid /\ pid <> "" /\
     VerifyBody.signature body = Some sig /\ sig <> "" /\
     match List.find (fun q => String.eqb (orderId q) oid) (db w) with
     | None =>
         verifyRazorpayPayment E u body w
           = (Returned (reply 404 false "Payment record not found"), w)
     | Some p =>
         (user p <> user_id u /\
          verifyRazorpayPayment E u body w
            = (Returned (reply 403 false "Not authorized to verify this payment"), w)) \/
         user p = user_id u
     end).
Proof.
  unfold verifyRazorpayPayment.
  destruct (VerifyBody.orderId body) as [oid|]; [|now left].
  destruct (VerifyBody.paymentId body) as [pid|]; [|now left].
  destruct (VerifyBody.signature body) as [sig|]; [|now left].
  destruct (String.eqb_spec oid ""); [now left|].
  destruct (String.eqb_spec pid ""); [now left|].
  destruct (String.eqb_spec sig ""); [now left|].
  right. exists oid, pid, sig. split_and!; try easy.
  cbn [orb]. unfold try_catch, bind, Payment_findOne.
  destruct (List.find _ (db w)) as [p|]; [|reflexivity].
  destruct (String.eqb_spec (user p) (user_id u)) as [Heq|Hne]; [now right|].
  left. split; [exact Hne|reflexivity].
Qed.

Lemma getPaymentDetails_calls (E : Env) (paymentId : string) (w : World) :
  (gateway_calls (snd (getPaymentDetails E paymentId w)) = gateway_calls w /\
   exists m, fst (getPaymentDetails E paymentId w) = Thrown m) \/
  gateway_calls (snd (getPaymentDetails E paymentId w))
    = (gateway_calls w ++ [PaymentsFetch paymentId])%list.
Proof.
  unfold getPaymentDetails, getRazorpayInstance, razorpay_payments_fetch. eff_unfold.
  repeat case_match; simplify_eq; cbn [fst snd gateway_calls with_call with_instance];
    eauto.
Qed.

(** What a run of the client verification does to the collection, to the
    gateway log and to the rest of the world. *)
Lemma verifyRazorpayPayment_shape (E : Env) (u : User) (body : VerifyBody.t) (w : World) :
  exists r w',
    verifyRazorpayPayment E u body w = (Returned r, w') /\
    answers_consistently r /\
    writes_one (fun p => VerifyBody.orderId body = Some (orderId p) /\ user p = user_id u)
      (db w) (db w') /\
    (gateway_calls w' = gateway_calls w \/
     exists oid pid secret,
       VerifyBody.orderId body = Some oid /\
       VerifyBody.paymentId body = Some pid /\
       RAZORPAY_KEY_SECRET E = Some secret /\
       VerifyBody.signature body
         = Some (hmac_sha256_hex E secret (oid +:+ "|" +:+ pid)) /\
       gateway_calls w' = (gateway_calls w ++ [PaymentsFetch pid])%list).
Proof.
  destruct (verifyRazorpayPayment_cases E u body w)
    as [->|(oid & pid & sig & Ho & Hoid & Hp & Hpid & Hs & Hsig & Hcase)].
  { eexists _, _. split; [reflexivity|]. split_and!; [reflexivity|now left|now left]. }
  destruct (List.find _ (db w)) as [p|] eqn:Hfind.
  2:{ rewrite Hcase. eexists _, _. split; [reflexivity|].
      split_and!; [reflexivity|now left|now left]. }
  destruct Hcase as [[_ ->]|Huser].
  { eexists _, _. split; [reflexivity|]. split_and!; [reflexivity|now left|now left]. }
  pose proof (find_In _ _ _ Hfind) as Hin.
  pose proof (find_order_eq _ _ _ Hfind) as Horder.
  rewrite (verifyRazorpayPayment_run E u body oid pid sig w p) by assumption.
  destruct (RAZORPAY_KEY_SECRET E) as [secret|].
  2:{ eexists _, _. split; [reflexivity|]. split_and!; [reflexivity|now left|now left]. }
  destruct (String.eqb_spec (hmac_sha256_hex E secret (oid +:+ "|" +:+ pid)) sig)
    as [Hmac|Hmac].
  - pose proof (getPaymentDetails_db E pid w) as Hdb.
    pose proof (getPaymentDetails_calls E pid w) as Hcalls.
    destruct (getPaymentDetails E pid w) as [[e|m] w1]; cbn [fst snd] in Hdb, Hcalls.
    + cbv zeta. rewrite Hdb.
      assert (Hfetch : gateway_calls w1 = (gateway_calls w ++ [PaymentsFetch pid])%list).
      { destruct Hcalls as [[_ [m Hm]]|Hcalls]; [discriminate Hm|exact Hcalls]. }
      destruct (db_accepts E (db w) (verified_document pid e p));
        eexists _, _; (split; [reflexivity|]); (split; [reflexivity|]); split.
      * apply (writes_one_save _ _ p);
          [assumption|now rewrite Ho, Horder|apply Updated_verified].
      * right. exists oid, pid, secret. now rewrite Hmac.
      * left. exact Hdb.
      * right. exists oid, pid, secret. now rewrite Hmac.
    + eexists _, _. split; [reflexivity|]. split; [reflexivity|]. split.
      * left. exact Hdb.
      * destruct Hcalls as [[Hcalls _]|Hcalls]; [now left|].
        right. exists oid, pid, secret. now rewrite Hmac.
  - destruct (db_accepts E (db w) (rejected_document p));
      eexists _, _; (split; [reflexivity|]); cbn [db gateway_calls with_db];
      (split; [reflexivity|]); (split; [|now left]).
    + apply (writes_one_save _ _ p);
        [assumption|now rewrite Ho, Horder|apply Updated_rejected].
    + now left.
Qed.

Lemma dispatch_shape (E : Env) (ev : WebhookEvent.t) (w : World) :
  exists o w',
    dispatch E ev w = (o, w') /\
    w' = with_db (db w') w /\
    writes_one (fun p => webhook_order_ref ev = Some (orderId p)) (db w) (db w').
Proof.
  assert (Hsame : forall (P : Payment -> Prop) (c : Eff unit) (o : Outcome unit),
            c w = (o, w) ->
            exists o' w',
              c w = (o', w') /\ w' = with_db (db w') w /\ writes_one P (db w) (db w')).
  { intros P c o Hc. exists o, w. split; [exact Hc|].
    split; [now rewrite with_db_db|now left]. }
  unfold dispatch, webhook_order_ref.
  destruct (WebhookEvent.event ev) as [kind|]; [|eapply Hsame; reflexivity].
  destruct (String.eqb kind "payment.captured") eqn:Hc.
  { cbn [orb]. destruct (WebhookEvent.payment_entity ev) as [[e|]|]; try (eapply Hsame; reflexivity).
    unfold payload_entity, bind, ret. rewrite handlePaymentCaptured_run.
    destruct (List.find _ (db w)) as [p|] eqn:Hfind; [|eapply Hsame; reflexivity].
    destruct (db_accepts E (db w) _); [|eapply Hsame; reflexivity].
    eexists _, _. split; [reflexivity|]. split; [reflexivity|].
    apply (writes_one_save _ _ p);
      [now apply find_In in Hfind|now rewrite (find_order_eq _ _ _ Hfind)
      |apply Updated_captured]. }
  destruct (String.eqb kind "payment.failed") eqn:Hf.
  { cbn [orb]. destruct (WebhookEvent.payment_entity ev) as [[e|]|]; try (eapply Hsame; reflexivity).
    unfold payload_entity, bind, ret. rewrite handlePaymentFailed_run.
    destruct (List.find _ (db w)) as [p|] eqn:Hfind; [|eapply Hsame; reflexivity].
    destruct (db_accepts E (db w) _); [|eapply Hsame; reflexivity].
    eexists _, _. split; [reflexivity|]. split; [reflexivity|].
    apply (writes_one_save _ _ p);
      [now apply find_In in Hfind|now rewrite (find_order_eq _ _ _ Hfind)
      |apply Updated_failed]. }
  cbn [orb]. destruct (String.eqb kind "order.paid"); [|eapply Hsame; reflexivity].
  destruct (WebhookEvent.order_entity ev) as [[o|]|]; try (eapply Hsame; reflexivity).
  unfold payload_entity, bind, ret. rewrite handleOrderPaid_run.
  destruct (List.find _ (db w)) as [p|] eqn:Hfind; [|eapply Hsame; reflexivity].
  destruct (PaymentStatus_eqb _ _); [eapply Hsame; reflexivity|].
  destruct (db_accepts E (db w) _); [|eapply Hsame; reflexivity].
  eexists _, _. split; [reflexivity|]. split; [reflexivity|].
  apply (writes_one_save _ _ p);
    [now apply find_In in Hfind|now rewrite (find_order_eq _ _ _ Hfind)
    |apply Updated_status].
Qed.

Lemma razorpayWebhook_shape (E : Env) (req : WebhookRequest.t) (w : World) :
  exists r w',
    razorpayWebhook E req w = (Returned r, w') /\
    answers_consistently r /\
    w' = with_db (db w') w /\
    writes_one
      (fun p => exists ev,
         webhook_signature_ok E req = true /\
         webhook_event E req = Some ev /\
         webhook_order_ref ev = Some (orderId p))
      (db w) (db w').
Proof.
  destruct (webhook_signature_ok E req) eqn:Hok.
  2:{ rewrite razorpayWebhook_rejects by assumption. eexists _, w.
      split; [reflexivity|]. split; [now destruct (Js.truthy_str _)|].
      split; [now rewrite with_db_db|now left]. }
  rewrite razorpayWebhook_accepts by assumption.
  destruct (webhook_event E req) as [ev|] eqn:Hev.
  2:{ eexists _, w. split; [reflexivity|]. split; [reflexivity|].
      split; [now rewrite with_db_db|now left]. }
  destruct (dispatch_shape E ev w) as (o & w' & -> & Hframe & Hwrites).
  assert (Hwrites' : writes_one
            (fun p => exists ev0, true = true /\ Some ev = Some ev0 /\
                                  webhook_order_ref ev0 = Some (orderId p))
            (db w) (db w')).
  { destruct Hwrites as [Heq|(p & p' & Hin & HP & Hd & Hup)]; [now left|].
    right. exists p, p'. split_and!; try assumption. now exists ev. }
  destruct o as [[]|m]; eexists _, w'; (split; [reflexivity|]); now split_and!.
Qed.

Lemma processRefund_shape (E : Env) (id : ObjectId) (body : RefundBody.t) (w : World) :
  exists r w',
    processRefund E id body w = (Returned r, w') /\
    answers_consistently r /\
    w' = with_db (db w') w /\
    writes_one (fun p => List.find (fun q => String.eqb (_id q) id) (db w) = Some p)
      (db w) (db w').
Proof.
  assert (Hkeep : forall r, answers_consistently r ->
            exists r' w',
              (Returned r, w) = (Returned r', w') /\ answers_consistently r' /\
              w' = with_db (db w') w /\
              writes_one
                (fun p => List.find (fun q => String.eqb (_id q) id) (db w) = Some p)
                (db w) (db w')).
  { intros r Hr. exists r, w. split; [reflexivity|]. split; [exact Hr|].
    split; [now rewrite with_db_db|now left]. }
  rewrite processRefund_run. cbv zeta.
  destruct (RefundBody.refundAmount body) as [a|]; [|now apply Hkeep].
  destruct (Js.falsy_num a || PrimFloat.leb a 0); [now apply Hkeep|].
  destruct (List.find _ (db w)) as [p|] eqn:Hfind; [|now apply Hkeep].
  destruct (negb (PaymentStatus_eqb (paymentStatus p) completed)); [now apply Hkeep|].
  destruct (PrimFloat.ltb 0 (refundAmount p)); [now apply Hkeep|].
  destruct (PrimFloat.ltb (amount p) a); [now apply Hkeep|].
  destruct (db_accepts E (db w) _); [|now apply Hkeep].
  eexists _, _. split; [reflexivity|]. split; [reflexivity|]. split; [reflexivity|].
  apply (writes_one_save _ _ p);
    [now apply find_In in Hfind|reflexivity|apply Updated_refunded].
Qed.

Lemma updatePaymentStatus_shape (E : Env) (id : ObjectId) (body : StatusBody.t)
    (w : World) :
  exists r w',
    updatePaymentStatus E id body w = (Returned r, w') /\
    answers_consistently r /\
    w' = with_db (db w') w /\
    writes_one (fun p => List.find (fun q => String.eqb (_id q) id) (db w) = Some p)
      (db w) (db w').
Proof.
  rewrite updatePaymentStatus_run. cbv zeta.
  destruct (List.find _ (db w)) as [p|] eqn:Hfind.
  2:{ eexists _, _. split; [reflexivity|]. split; [reflexivity|].
      split; [now rewrite with_db_db|now left]. }
  destruct (db_accepts E (db w) _); eexists _, _; (split; [reflexivity|]);
    (split; [reflexivity|]).
  - split; [reflexivity|].
    apply (writes_one_save _ _ p);
      [now apply find_In in Hfind|reflexivity|apply Updated_status_updated].
  - split; [now rewrite with_db_db|now left].
Qed.

(** ** Documents are rewritten in place *)

Lemma Forall2_same (R : Payment -> Payment -> Prop) (d : list Payment) :
  (forall q, R q q) -> Forall2 R d d.
Proof. intros Hrefl. induction d; constructor; auto. Qed.

(** With unique identifiers, a save changes the saved document and no other. *)
Lemma Forall2_replace_doc (R : Payment -> Payment -> Prop) (d : list Payment)
    (p p' : Payment) :
  (forall q, R q q) ->
  List.NoDup (map _id d) ->
  In p d ->
  _id p' = _id p ->
  R p p' ->
  Forall2 R d (replace_doc p' d).
Proof.
  intros Hrefl Hnd Hin Hid HR. induction d as [|x r IH]; [destruct Hin|].
  cbn [map] in Hnd. inversion Hnd as [|? ? Hnotin Hnd']; subst. cbn [replace_doc].
  destruct (String.eqb_spec (_id x) (_id p')) as [Heq|Hne].
  - destruct Hin as [->|Hin].
    + constructor; [exact HR|now apply Forall2_same].
    + exfalso. apply Hnotin. rewrite Heq, Hid. now apply in_map.
  - destruct Hin as [->|Hin]; [now rewrite Hid in Hne|].
    constructor; [apply Hrefl|now apply IH].
Qed.

Lemma writes_one_Forall2 (R : Payment -> Payment -> Prop) (P : Payment -> Prop)
    (d d' : list Payment) :
  (forall q, R q q) ->
  (forall p p', P p -> Updated p p' -> R p p') ->
  List.NoDup (map _id d) ->
  writes_one P d d' ->
  Forall2 R d d'.
Proof.
  intros Hrefl HR Hnd [->|(p & p' & Hin & HP & -> & Hup)]; [now apply Forall2_same|].
  apply (Forall2_replace_doc R d p p'); try assumption.
  - now destruct Hup as [[Hid _] _].
  - now apply HR.
Qed.

(** Every handler that does not create a record rewrites the collection
    document by document. *)
Lemma handlers_update_in_place (E : Env) (w : World) :
  List.NoDup (map _id (db w)) ->
  (forall id body, Forall2 Updated (db w) (db (snd (updatePaymentStatus E id body w)))) /\
  (forall id body, Forall2 Updated (db w) (db (snd (processRefund E id body w)))) /\
  (forall u body, Forall2 Updated (db w) (db (snd (verifyRazorpayPayment E u body w)))) /\
  (forall req, Forall2 Updated (db w) (db (snd (razorpayWebhook E req w)))).
Proof.
  intros Hnd. split_and!.
  - intros id body.
    destruct (updatePaymentStatus_shape E id body w) as (r & w' & -> & _ & _ & Hw).
    apply (writes_one_Forall2 _ _ _ _ Updated_refl (fun _ _ _ H => H) Hnd Hw).
  - intros id body.
    destruct (processRefund_shape E id body w) as (r & w' & -> & _ & _ & Hw).
    apply (writes_one_Forall2 _ _ _ _ Updated_refl (fun _ _ _ H => H) Hnd Hw).
  - intros u body.
    destruct (verifyRazorpayPayment_shape E u body w) as (r & w' & -> & _ & Hw & _).
    apply (writes_one_Forall2 _ _ _ _ Updated_refl (fun _ _ _ H => H) Hnd Hw).
  - intros req.
    destruct (razorpayWebhook_shape E req w) as (r & w' & -> & _ & _ & Hw).
    apply (writes_one_Forall2 _ _ _ _ Updated_refl (fun _ _ _ H => H) Hnd Hw).
Qed.

(** X1. In a collection with unique identifiers, the admin status update, the
    refund, the client verification and the webhook create no record and
    delete none, and leave [_id], [user], [userName], [userEmail], [orderId],
    [amount], [currency], [paymentGateway], [items] and [billingAddress] of
    every record as they were. *)
Theorem records_keep_identity (E : Env) (w : World) :
  List.NoDup (map _id (db w)) ->
  (forall id body,
     Forall2 same_identity (db w) (db (snd (updatePaymentStatus E id body w)))) /\
  (forall id body,
     Forall2 same_identity (db w) (db (snd (processRefund E id body w)))) /\
  (forall u body,
     Forall2 same_identity (db w) (db (snd (verifyRazorpayPayment E u body w)))) /\
  (forall req, Forall2 same_identity (db w) (db (snd (razorpayWebhook E req w)))).
Proof.
  intros Hnd. destruct (handlers_update_in_place E w Hnd) as (H1 & H2 & H3 & H4).
  split_and!; intros;
    (eapply Forall2_impl; [eauto|]); intros q q' Hup; apply Hup.
Qed.

(** X2. Under the same condition, none of these four handlers clears a
    [transactionId] that is set, and none changes or removes a metadata key:
    the only key ever written is [razorpayPayment], and it stays once
    present. *)
Theorem transaction_and_metadata_kept (E : Env) (w : World) :
  List.NoDup (map _id (db w)) ->
  (forall id body,
     Forall2 (fun q q' => keeps_transaction q q' /\ keeps_metadata q q')
       (db w) (db (snd (updatePaymentStatus E id body w)))) /\
  (forall id body,
     Forall2 (fun q q' => keeps_transaction q q' /\ keeps_metadata q q')
       (db w) (db (snd (processRefund E id body w)))) /\
  (forall u body,
     Forall2 (fun q q' => keeps_transaction q q' /\ keeps_metadata q q')
       (db w) (db (snd (verifyRazorpayPayment E u body w)))) /\
  (forall req,
     Forall2 (fun q q' => keeps_transaction q q' /\ keeps_metadata q q')
       (db w) (db (snd (razorpayWebhook E req w)))).
Proof.
  intros Hnd. destruct (handlers_update_in_place E w Hnd) as (H1 & H2 & H3 & H4).
  split_and!; intros;
    (eapply Forall2_impl; [eauto|]); intros q q' Hup; apply Hup.
Qed.


(** A failed-payment webhook on the completed sample record. *)
Lemma records_keep_identity_witness :
  Forall2 same_identity (db Sample.after_verify)
    (db (snd (razorpayWebhook Sample.env (Sample.webhook "failed order_1 pay_1")
                Sample.after_verify))).
Proof.
  apply (records_keep_identity Sample.env Sample.after_verify).
  vm_compute. constructor; [intros []|constructor].
Defined.

(** An admin update that submits an empty [transactionId] on that record. *)
Lemma transaction_and_metadata_kept_witness :
  Forall2 (fun q q' => keeps_transaction q q' /\ keeps_metadata q q')
    (db Sample.after_verify)
    (db (snd (updatePaymentStatus Sample.env "payment_0"
                {| StatusBody.paymentStatus := Some cancelled;
                   StatusBody.transactionId := Some "";
                   StatusBody.receiptUrl := None;
                   StatusBody.invoiceUrl := None;
                   StatusBody.notes := Some "cancelled by admin" |}
                Sample.after_verify))).
Proof.
  apply (transaction_and_metadata_kept Sample.env Sample.after_verify).
  vm_compute. constructor; [intros []|constructor].
Defined.

(** ** Which records an operation can reach *)

Lemma find_id_replace_other (d : list Payment) (id : ObjectId) (p' : Payment) :
  _id p' <> id ->
  List.find (fun q => String.eqb (_id q) id) (replace_doc p' d)
  = List.find (fun q => String.eqb (_id q) id) d.
Proof.
  intros Hne. induction d as [|x r IH]; [reflexivity|]. cbn [replace_doc].
  destruct (String.eqb_spec (_id x) (_id p')) as [Heq|Hneq]; cbn [List.find].
  - apply String.eqb_neq in Hne. rewrite Hne.
    rewrite Heq. now rewrite Hne.
  - now rewrite IH.
Qed.

(** X3. The admin status update and the refund reach only the record they are
    addressed to: a lookup by any other identifier gives the same document
    before and after. *)
Theorem admin_operations_isolated (E : Env) (w : World) (id id' : ObjectId) :
  id' <> id ->
  (forall body,
     List.find (fun q => String.eqb (_id q) id')
       (db (snd (updatePaymentStatus E id body w)))
     = List.find (fun q => String.eqb (_id q) id') (db w)) /\
  (forall body,
     List.find (fun q => String.eqb (_id q) id')
       (db (snd (processRefund E id body w)))
     = List.find (fun q => String.eqb (_id q) id') (db w)).
Proof.
  intros Hne.
  assert (Hone : forall d',
            writes_one
              (fun p => List.find (fun q => String.eqb (_id q) id) (db w) = Some p)
              (db w) d' ->
            List.find (fun q => String.eqb (_id q) id') d'
            = List.find (fun q => String.eqb (_id q) id') (db w)).
  { intros d' [->|(p & p' & _ & Hfind & -> & Hup)]; [reflexivity|].
    apply find_id_replace_other. destruct Hup as [[Hid _] _].
    rewrite Hid, (find_id_eq _ _ _ Hfind). congruence. }
  split; intros body.
  - destruct (updatePaymentStatus_shape E id body w) as (r & w' & -> & _ & _ & Hw).
    now apply Hone.
  - destruct (processRefund_shape E id body w) as (r & w' & -> & _ & _ & Hw).
    now apply Hone.
Qed.

(** The refund of [payment_0], seen from another identifier. *)
Lemma admin_operations_isolated_witness :
  List.find (fun q => String.eqb (_id q) "payment_1")
    (db (snd (processRefund Sample.env "payment_0" (Sample.refund_body 999)
                Sample.after_verify)))
  = List.find (fun q => String.eqb (_id q) "payment_1") (db Sample.after_verify).
Proof.
  apply (admin_operations_isolated Sample.env Sample.after_verify "payment_0" "payment_1").
  discriminate.
Defined.

(** X4. With unique identifiers, a client verification changes no record other
    than the requester's own record of the submitted order, and a webhook
    changes no record other than the one of the order its event refers to. *)
Theorem other_orders_untouched (E : Env) (w : World) :
  List.NoDup (map _id (db w)) ->
  (forall u body,
     Forall2
       (fun q q' =>
          VerifyBody.orderId body <> Some (orderId q) \/ user q <> user_id u -> q' = q)
       (db w) (db (snd (verifyRazorpayPayment E u body w)))) /\
  (forall req,
     Forall2
       (fun q q' =>
          (forall ev, webhook_event E req = Some ev ->
                      webhook_order_ref ev <> Some (orderId q)) -> q' = q)
       (db w) (db (snd (razorpayWebhook E req w)))).
Proof.
  intros Hnd. split.
  - intros u body.
    destruct (verifyRazorpayPayment_shape E u body w) as (r & w' & -> & _ & Hw & _).
    eapply writes_one_Forall2; [intros q _; reflexivity| |exact Hnd|exact Hw].
    intros p p' [Ho Hu] _ [H|H]; contradiction.
  - intros req.
    destruct (razorpayWebhook_shape E req w) as (r & w' & -> & _ & _ & Hw).
    eapply writes_one_Forall2; [intros q _; reflexivity| |exact Hnd|exact Hw].
    intros p p' (ev & _ & Hev & Href) _ H. now destruct (H ev Hev).
Qed.

(** The verification of order_1 leaves a record of another order alone. *)
Lemma other_orders_untouched_witness :
  Forall2
    (fun q q' =>
       (forall ev,
          webhook_event Sample.env (Sample.webhook "captured order_9 pay_9") = Some ev ->
          webhook_order_ref ev <> Some (orderId q)) -> q' = q)
    (db Sample.after_verify)
    (db (snd (razorpayWebhook Sample.env (Sample.webhook "captured order_9 pay_9")
                Sample.after_verify))).
Proof.
  apply (other_orders_untouched Sample.env Sample.after_verify).
  vm_compute. constructor; [intros []|constructor].
Defined.

(** ** Creating records *)

(** X5. Whatever [createRazorpayOrderHandler] answers, the collection changes
    only with a 201: a rejected request (400) leaves the whole world as it was
    and so reaches no gateway, and a failure of the gateway or of the database
    (500) leaves no record behind. With a 201 exactly one record is appended:
    it is [pending], belongs to the requester, carries the requested amount,
    has the identifier of the gateway order returned to the client as
    [orderId], and has neither a [transactionId] nor refund fields. *)
Theorem order_creation_atomic (E : Env) (u : User) (body : OrderBody.t)
    (w w' : World) (r : Response.t) :
  createRazorpayOrderHandler E u body w = (Returned r, w') ->
  (Response.status r <> 201 -> db w' = db w) /\
  (Response.status r = 400 -> w' = w) /\
  (Response.status r = 201 ->
   exists a order p,
     OrderBody.amount body = Some a /\
     Response.data r = Some (DataOrder order (RAZORPAY_KEY_ID E) p) /\
     db w' = (db w ++ [p])%list /\
     _id p = new_ObjectId E (db w) /\
     orderId p = RazorpayOrder.id order /\
     user p = user_id u /\
     amount p = a /\
     paymentStatus p = pending /\
     transactionId p = None /\
     refund_fields_set p = false).
Proof.
  intros Hrun. unfold createRazorpayOrderHandler in Hrun.
  unfold try_catch at 1 in Hrun.
  assert (Hstop : forall m,
            (Returned (reply 400 false m), w) = (Returned r, w') ->
            (Response.status r <> 201 -> db w' = db w) /\
            (Response.status r = 400 -> w' = w) /\
            (Response.status r = 201 ->
             exists a order p,
               OrderBody.amount body = Some a /\
               Response.data r = Some (DataOrder order (RAZORPAY_KEY_ID E) p) /\
               db w' = (db w ++ [p])%list /\
               _id p = new_ObjectId E (db w) /\
               orderId p = RazorpayOrder.id order /\
               user p = user_id u /\
               amount p = a /\
               paymentStatus p = pending /\
               transactionId p = None /\
               refund_fields_set p = false)).
  { intros m H. injection H as <- <-. split_and!; [reflexivity|reflexivity|discriminate]. }
  destruct (OrderBody.amount body) as [a|]; [|exact (Hstop _ Hrun)].
  destruct (Js.falsy_num a || PrimFloat.leb a 0); [exact (Hstop _ Hrun)|].
  destruct (OrderBody.items body) as [its|]; [|exact (Hstop _ Hrun)].
  destruct (Nat.eqb (length its) 0); [exact (Hstop _ Hrun)|].
  clear Hstop.
  unfold bind at 1, Date_now at 1 in Hrun. unfold bind at 1 in Hrun.
  match type of Hrun with
  | context [createRazorpayOrder E ?a ?c ?rc ?n w] =>
      pose proof (createRazorpayOrder_db E a c rc n w) as Hdb;
      destruct (createRazorpayOrder E a c rc n w) as [[order|m] w1]
  end; cbn [snd] in Hdb.
  - unfold bind, Payment_create, ret in Hrun. rewrite Hdb in Hrun.
    destruct (db_accepts E (db w) _); injection Hrun as <- <-.
    + split_and!; [intros H; now contradiction H|discriminate|].
      intros _. eexists a, order, _. split_and!; reflexivity.
    + split_and!; [intros _; exact Hdb|discriminate|discriminate].
  - unfold ret in Hrun. injection Hrun as <- <-.
    split_and!; [intros _; exact Hdb|discriminate|discriminate].
Qed.

(** The sample order. *)
Lemma order_creation_atomic_witness :
  exists a order p,
    OrderBody.amount Sample.order_body = Some a /\
    Some (DataOrder
            (Sample.gateway_order
               {| OrderOptions.amount := 99900;
                  OrderOptions.currency := "INR";
                  OrderOptions.receipt := "receipt_1700000000000_user_1";
                  OrderOptions.notes := ∅ |})
            (Some "rzp_test_key") Sample.pending_payment)
      = Some (DataOrder order (RAZORPAY_KEY_ID Sample.env) p) /\
    db Sample.after_order = (db Sample.empty_world ++ [p])%list /\
    _id p = new_ObjectId Sample.env (db Sample.empty_world) /\
    orderId p = RazorpayOrder.id order /\
    user p = user_id Sample.buyer /\
    amount p = a /\
    paymentStatus p = pending /\
    transactionId p = None /\
    refund_fields_set p = false.
Proof.
  refine (proj2 (proj2
    (order_creation_atomic Sample.env Sample.buyer Sample.order_body
       Sample.empty_world Sample.after_order
       (reply_data 201 "Order created successfully"
          (DataOrder
             (Sample.gateway_order
                {| OrderOptions.amount := 99900;
                   OrderOptions.currency := "INR";
                   OrderOptions.receipt := "receipt_1700000000000_user_1";
                   OrderOptions.notes := ∅ |})
             (Some "rzp_test_key") Sample.pending_payment)) _)) _);
    vm_compute; reflexivity.
Defined.

(** [createPayment] for any request. *)
Lemma createPayment_cases (E : Env) (u : User) (body : CreateBody.t) (w : World) :
  createPayment E u body w
    = (Returned (reply 400 false "Please provide orderId, amount, paymentMethod, and items"),
       w) \/
  exists oid a method_ its,
    CreateBody.orderId body = Some oid /\ oid <> "" /\
    CreateBody.amount body = Some a /\ Js.falsy_num a = false /\
    CreateBody.paymentMethod body = Some method_ /\ method_ <> "" /\
    CreateBody.items body = Some its /\ its <> [] /\
    (createPayment E u body w
       = (Returned (reply_error "Error creating payment" "Payment validation failed"), w) \/
     exists p,
       createPayment E u body w
         = (Returned (reply_data 201 "Payment created successfully" (DataPayment p)),
            with_db (db w ++ [p]) w) /\
       _id p = new_ObjectId E (db w) /\
       user p = user_id u /\ userName p = name u /\ userEmail p = email u /\
       orderId p = oid /\ amount p = a /\ paymentMethod p = method_ /\ items p = its /\
       transactionId p = CreateBody.transactionId body /\
       currency p = Js.or_str (CreateBody.currency body) "INR" /\
       paymentGateway p = Js.or_str (CreateBody.paymentGateway body) "razorpay" /\
       paymentStatus p = pending /\
       refund_fields_set p = false).
Proof.
  unfold createPayment.
  destruct (CreateBody.orderId body) as [oid|]; [|now left].
  destruct (CreateBody.amount body) as [a|]; [|now left].
  destruct (CreateBody.paymentMethod body) as [m|]; [|now left].
  destruct (CreateBody.items body) as [its|]; [|now left].
  destruct (String.eqb_spec oid ""); [now left|].
  destruct (Js.falsy_num a) eqn:Ha; [now left|].
  destruct (String.eqb_spec m ""); [now left|].
  destruct its as [|i its]; [now left|].
  cbn [orb length Nat.eqb]. eff_unfold.
  right. exists oid, a, m, (i :: its).
  split_and!; try reflexivity; try assumption; [discriminate|].
  destruct (db_accepts E (db w) _); [|now left].
  right. eexists. split_and!; reflexivity.
Qed.

(** X6. [createPayment] changes the world only when it answers 201, and then
    only by appending one record, without reaching the gateway. That record is
    [pending] and has no refund field whatever the body says, belongs to the
    authenticated user (identifier, name and e-mail come from the session, not
    from the body), and takes [INR] and [razorpay] when the body gives no
    currency or gateway. A body without [orderId], [amount], [paymentMethod]
    or with no item is answered 400. *)
Theorem createPayment_record (E : Env) (u : User) (body : CreateBody.t)
    (w w' : World) (r : Response.t) :
  createPayment E u body w = (Returned r, w') ->
  (Response.status r <> 201 -> w' = w) /\
  (Js.truthy_str (CreateBody.orderId body) = false \/
   Js.truthy_str (CreateBody.paymentMethod body) = false \/
   CreateBody.amount body = None \/
   CreateBody.items body = None \/ CreateBody.items body = Some [] ->
   Response.status r = 400) /\
  (Response.status r = 201 ->
   exists p,
     w' = with_db (db w ++ [p]) w /\
     Response.data r = Some (DataPayment p) /\
     user p = user_id u /\ userName p = name u /\ userEmail p = email u /\
     Some (orderId p) = CreateBody.orderId body /\
     Some (amount p) = CreateBody.amount body /\
     currency p = Js.or_str (CreateBody.currency body) "INR" /\
     paymentGateway p = Js.or_str (CreateBody.paymentGateway body) "razorpay" /\
     paymentStatus p = pending /\
     refund_fields_set p = false).
Proof.
  intros Hrun.
  destruct (createPayment_cases E u body w)
    as [H|(oid & a & m & its & Ho & Hoid & Ha & Hfa & Hm & Hmne & Hi & Hine & Hcase)].
  { rewrite H in Hrun. injection Hrun as <- <-.
    split_and!; [reflexivity|reflexivity|discriminate]. }
  assert (Hvalid : ~ (Js.truthy_str (CreateBody.orderId body) = false \/
                      Js.truthy_str (CreateBody.paymentMethod body) = false \/
                      CreateBody.amount body = None \/
                      CreateBody.items body = None \/ CreateBody.items body = Some [])).
  { unfold Js.truthy_str. rewrite Ho, Hm, Ha, Hi.
    apply String.eqb_neq in Hoid, Hmne. rewrite Hoid, Hmne.
    intros [Hb|[Hb|[Hb|[Hb|Hb]]]]; try discriminate Hb.
    injection Hb as ->. now contradiction Hine. }
  destruct Hcase as [H|(p & H & Hid & Hu & Hn & He & Hpo & Hpa & Hpm & Hpi & Hpt
                        & Hc & Hg & Hs & Hr)];
    rewrite H in Hrun; injection Hrun as <- <-.
  - split_and!; [reflexivity|intros Hb; now destruct (Hvalid Hb)|discriminate].
  - split_and!; [intros Hne; now contradiction Hne|intros Hb; now destruct (Hvalid Hb)|].
    intros _. exists p. rewrite Ho, Ha, <- Hpo, <- Hpa. now split_and!.
Qed.

(** A payment recorded by hand for the sample buyer. *)
Lemma createPayment_record_witness :
  exists p,
    snd (createPayment Sample.env Sample.buyer
           {| CreateBody.orderId := Some "order_2";
              CreateBody.transactionId := None;
              CreateBody.amount := Some 499%float;
              CreateBody.currency := None;
              CreateBody.paymentMethod := Some "cash";
              CreateBody.paymentGateway := Some "manual";
              CreateBody.items := Some [Sample.membership];
              CreateBody.billingAddress := None;
              CreateBody.metadata := None |}
           Sample.after_order)
      = with_db (db Sample.after_order ++ [p]) Sample.after_order /\
    user p = "user_1" /\ currency p = "INR" /\ paymentGateway p = "manual" /\
    paymentStatus p = pending /\ refund_fields_set p = false.
Proof.
  destruct (createPayment Sample.env Sample.buyer
              {| CreateBody.orderId := Some "order_2";
                 CreateBody.transactionId := None;
                 CreateBody.amount := Some 499%float;
                 CreateBody.currency := None;
                 CreateBody.paymentMethod := Some "cash";
                 CreateBody.paymentGateway := Some "manual";
                 CreateBody.items := Some [Sample.membership];
                 CreateBody.billingAddress := None;
                 CreateBody.metadata := None |}
              Sample.after_order) as [o w'] eqn:Hrun.
  assert (Ho : exists r, o = Returned r /\ Response.status r = 201).
  { vm_compute in Hrun. injection Hrun as <- _. now eexists. }
  destruct Ho as (r & -> & H201).
  destruct (createPayment_record _ _ _ _ _ _ Hrun) as (_ & _ & Hrec).
  destruct (Hrec H201) as (p & Hw & _ & Hu & _ & _ & _ & _ & Hc & Hg & Hs & Hr).
  exists p. cbn [snd]. now split_and!.
Defined.

(** ** Every request is answered *)

Lemma createRazorpayOrderHandler_responds (E : Env) (u : User) (body : OrderBody.t)
    (w : World) :
  exists r w',
    createRazorpayOrderHandler E u body w = (Returned r, w') /\ answers_consistently r.
Proof.
  unfold createRazorpayOrderHandler. unfold try_catch at 1.
  destruct (OrderBody.amount body) as [a|]; [|now eexists _, _].
  destruct (Js.falsy_num a || PrimFloat.leb a 0); [now eexists _, _|].
  destruct (OrderBody.items body) as [its|]; [|now eexists _, _].
  destruct (Nat.eqb (length its) 0); [now eexists _, _|].
  unfold bind at 1, Date_now at 1. unfold bind at 1.
  match goal with
  | |- context [createRazorpayOrder E ?a ?c ?rc ?n w] =>
      destruct (createRazorpayOrder E a c rc n w) as [[order|m] w1]
  end; [|now eexists _, _].
  unfold bind, Payment_create, ret.
  destruct (db_accepts E (db w1) _); now eexists _, _.
Qed.

(** X7. No handler lets an exception escape: for every environment, request
    and world each of the six handlers returns a response, and in that
    response [success] is [true] exactly when the status code is below 400
    (200 or 201), so a gateway failure, a refused write or a malformed webhook
    body is always reported as an error and never as a success. *)
Theorem handlers_always_respond (E : Env) (w : World) :
  (forall u body, exists r w',
     createPayment E u body w = (Returned r, w') /\ answers_consistently r) /\
  (forall id body, exists r w',
     updatePaymentStatus E id body w = (Returned r, w') /\ answers_consistently r) /\
  (forall id body, exists r w',
     processRefund E id body w = (Returned r, w') /\ answers_consistently r) /\
  (forall u body, exists r w',
     createRazorpayOrderHandler E u body w = (Returned r, w') /\
     answers_consistently r) /\
  (forall u body, exists r w',
     verifyRazorpayPayment E u body w = (Returned r, w') /\ answers_consistently r) /\
  (forall req, exists r w',
     razorpayWebhook E req w = (Returned r, w') /\ answers_consistently r).
Proof.
  split_and!.
  - intros u body.
    destruct (createPayment_cases E u body w)
      as [->|(oid & a & m & its & _ & _ & _ & _ & _ & _ & _ & _ & [->|(p & -> & _)])];
      now eexists _, _.
  - intros id body.
    destruct (updatePaymentStatus_shape E id body w) as (r & w' & H & Hr & _).
    now exists r, w'.
  - intros id body.
    destruct (processRefund_shape E id body w) as (r & w' & H & Hr & _).
    now exists r, w'.
  - intros u body. apply createRazorpayOrderHandler_responds.
  - intros u body.
    destruct (verifyRazorpayPayment_shape E u body w) as (r & w' & H & Hr & _).
    now exists r, w'.
  - intros req.
    destruct (razorpayWebhook_shape E req w) as (r & w' & H & Hr & _).
    now exists r, w'.
Qed.

(** ** What reaches the gateway *)

(** X8. The admin status update, the refund and the webhook change nothing but
    the collection: the gateway log, the cached gateway client and the clock
    are as before, so none of them ever calls the gateway, the webhook
    included (it trusts the event and does not fetch the payment). *)
Theorem only_the_collection_changes (E : Env) (w : World) :
  (forall id body,
     snd (updatePaymentStatus E id body w)
     = with_db (db (snd (updatePaymentStatus E id body w))) w) /\
  (forall id body,
     snd (processRefund E id body w)
     = with_db (db (snd (processRefund E id body w))) w) /\
  (forall req,
     snd (razorpayWebhook E req w)
     = with_db (db (snd (razorpayWebhook E req w))) w).
Proof.
  split_and!.
  - intros id body.
    now destruct (updatePaymentStatus_shape E id body w) as (r & w' & -> & _ & H & _).
  - intros id body.
    now destruct (processRefund_shape E id body w) as (r & w' & -> & _ & H & _).
  - intros req.
    now destruct (razorpayWebhook_shape E req w) as (r & w' & -> & _ & H & _).
Qed.

(** X9. A client verification reaches the gateway at most once, with a fetch
    of the submitted payment identifier, and only when the request names a
    record of the requester and carries the digest of
    [orderId|paymentId] under the key secret: a request with a wrong
    signature, for an unknown order or for somebody else's record never
    reaches the gateway. *)
Theorem verification_gateway_contact (E : Env) (u : User) (body : VerifyBody.t)
    (w : World) :
  gateway_calls (snd (verifyRazorpayPayment E u body w)) = gateway_calls w \/
  exists oid pid secret p,
    VerifyBody.orderId body = Some oid /\
    VerifyBody.paymentId body = Some pid /\
    RAZORPAY_KEY_SECRET E = Some secret /\
    VerifyBody.signature body = Some (hmac_sha256_hex E secret (oid +:+ "|" +:+ pid)) /\
    List.find (fun q => String.eqb (orderId q) oid) (db w) = Some p /\
    user p = user_id u /\
    gateway_calls (snd (verifyRazorpayPayment E u body w))
      = (gateway_calls w ++ [PaymentsFetch pid])%list.
Proof.
  destruct (verifyRazorpayPayment_cases E u body w)
    as [->|(oid & pid & sig & Ho & Hoid & Hp & Hpid & Hs & Hsig & Hcase)];
    [now left|].
  destruct (List.find _ (db w)) as [p|] eqn:Hfind; [|rewrite Hcase; now left].
  destruct Hcase as [[_ ->]|Huser]; [now left|].
  destruct (verifyRazorpayPayment_shape E u body w)
    as (r & w' & Hrun & _ & _ & [Hcalls|(oid' & pid' & secret & Ho' & Hp' & Hk & Hs' & Hcalls)]);
    rewrite Hrun; cbn [snd]; [now left|].
  right. rewrite Ho in Ho'. rewrite Hp in Hp'. injection Ho' as <-. injection Hp' as <-.
  exists oid, pid, secret, p. now split_and!.
Qed.

(** ** Client verification: who may verify, and gateway failures *)

Lemma prefix_append (s t : string) : String.prefix s (s +:+ t) = true.
Proof.
  induction s as [|c s IH]; simpl; [now destruct t|].
  destruct (Ascii.ascii_dec c c); [exact IH|contradiction].
Qed.

(** X10. A verification that carries its three fields is answered 404 when no
    record has the submitted order identifier and 403 when the record belongs
    to another user; in both cases nothing changes: the signature is not even
    checked, the record is not marked [failed], and the gateway is not
    reached. *)
Theorem verification_requires_owner (E : Env) (u : User) (body : VerifyBody.t)
    (oid pid sig : string) (w : World) :
  VerifyBody.orderId body = Some oid -> oid <> "" ->
  VerifyBody.paymentId body = Some pid -> pid <> "" ->
  VerifyBody.signature body = Some sig -> sig <> "" ->
  match List.find (fun q => String.eqb (orderId q) oid) (db w) with
  | None =>
      verifyRazorpayPayment E u body w
        = (Returned (reply 404 false "Payment record not found"), w)
  | Some p =>
      user p <> user_id u ->
      verifyRazorpayPayment E u body w
        = (Returned (reply 403 false "Not authorized to verify this payment"), w)
  end.
Proof.
  intros Ho Hoid Hp Hpid Hs Hsig.
  destruct (verifyRazorpayPayment_cases E u body w)
    as [Hbad|(oid' & pid' & sig' & Ho' & _ & Hp' & _ & Hs' & _ & Hcase)].
  - exfalso. unfold verifyRazorpayPayment in Hbad. rewrite Ho, Hp, Hs in Hbad.
    apply String.eqb_neq in Hoid, Hpid, Hsig. rewrite Hoid, Hpid, Hsig in Hbad.
    cbn [orb] in Hbad. unfold try_catch, bind, Payment_findOne in Hbad.
    destruct (List.find _ (db w)) as [p|]; [|discriminate Hbad].
    destruct (negb _); [discriminate Hbad|].
    unfold verifyPaymentSignature, try_catch, ret, throw in Hbad.
    destruct (RAZORPAY_KEY_SECRET E); [|discriminate Hbad].
    destruct (negb _).
    + unfold Payment_save in Hbad. destruct (db_accepts E _ _); discriminate Hbad.
    + destruct (getPaymentDetails E pid w) as [[e|m] w1]; [|discriminate Hbad].
      unfold Payment_save in Hbad. destruct (db_accepts E _ _); discriminate Hbad.
  - rewrite Ho in Ho'. injection Ho' as <-.
    destruct (List.find _ (db w)) as [p|]; [|exact Hcase].
    intros Hne. destruct Hcase as [[_ H]|Heq]; [exact H|contradiction].
Qed.

(** The sample order, verified by somebody who is not the buyer, with the
    buyer's valid signature. *)
Lemma verification_requires_owner_witness :
  verifyRazorpayPayment Sample.env
    {| user_id := "user_2"; name := "Eve"; email := "eve@example.com"; role := "student" |}
    Sample.verify_body Sample.after_order
  = (Returned (reply 403 false "Not authorized to verify this payment"),
     Sample.after_order).
Proof.
  refine (verification_requires_owner Sample.env
            {| user_id := "user_2"; name := "Eve"; email := "eve@example.com";
               role := "student" |}
            Sample.verify_body "order_1" "pay_1" "mac(key_secret,order_1|pay_1)"
            Sample.after_order _ _ _ _ _ _ _);
    try reflexivity; discriminate.
Defined.

(** X11. When the signature is valid but fetching the payment from the gateway
    fails, the verification is answered 500 with the adapter's message and the
    collection is untouched: the record keeps its status and is not marked
    [failed], so the client can retry. *)
Theorem verification_gateway_failure (E : Env) (u : User) (body : VerifyBody.t)
    (oid pid sig secret m : string) (w w1 : World) (p : Payment) :
  VerifyBody.orderId body = Some oid -> oid <> "" ->
  VerifyBody.paymentId body = Some pid -> pid <> "" ->
  VerifyBody.signature body = Some sig -> sig <> "" ->
  List.find (fun q => String.eqb (orderId q) oid) (db w) = Some p ->
  user p = user_id u ->
  RAZORPAY_KEY_SECRET E = Some secret ->
  sig = hmac_sha256_hex E secret (oid +:+ "|" +:+ pid) ->
  getPaymentDetails E pid w = (Thrown m, w1) ->
  verifyRazorpayPayment E u body w
    = (Returned (reply_error "Error verifying payment" m), w1) /\
  db w1 = db w /\
  String.prefix "Error fetching payment details: " m = true.
Proof.
  intros Ho Hoid Hp Hpid Hs Hsig Hfind Huser Hsecret Hmac Hfetch.
  rewrite (verifyRazorpayPayment_run E u body oid pid sig w p) by assumption.
  rewrite Hsecret, <- Hmac, String.eqb_refl, Hfetch. split; [reflexivity|]. split.
  - rewrite <- (getPaymentDetails_db E pid w). now rewrite Hfetch.
  - revert Hfetch.
    unfold getPaymentDetails, getRazorpayInstance, razorpay_payments_fetch. eff_unfold.
    repeat case_match; intros; simplify_eq; apply prefix_append.
Qed.

(** A verification of the sample order with a payment the gateway does not
    know. *)
Lemma verification_gateway_failure_witness :
  verifyRazorpayPayment Sample.env Sample.buyer
    {| VerifyBody.orderId := Some "order_1";
       VerifyBody.paymentId := Some "pay_2";
       VerifyBody.signature := Some "mac(key_secret,order_1|pay_2)" |}
    Sample.after_order
  = (Returned
       (reply_error "Error verifying payment"
          "Error fetching payment details: The id provided does not exist"),
     snd (getPaymentDetails Sample.env "pay_2" Sample.after_order)) /\
  db (snd (getPaymentDetails Sample.env "pay_2" Sample.after_order))
    = db Sample.after_order /\
  String.prefix "Error fetching payment details: "
    "Error fetching payment details: The id provided does not exist" = true.
Proof.
  apply (verification_gateway_failure Sample.env Sample.buyer
           {| VerifyBody.orderId := Some "order_1";
              VerifyBody.paymentId := Some "pay_2";
              VerifyBody.signature := Some "mac(key_secret,order_1|pay_2)" |}
           "order_1" "pay_2" "mac(key_secret,order_1|pay_2)" "key_secret"
           "Error fetching payment details: The id provided does not exist"
           Sample.after_order
           (snd (getPaymentDetails Sample.env "pay_2" Sample.after_order))
           Sample.pending_payment);
    try discriminate; vm_compute; reflexivity.
Defined.

(** ** Delivering a webhook twice *)

Lemma failed_document_idem (e : PaymentEntity.t) (p : Payment) :
  failed_document e (failed_document e p) = failed_document e p.
Proof. reflexivity. Qed.

Lemma handlePaymentFailed_idem (E : Env) (e : PaymentEntity.t) (w : World) :
  handlePaymentFailed E (Some e) (snd (handlePaymentFailed E (Some e) w))
  = handlePaymentFailed E (Some e) w.
Proof.
  rewrite (handlePaymentFailed_run E e w).
  destruct (List.find _ (db w)) as [p|] eqn:Hfind.
  - destruct (db_accepts E (db w) (failed_document e p)) eqn:Hacc; cbn [snd].
    + rewrite handlePaymentFailed_run. cbn [db with_db].
      rewrite (find_order_replace_doc _ _ p (failed_document e p) Hfind) by reflexivity.
      rewrite failed_document_idem, replace_doc_idem.
      destruct (db_accepts E (replace_doc _ _) _); reflexivity.
    + rewrite handlePaymentFailed_run, Hfind, Hacc. reflexivity.
  - cbn [snd]. rewrite handlePaymentFailed_run, Hfind. reflexivity.
Qed.

Lemma handleOrderPaid_idem (E : Env) (o : RazorpayOrder.t) (w : World) :
  handleOrderPaid E (Some o) (snd (handleOrderPaid E (Some o) w))
  = handleOrderPaid E (Some o) w.
Proof.
  rewrite (handleOrderPaid_run E o w).
  destruct (List.find _ (db w)) as [p|] eqn:Hfind.
  - destruct (PaymentStatus_eqb (paymentStatus p) completed) eqn:Hst; cbn [snd].
    + rewrite handleOrderPaid_run, Hfind, Hst. reflexivity.
    + destruct (db_accepts E (db w) (set_paymentStatus completed p)) eqn:Hacc; cbn [snd].
      * rewrite handleOrderPaid_run. cbn [db with_db].
        rewrite (find_order_replace_doc _ _ p (set_paymentStatus completed p) Hfind)
          by reflexivity.
        reflexivity.
      * rewrite handleOrderPaid_run, Hfind, Hst, Hacc. reflexivity.
  - cbn [snd]. rewrite handleOrderPaid_run, Hfind. reflexivity.
Qed.

Lemma handlePaymentCaptured_returns (E : Env) (e : PaymentEntity.t) (w : World) :
  handlePaymentCaptured E (Some e) w
  = (Returned tt, snd (handlePaymentCaptured E (Some e) w)).
Proof. rewrite handlePaymentCaptured_run. repeat case_match; reflexivity. Qed.

Lemma dispatch_idem (E : Env) (ev : WebhookEvent.t) (w : World) :
  dispatch E ev (snd (dispatch E ev w)) = dispatch E ev w.
Proof.
  unfold dispatch.
  destruct (WebhookEvent.event ev) as [kind|]; [|reflexivity].
  destruct (String.eqb kind "payment.captured").
  { destruct (WebhookEvent.payment_entity ev) as [[e|]|]; try reflexivity.
    unfold payload_entity, bind, ret.
    rewrite (handlePaymentCaptured_returns E e
               (snd (handlePaymentCaptured E (Some e) w))).
    rewrite (handlePaymentCaptured_idem E (Some e) w).
    apply eq_sym, handlePaymentCaptured_returns. }
  destruct (String.eqb kind "payment.failed").
  { destruct (WebhookEvent.payment_entity ev) as [[e|]|]; try reflexivity.
    unfold payload_entity, bind, ret. apply handlePaymentFailed_idem. }
  destruct (String.eqb kind "order.paid"); [|reflexivity].
  destruct (WebhookEvent.order_entity ev) as [[o|]|]; try reflexivity.
  unfold payload_entity, bind, ret. apply handleOrderPaid_idem.
Qed.

(** X12. Every webhook request is idempotent, whatever its event and whether or
    not it passes the signature check: delivered a second time right after the
    first, it gets the same answer and leaves the world as the first delivery
    left it. This covers [payment.failed], [order.paid], unhandled and
    malformed events as well as [payment.captured]. *)
Theorem webhook_redelivery_idempotent (E : Env) (req : WebhookRequest.t) (w : World) :
  razorpayWebhook E req (snd (razorpayWebhook E req w)) = razorpayWebhook E req w.
Proof.
  destruct (webhook_signature_ok E req) eqn:Hok.
  2:{ now rewrite !razorpayWebhook_rejects by assumption. }
  rewrite !razorpayWebhook_accepts by assumption.
  destruct (webhook_event E req) as [ev|]; [|reflexivity].
  pose proof (dispatch_idem E ev w) as Hidem.
  destruct (dispatch E ev w) as [[[]|m] w1]; cbn [snd] in *; now rewrite Hidem.
Qed.

(** ** The gateway client and its credentials *)

(** X13. The gateway client is created once: after a call of
    [getRazorpayInstance] that returned, every later call returns the same
    client without reading the environment again, so a key rotated or removed
    in [process.env] afterwards is not seen. *)
Theorem getRazorpayInstance_cached (E : Env) (w w' : World) (i : string * string) :
  getRazorpayInstance E w = (Returned i, w') ->
  razorpayInstance w' = Some i /\
  (razorpayInstance w = None ->
   RAZORPAY_KEY_ID E = Some (fst i) /\ RAZORPAY_KEY_SECRET E = Some (snd i) /\
   fst i <> "" /\ snd i <> "") /\
  forall E', getRazorpayInstance E' w' = (Returned i, w').
Proof.
  unfold getRazorpayInstance. intros Hrun.
  destruct (razorpayInstance w) as [j|] eqn:Hinst.
  - injection Hrun as <- <-. split; [exact Hinst|]. split; [discriminate|].
    intros E'. now rewrite Hinst.
  - destruct (RAZORPAY_KEY_ID E) as [keyId|]; [|discriminate Hrun].
    destruct (RAZORPAY_KEY_SECRET E) as [keySecret|]; [|discriminate Hrun].
    destruct (String.eqb_spec keyId ""); [discriminate Hrun|].
    destruct (String.eqb_spec keySecret ""); [discriminate Hrun|].
    cbn [orb] in Hrun. injection Hrun as <- <-.
    split; [reflexivity|]. split; [now intros _|]. intros E'. reflexivity.
Qed.

(** The first call in the sample world, then a call with no credentials. *)
Lemma getRazorpayInstance_cached_witness :
  razorpayInstance
    (with_instance ("rzp_test_key", "key_secret") Sample.empty_world)
    = Some ("rzp_test_key", "key_secret") /\
  (razorpayInstance Sample.empty_world = None ->
   RAZORPAY_KEY_ID Sample.env = Some "rzp_test_key" /\
   RAZORPAY_KEY_SECRET Sample.env = Some "key_secret" /\
   "rzp_test_key" <> "" /\ "key_secret" <> "") /\
  forall E',
    getRazorpayInstance E'
      (with_instance ("rzp_test_key", "key_secret") Sample.empty_world)
    = (Returned ("rzp_test_key", "key_secret"),
       with_instance ("rzp_test_key", "key_secret") Sample.empty_world).
Proof.
  apply (getRazorpayInstance_cached Sample.env Sample.empty_world
           (with_instance ("rzp_test_key", "key_secret") Sample.empty_world)
           ("rzp_test_key", "key_secret")).
  reflexivity.
Defined.

(** X14. While no gateway client exists and the key id or the key secret is
    missing or empty, the three adapter calls that need the gateway throw
    without reaching it and without changing the world, each with its own
    prefix before the configuration message; the order handler then answers
    500 and stores no record. *)
Theorem adapters_need_credentials (E : Env) (w : World) :
  razorpayInstance w = None ->
  Js.truthy_str (RAZORPAY_KEY_ID E) = false \/
  Js.truthy_str (RAZORPAY_KEY_SECRET E) = false ->
  exists m,
    String.prefix "Razorpay credentials not configured" m = true /\
    (forall a c r n,
       createRazorpayOrder E a c r n w
       = (Thrown ("Error creating Razorpay order: " +:+ m), w)) /\
    (forall paymentId,
       getPaymentDetails E paymentId w
       = (Thrown ("Error fetching payment details: " +:+ m), w)) /\
    (forall paymentId a n,
       processRazorpayRefund E paymentId a n w
       = (Thrown ("Error processing refund: " +:+ m), w)) /\
    (forall u body r w',
       createRazorpayOrderHandler E u body w = (Returned r, w') ->
       w' = w /\ (Response.status r = 400 \/ Response.status r = 500)).
Proof.
  intros Hinst Hmissing.
  assert (Hthrow : getRazorpayInstance E w
                   = (Thrown "Razorpay credentials not configured. Please set RAZORPAY_KEY_ID and RAZORPAY_KEY_SECRET in your .env file", w)).
  { unfold getRazorpayInstance. rewrite Hinst. unfold Js.truthy_str in Hmissing.
    destruct (RAZORPAY_KEY_ID E) as [keyId|]; [|reflexivity].
    destruct (RAZORPAY_KEY_SECRET E) as [keySecret|]; [|reflexivity].
    destruct Hmissing as [H|H]; apply negb_false_iff in H; rewrite H;
      [reflexivity|now rewrite orb_true_r]. }
  exists "Razorpay credentials not configured. Please set RAZORPAY_KEY_ID and RAZORPAY_KEY_SECRET in your .env file".
  split; [|split_and!].
  - vm_compute. reflexivity.
  - intros a c r n. unfold createRazorpayOrder. eff_unfold. now rewrite Hthrow.
  - intros paymentId. unfold getPaymentDetails. eff_unfold. now rewrite Hthrow.
  - intros paymentId a n. unfold processRazorpayRefund. eff_unfold. now rewrite Hthrow.
  - intros u body r w' Hrun. unfold createRazorpayOrderHandler in Hrun.
    unfold try_catch at 1 in Hrun.
    destruct (OrderBody.amount body) as [a|];
      [|unfold ret in Hrun; injection Hrun as <- <-; split; [reflexivity|now left]].
    destruct (Js.falsy_num a || PrimFloat.leb a 0);
      [unfold ret in Hrun; injection Hrun as <- <-; split; [reflexivity|now left]|].
    destruct (OrderBody.items body) as [its|];
      [|unfold ret in Hrun; injection Hrun as <- <-; split; [reflexivity|now left]].
    destruct (Nat.eqb (length its) 0);
      [unfold ret in Hrun; injection Hrun as <- <-; split; [reflexivity|now left]|].
    unfold bind at 1, Date_now at 1 in Hrun. unfold bind at 1 in Hrun.
    unfold createRazorpayOrder in Hrun. eff_unfold. rewrite Hthrow in Hrun.
    injection Hrun as <- <-. split; [reflexivity|now right].
Qed.

(** An order requested before the key id is configured. *)
Lemma adapters_need_credentials_witness :
  exists m,
    String.prefix "Razorpay credentials not configured" m = true /\
    (forall a c r n,
       createRazorpayOrder env_without_key_id a c r n Sample.empty_world
       = (Thrown ("Error creating Razorpay order: " +:+ m), Sample.empty_world)) /\
    (forall paymentId,
       getPaymentDetails env_without_key_id paymentId Sample.empty_world
       = (Thrown ("Error fetching payment details: " +:+ m), Sample.empty_world)) /\
    (forall paymentId a n,
       processRazorpayRefund env_without_key_id paymentId a n Sample.empty_world
       = (Thrown ("Error processing refund: " +:+ m), Sample.empty_world)) /\
    (forall u body r w',
       createRazorpayOrderHandler env_without_key_id u body Sample.empty_world
         = (Returned r, w') ->
       w' = Sample.empty_world /\ (Response.status r = 400 \/ Response.status r = 500)).
Proof.
  apply (adapters_need_credentials env_without_key_id Sample.empty_world).
  - reflexivity.
  - left. reflexivity.
Defined.

(** X15. Every error an adapter call throws carries that call's prefix, so the
    [error] field of a 500 answer tells which gateway operation failed. *)
Theorem adapter_errors_prefixed (E : Env) (w w' : World) (m : string) :
  (forall a c r n,
     createRazorpayOrder E a c r n w = (Thrown m, w') ->
     String.prefix "Error creating Razorpay order: " m = true) /\
  (forall paymentId,
     getPaymentDetails E paymentId w = (Thrown m, w') ->
     String.prefix "Error fetching payment details: " m = true) /\
  (forall paymentId a n,
     processRazorpayRefund E paymentId a n w = (Thrown m, w') ->
     String.prefix "Error processing refund: " m = true) /\
  (forall orderId_ paymentId signature,
     verifyPaymentSignature E orderId_ paymentId signature w = (Thrown m, w') ->
     String.prefix "Error verifying payment signature: " m = true /\
     RAZORPAY_KEY_SECRET E = None /\ w' = w).
Proof.
  split_and!.
  - intros a c r n.
    unfold createRazorpayOrder, getRazorpayInstance, razorpay_orders_create. eff_unfold.
    repeat case_match; intros; simplify_eq; apply prefix_append.
  - intros paymentId.
    unfold getPaymentDetails, getRazorpayInstance, razorpay_payments_fetch. eff_unfold.
    repeat case_match; intros; simplify_eq; apply prefix_append.
  - intros paymentId a n.
    unfold processRazorpayRefund, getRazorpayInstance, razorpay_payments_refund.
    eff_unfold.
    repeat case_match; intros; simplify_eq; apply prefix_append.
  - intros orderId_ paymentId signature. unfold verifyPaymentSignature. eff_unfold.
    destruct (RAZORPAY_KEY_SECRET E); intros H; simplify_eq.
    split_and!; [apply prefix_append|reflexivity|reflexivity].
Qed.

(** ** What a granted refund stores *)

Lemma or_str_nonempty (a : option string) (b : string) :
  b <> "" -> Js.or_str a b <> "".
Proof.
  intros Hb. unfold Js.or_str. destruct a as [s|]; [|exact Hb].
  destruct (String.eqb_spec s ""); assumption.
Qed.

(** X16. When [processRefund] answers 200, the record it was addressed to is
    stored with status [refunded], with the requested amount as [refundAmount],
    which is greater than 0 and not greater than the record's [amount] (a
    partial refund is taken as it is), with a non-empty [refundReason], with
    the time of the request as [refundedAt], and with its [transactionId] and
    [amount] as before. *)
Theorem granted_refund_stored (E : Env) (id : ObjectId) (body : RefundBody.t)
    (w w' : World) (r : Response.t) :
  processRefund E id body w = (Returned r, w') ->
  Response.status r = 200 ->
  exists a p p' reason,
    RefundBody.refundAmount body = Some a /\
    List.find (fun q => String.eqb (_id q) id) (db w) = Some p /\
    List.find (fun q => String.eqb (_id q) id) (db w') = Some p' /\
    Response.data r = Some (DataPayment p') /\
    paymentStatus p' = refunded /\
    refundAmount p' = a /\
    PrimFloat.ltb 0 (refundAmount p') = true /\
    PrimFloat.ltb (amount p') (refundAmount p') = false /\
    refundReason p' = Some reason /\ reason <> "" /\
    refundedAt p' = Some (clock w) /\
    transactionId p' = transactionId p /\
    amount p' = amount p.
Proof.
  rewrite processRefund_run. cbv zeta. intros Hrun Hok.
  destruct (RefundBody.refundAmount body) as [a|];
    [|injection Hrun as <- <-; discriminate Hok].
  destruct (Js.falsy_num a || PrimFloat.leb a 0) eqn:Hvalid;
    [injection Hrun as <- <-; discriminate Hok|].
  destruct (List.find _ (db w)) as [p|] eqn:Hfind;
    [|injection Hrun as <- <-; discriminate Hok].
  destruct (negb (PaymentStatus_eqb (paymentStatus p) completed));
    [injection Hrun as <- <-; discriminate Hok|].
  destruct (PrimFloat.ltb 0 (refundAmount p));
    [injection Hrun as <- <-; discriminate Hok|].
  destruct (PrimFloat.ltb (amount p) a) eqn:Hbound;
    [injection Hrun as <- <-; discriminate Hok|].
  destruct (db_accepts E (db w) _); injection Hrun as <- <-; [|discriminate Hok].
  apply orb_false_elim in Hvalid as [Hf Hle].
  destruct (refunded_document_fields a body (clock w) p) as (Hid & Hs & Ha & Hr & Ht).
  exists a, p, (refunded_document a body (clock w) p),
    (Js.or_str (RefundBody.refundReason body) "Requested refund").
  assert (Hsame : transactionId (refunded_document a body (clock w) p) = transactionId p
                  /\ amount (refunded_document a body (clock w) p) = amount p).
  { unfold refunded_document, Js.when_truthy.
    destruct (RefundBody.notes body) as [n|]; [destruct (String.eqb n "")|]; now split. }
  destruct Hsame as [Htx Hamt].
  split_and!; try reflexivity; try assumption.
  - cbn [db with_db]. now apply (find_id_replace_doc _ _ p).
  - rewrite Ha. now apply positive_when_not_leb.
  - now rewrite Ha, Hamt.
  - now apply or_str_nonempty.
Qed.

(** The full refund of the sample record. *)
Lemma granted_refund_stored_witness :
  exists a p p' reason,
    RefundBody.refundAmount (Sample.refund_body 999) = Some a /\
    List.find (fun q => String.eqb (_id q) "payment_0") (db Sample.after_verify)
      = Some p /\
    List.find (fun q => String.eqb (_id q) "payment_0") (db Sample.after_refund)
      = Some p' /\
    Some (DataPayment Scenario.refunded_payment) = Some (DataPayment p') /\
    paymentStatus p' = refunded /\
    refundAmount p' = a /\
    PrimFloat.ltb 0 (refundAmount p') = true /\
    PrimFloat.ltb (amount p') (refundAmount p') = false /\
    refundReason p' = Some reason /\ reason <> "" /\
    refundedAt p' = Some (clock Sample.after_verify) /\
    transactionId p' = transactionId p /\
    amount p' = amount p.
Proof.
  apply (granted_refund_stored Sample.env "payment_0" (Sample.refund_body 999)
           Sample.after_verify Sample.after_refund
           (reply_data 200 "Refund processed successfully"
              (DataPayment Scenario.refunded_payment)));
    vm_compute; reflexivity.
Defined.

(** A fetch of a payment the sample gateway does not know. *)
Lemma adapter_errors_prefixed_witness :
  String.prefix "Error fetching payment details: "
    "Error fetching payment details: The id provided does not exist" = true.
Proof.
  refine (proj1 (proj2
    (adapter_errors_prefixed Sample.env Sample.after_order
       (snd (getPaymentDetails Sample.env "pay_2" Sample.after_order))
       "Error fetching payment details: The id provided does not exist")) "pay_2" _).
  vm_compute. reflexivity.
Defined.

(** ** The failed-payment webhook *)

(** X17. A [payment.failed] webhook that passes the signature check, finds the
    record of its order and is taken by the database stores status [failed],
    the entity's identifier as [transactionId] and a note: the gateway's
    [error_description] when that is a non-empty string, and [Payment failed]
    when it is missing or empty. It leaves the payment method, the receipt, the
    metadata and the refund fields of the record as they were. *)
Theorem failed_webhook_record (E : Env) (req : WebhookRequest.t) (ev : WebhookEvent.t)
    (e : PaymentEntity.t) (w : World) (p : Payment) :
  webhook_signature_ok E req = true ->
  webhook_event E req = Some ev ->
  WebhookEvent.event ev = Some "payment.failed" ->
  WebhookEvent.payment_entity ev = Some (Some e) ->
  List.find (fun q => String.eqb (orderId q) (PaymentEntity.order_id e)) (db w) = Some p ->
  db_accepts E (db w) (failed_document e p) = true ->
  exists w' p' note,
    razorpayWebhook E req w = (Returned (reply 200 true "Webhook processed"), w') /\
    List.find (fun q => String.eqb (orderId q) (PaymentEntity.order_id e)) (db w')
      = Some p' /\
    paymentStatus p' = failed /\
    transactionId p' = Some (PaymentEntity.id e) /\
    notes p' = Some note /\ note <> "" /\
    (forall d, PaymentEntity.error_description e = Some d -> d <> "" -> note = d) /\
    (PaymentEntity.error_description e = Some "" -> note = "Payment failed") /\
    (PaymentEntity.error_description e = None -> note = "Payment failed") /\
    paymentMethod p' = paymentMethod p /\
    receiptUrl p' = receiptUrl p /\
    metadata p' = metadata p /\
    refundAmount p' = refundAmount p /\
    refundReason p' = refundReason p /\
    refundedAt p' = refundedAt p.
Proof.
  intros Hok Hev Hkind Hpath Hfind Hacc.
  rewrite (razorpayWebhook_failed E req ev e) by assumption.
  exists (snd (handlePaymentFailed E (Some e) w)), (failed_document e p),
    (Js.or_str (PaymentEntity.error_description e) "Payment failed").
  split; [reflexivity|]. split; [now apply handlePaymentFailed_status|].
  split_and!; try reflexivity.
  - apply or_str_nonempty. discriminate.
  - intros d -> Hd. apply String.eqb_neq in Hd. cbn [Js.or_str]. now rewrite Hd.
  - now intros ->.
  - now intros ->.
Qed.

(** The webhook of a declined payment on the pending sample order: the note is
    the bank's message. *)
Lemma failed_webhook_record_witness :
  exists w' p' note,
    razorpayWebhook Sample.env declined_webhook Sample.after_order
      = (Returned (reply 200 true "Webhook processed"), w') /\
    List.find (fun q => String.eqb (orderId q) "order_1") (db w') = Some p' /\
    paymentStatus p' = failed /\
    transactionId p' = Some "pay_4" /\
    notes p' = Some note /\ note <> "" /\
    (forall d, Some "Payment was declined by the bank" = Some d -> d <> "" -> note = d) /\
    (Some "Payment was declined by the bank" = Some "" -> note = "Payment failed") /\
    (Some "Payment was declined by the bank" = None -> note = "Payment failed") /\
    paymentMethod p' = paymentMethod Sample.pending_payment /\
    receiptUrl p' = receiptUrl Sample.pending_payment /\
    metadata p' = metadata Sample.pending_payment /\
    refundAmount p' = refundAmount Sample.pending_payment /\
    refundReason p' = refundReason Sample.pending_payment /\
    refundedAt p' = refundedAt Sample.pending_payment.
Proof.
  apply (failed_webhook_record Sample.env declined_webhook declined_event
           declined_payment Sample.after_order Sample.pending_payment);
    vm_compute; reflexivity.
Defined.

(** The same delivery, evaluated: the stored note is the bank's message; the
    sample failure event, which carries no description, stores the default. *)
Example declined_note_stored :
  map notes (db (snd (razorpayWebhook Sample.env declined_webhook Sample.after_order)))
    = [Some "Payment was declined by the bank"] /\
  map notes
    (db (snd (razorpayWebhook Sample.env (Sample.webhook "failed order_1 pay_1")
                Sample.after_order)))
    = [Some "Payment failed"].
Proof. split; vm_compute; reflexivity. Qed.

(** ** The schema's method enum and the gateway's method *)

Lemma schema_rejects_method (d : list Payment) (p : Payment) :
  Sample.one_of Sample.paymentMethod_enum (paymentMethod p) = false ->
  Sample.schema_accepts d p = false.
Proof. intros H. unfold Sample.schema_accepts. now rewrite H. Qed.

(** X18. When the validators of [models/Payment.js] decide the writes, a
    payment whose gateway method is a non-empty string outside the schema's
    [paymentMethod] enum cannot be recorded: the [payment.captured] webhook for
    it is answered 200 and changes nothing (the refused save is only logged),
    and a client verification of it with a valid signature is answered 500 and
    leaves the record as it was. *)
Theorem unlisted_method_not_recorded (E : Env) (e : PaymentEntity.t) (m : string)
    (w : World) (p : Payment) :
  db_accepts E = Sample.schema_accepts ->
  PaymentEntity.method e = Js.Str m ->
  m <> "" ->
  Sample.one_of Sample.paymentMethod_enum m = false ->
  List.find (fun q => String.eqb (orderId q) (PaymentEntity.order_id e)) (db w) = Some p ->
  (forall req ev,
     webhook_signature_ok E req = true ->
     webhook_event E req = Some ev ->
     WebhookEvent.event ev = Some "payment.captured" ->
     WebhookEvent.payment_entity ev = Some (Some e) ->
     razorpayWebhook E req w = (Returned (reply 200 true "Webhook processed"), w)) /\
  (forall u body pid sig secret w1,
     VerifyBody.orderId body = Some (PaymentEntity.order_id e) ->
     PaymentEntity.order_id e <> "" ->
     VerifyBody.paymentId body = Some pid -> pid <> "" ->
     VerifyBody.signature body = Some sig -> sig <> "" ->
     user p = user_id u ->
     RAZORPAY_KEY_SECRET E = Some secret ->
     sig = hmac_sha256_hex E secret (PaymentEntity.order_id e +:+ "|" +:+ pid) ->
     getPaymentDetails E pid w = (Returned e, w1) ->
     verifyRazorpayPayment E u body w
       = (Returned (reply_error "Error verifying payment" "Payment validation failed"),
          w1) /\
     db w1 = db w).
Proof.
  intros Hschema Hmethod Hm Hout Hfind.
  assert (Hor : Js.or_str (Some m) (paymentMethod p) = m).
  { unfold Js.or_str. apply String.eqb_neq in Hm. now rewrite Hm. }
  split.
  - intros req ev Hok Hev Hkind Hpath.
    rewrite (razorpayWebhook_captured E req ev (Some e)) by assumption.
    rewrite handlePaymentCaptured_run, Hfind, Hschema.
    rewrite schema_rejects_method; [reflexivity|].
    change (paymentMethod (captured_document e p))
      with (Js.or_str (Js.text (PaymentEntity.method e)) (paymentMethod p)).
    rewrite Hmethod. cbn [Js.text]. now rewrite Hor.
  - intros u body pid sig secret w1 Ho Hoid Hp Hpid Hs Hsig Huser Hsecret Hmac Hfetch.
    assert (Hdb : db w1 = db w).
    { rewrite <- (getPaymentDetails_db E pid w). now rewrite Hfetch. }
    rewrite (verifyRazorpayPayment_run E u body (PaymentEntity.order_id e) pid sig w p)
      by assumption.
    rewrite Hsecret, <- Hmac, String.eqb_refl, Hfetch. cbv zeta. rewrite Hschema.
    rewrite schema_rejects_method; [now split|].
    assert (Hpm : paymentMethod (verified_document pid e p)
                  = Js.or_str (Js.text (PaymentEntity.method e)) (paymentMethod p)).
    { unfold verified_document. now destruct (String.eqb _ _). }
    rewrite Hpm, Hmethod. cbn [Js.text]. now rewrite Hor.
Qed.

(** A captured card payment for the pending sample order. *)
Lemma unlisted_method_not_recorded_witness :
  razorpayWebhook Sample.env card_webhook Sample.after_order
  = (Returned (reply 200 true "Webhook processed"), Sample.after_order).
Proof.
  refine (proj1
    (unlisted_method_not_recorded Sample.env card_payment "card" Sample.after_order
       Sample.pending_payment _ _ _ _ _)
    card_webhook
    {| WebhookEvent.event := Some "payment.captured";
       WebhookEvent.payment_entity := Some (Some card_payment);
       WebhookEvent.order_entity := None |} _ _ _ _);
    try discriminate; try reflexivity; vm_compute; reflexivity.
Defined.
